(** * etl_lib.transformers: the transformation engine over pandas frames

    A shallow embedding of [src/etl_lib/transformers.py]: [map_columns],
    [filter_rows], [add_new_columns], [convert_data_types] and
    [transform_data], over a model of the part of pandas these functions
    call (pandas 1.x/2.x semantics, without copy-on-write and without the
    dedicated string dtype).

    - A cell is a tagged value; the four missing values pandas knows
      (None, NaN, pd.NA, NaT) are kept apart because [astype(str)] and
      [astype(bool)] tell them apart.
    - A frame is a row count and an ordered list of labelled series.  Row
      labels are not kept: every series the stages assign is taken from the
      frame it is assigned to, so index alignment is the identity.  Column
      labels are strings.  Pandas allows a label to repeat; selection by a
      list of labels and assignment then concern every column with the
      label, as in pandas, while [df[c]] for one label reads the first such
      column (pandas returns a sub-frame there), so the model is exact on
      frames without repeated labels.
    - The entries of the template are typed as its schema types them:
      column names, conditions and operation names are strings, a key may
      be absent.  A mapping entry may also be any other value, since
      map_columns tests for that.
    - Frames live in a store and are passed by reference: [df.copy()] and
      selections allocate, [df[name] = v] and [rename(inplace=True)] write
      in place.  Exceptions are the left summand of the result.
    - What pandas computes outside the code under study (float and date
      formatting and parsing, ordering comparisons, membership, regular
      expressions, [DataFrame.eval]) is a field of [pandas_ext], so every
      theorem holds whatever these return.
    - Logging has no effect on the frames and is left out.
    - The readers and writers of [src/etl_lib/readers.py] and
      [src/etl_lib/writers.py] and main of [src/convert.py] follow the
      stages; frames are held by value there, since none is written to,
      and the calls into pandas, json and os are fields of [io_ext] and
      [os_ext]. *)

From Stdlib Require Import ZArith QArith String Ascii List Bool Lia.
From stdpp Require Import base option list strings gmap pretty.

Local Open Scope string_scope.
Local Open Scope list_scope.

(** ** Values *)

Inductive cell : Type :=
  | CNone                 (* Python None *)
  | CNaN                  (* float nan *)
  | CNA                   (* pd.NA, the missing value of nullable dtypes *)
  | CNaT                  (* pd.NaT *)
  | CBool (b : bool)
  | CInt (z : Z)
  | CFloat (q : Q)        (* a finite float, as the rational it denotes *)
  | CStr (s : string)
  | CTime (ns : Z).       (* Timestamp, nanoseconds since the epoch *)

(** pd.isna on a scalar. *)
Definition isnull (c : cell) : bool :=
  match c with
  | CNone | CNaN | CNA | CNaT => true
  | _ => false
  end.

Definition notnull (c : cell) : bool := negb (isnull c).

Inductive dtype : Type :=
  | DObject | DInt64 | DFloat64 | DBool | DDatetime
  | DNullableInt.         (* 'Int64' *)

Definition dtype_eqb (a b : dtype) : bool :=
  match a, b with
  | DObject, DObject | DInt64, DInt64 | DFloat64, DFloat64
  | DBool, DBool | DDatetime, DDatetime | DNullableInt, DNullableInt => true
  | _, _ => false
  end.

Record Series : Type := mkSeries { s_dtype : dtype; s_values : list cell }.

Record DataFrame : Type := mkFrame { nrows : nat; data : list (string * Series) }.

(** df.columns *)
Definition columns (d : DataFrame) : list string := (data d).*1.

(** [c in df.columns] *)
Definition in_columns (c : string) (d : DataFrame) : bool :=
  bool_decide (c ∈ columns d).

(** Values of the template, as json.load returns them. *)
#[local] Unset Elimination Schemes.
Inductive json : Type :=
  | JNull
  | JBool (b : bool)
  | JInt (z : Z)
  | JFloat (q : Q)
  | JStr (s : string)
  | JList (l : list json)
  | JDict (kv : list (string * json)).
#[local] Set Elimination Schemes.

Inductive exn : Type :=
  | KeyError | TypeError | ValueError | AttributeError | ReError | OtherError.

(** The right-hand side of [df[name] = v]: a scalar that is broadcast, or
    the values of a series or list-like. *)
Inductive rhs : Type :=
  | RScalar (c : cell)
  | RSeries (s : Series).

Inductive cmp_op : Type := OpGt | OpLt | OpGe | OpLe | OpEq | OpNe.

(** ** What pandas and Python compute outside this module *)

Record pandas_ext : Type := {
  (* str(x) of a finite float and of a Timestamp *)
  float_str : Q -> string;
  time_str : Z -> string;
  (* str(x) of a list or dict of the template *)
  container_str : json -> string;
  (* the float a numeric literal denotes, for literals that are not plain
     decimal integers; None when pandas cannot parse it *)
  parse_float : string -> option Q;
  (* the float64 that stands for an integer beyond 2^53 in absolute value,
     read from a literal or cast from an int: not every such integer is a
     float64, and the nearest one is taken *)
  float_of_int : Z -> Q;
  (* [series <op> value]; raises on operands that cannot be compared *)
  series_compare : cmp_op -> Series -> json -> exn + list bool;
  (* [series.isin(values)] *)
  series_isin : Series -> list json -> exn + list bool;
  (* re.compile(pat) followed by re.search: None when pat is not a valid
     regular expression *)
  re_search : string -> option (string -> bool);
  (* whether the .str accessor accepts an object series holding these
     non-null cells, at least one of them not a string *)
  str_accessor_mixed : list cell -> bool;
  (* df.eval(expression, engine='python') *)
  frame_eval : DataFrame -> string -> exn + rhs;
  (* a list or dict of the template as the right-hand side of a column
     assignment *)
  listlike_rhs : json -> exn + rhs;
  (* frame.astype(str).agg(sep.join, axis=1) on a frame without rows or
     without columns *)
  agg_join_empty : DataFrame -> string -> exn + rhs;
  (* pd.to_datetime(series, errors='coerce') *)
  to_datetime : Series -> exn + Series
}.

(** ** The store and the monad of stage code *)

Abbreviation ref := nat.
Abbreviation heap := (list DataFrame).

Definition M (A : Type) : Type := heap -> (exn + A) * heap.

Definition ret {A} (a : A) : M A := fun h => (inr a, h).

Definition bind {A B} (m : M A) (k : A -> M B) : M B :=
  fun h => match m h with
           | (inr a, h') => k a h'
           | (inl e, h') => (inl e, h')
           end.

Definition raise {A} (e : exn) : M A := fun h => (inl e, h).

(** try: m / except Exception: handler *)
Definition try_except {A} (m : M A) (handler : exn -> M A) : M A :=
  fun h => match m h with
           | (inr a, h') => (inr a, h')
           | (inl e, h') => handler e h'
           end.

Definition lift {A} (r : exn + A) : M A := fun h => (r, h).

Declare Scope pd_scope.
Delimit Scope pd_scope with pd.
Notation "x <- m ;; k" := (bind m (fun x => k))
  (at level 100, m at next level, right associativity) : pd_scope.
Notation "m ;;; k" := (bind m (fun _ => k))
  (at level 100, right associativity) : pd_scope.
Local Open Scope pd_scope.

(** Reading the frame a reference points to.  A reference the program
    holds is never dangling; the model raises there to stay total. *)
Definition load (r : ref) : M DataFrame :=
  fun h => match h !! r with
           | Some d => (inr d, h)
           | None => (inl OtherError, h)
           end.

Definition store (r : ref) (d : DataFrame) : M unit :=
  fun h => (inr tt, <[r := d]> h).

Definition alloc (d : DataFrame) : M ref :=
  fun h => (inr (List.length h), h ++ [d]).

(** df.copy() *)
Definition copy (r : ref) : M ref := d <- load r ;; alloc d.

Fixpoint fold_m {A S} (f : S -> A -> M S) (l : list A) (s : S) : M S :=
  match l with
  | [] => ret s
  | a :: l' => s' <- f s a ;; fold_m f l' s'
  end.

Fixpoint for_each {A} (f : A -> M unit) (l : list A) : M unit :=
  match l with
  | [] => ret tt
  | a :: l' => f a ;;; for_each f l'
  end.

(** ** Strings *)

(** str(x) as [astype(str)] applies it to a cell. *)
Definition cell_str (ext : pandas_ext) (c : cell) : string :=
  match c with
  | CNone => "None"
  | CNaN => "nan"
  | CNA => "<NA>"
  | CNaT => "NaT"
  | CBool true => "True"
  | CBool false => "False"
  | CInt z => pretty z
  | CFloat q => float_str ext q
  | CStr s => s
  | CTime t => time_str ext t
  end.

(** str(value) of a template value. *)
Definition py_str (ext : pandas_ext) (v : json) : string :=
  match v with
  | JNull => "None"
  | JBool true => "True"
  | JBool false => "False"
  | JInt z => pretty z
  | JFloat q => float_str ext q
  | JStr s => s
  | JList _ | JDict _ => container_str ext v
  end.

Definition str_startswith (pat s : string) : bool := String.prefix pat s.

Definition str_endswith (pat s : string) : bool :=
  String.prefix (String.rev pat) (String.rev s).

Fixpoint str_find (pat s : string) : bool :=
  String.prefix pat s ||
  match s with
  | EmptyString => false
  | String _ s' => str_find pat s'
  end.

Definition regex_meta : list ascii :=
  list_ascii_of_string ".^$*+?{}[]\|()".

(** Whether a pattern holds a character that re reads as an operator; a
    pattern without one matches exactly where it occurs as a substring. *)
Definition has_regex_meta (pat : string) : bool :=
  existsb (fun a => existsb (Ascii.eqb a) regex_meta) (list_ascii_of_string pat).

Definition join (sep : string) (l : list string) : string :=
  String.concat sep l.

(** ** Frame primitives *)

(** df[c] for a label that the frame has once: the series under it.
    Where a label repeats, pandas answers with a sub-frame, and the code
    that expects a series (its dtype, a mask of the rows) takes other
    paths.  The loops that read one column, of filter_rows, of the copy
    operation and of convert_data_types, are modelled for frames whose
    labels are unique; the properties about them assume it. *)
Definition lookup_column (c : string) (d : DataFrame) : option Series :=
  snd <$> List.find (fun p => String.eqb p.1 c) (data d).

Definition getitem (r : ref) (c : string) : M Series :=
  d <- load r ;;
  match lookup_column c d with
  | Some s => ret s
  | None => raise KeyError
  end.

(** df[names] for a list of labels: a new frame with the columns under
    these labels, in the order asked for; KeyError when one is missing. *)
Definition select_columns (names : list string) (d : DataFrame) : DataFrame :=
  mkFrame (nrows d)
    (flat_map (fun n => List.filter (fun p => String.eqb p.1 n) (data d)) names).

Definition getitem_list (r : ref) (names : list string) : M ref :=
  d <- load r ;;
  if forallb (fun n => in_columns n d) names
  then alloc (select_columns names d)
  else raise KeyError.

Fixpoint keep {A} (mask : list bool) (l : list A) : list A :=
  match mask, l with
  | b :: mask', a :: l' => if b then a :: keep mask' l' else keep mask' l'
  | _, _ => []
  end.

Definition select_rows (mask : list bool) (d : DataFrame) : DataFrame :=
  mkFrame (List.length (List.filter id mask))
    (map (fun p => (p.1, mkSeries (s_dtype p.2) (keep mask (s_values p.2)))) (data d)).

(** df[mask] for a boolean series over the rows: a new frame with the rows
    where the mask holds.  A mask computed from a series of the frame has
    one entry per row. *)
Definition getitem_mask (r : ref) (mask : list bool) : M ref :=
  d <- load r ;;
  if (List.length mask =? nrows d)%nat
  then alloc (select_rows mask d)
  else raise ValueError.

(** df.rename(columns=rename_map, inplace=True) *)
Definition rename (rename_map : gmap string string) (d : DataFrame) : DataFrame :=
  mkFrame (nrows d)
    (map (fun p => (default p.1 (rename_map !! p.1), p.2)) (data d)).

Definition rename_inplace (r : ref) (rename_map : gmap string string) : M unit :=
  d <- load r ;; store r (rename rename_map d).

Definition scalar_dtype (c : cell) : dtype :=
  match c with
  | CBool _ => DBool
  | CInt _ => DInt64
  | CFloat _ | CNaN => DFloat64
  | CTime _ | CNaT => DDatetime
  | CNA | CNone | CStr _ => DObject
  end.

Definition broadcast (c : cell) (n : nat) : Series :=
  mkSeries (scalar_dtype c) (repeat c n).

(** The column under [name] becomes [s]: in place when the label exists,
    appended as the last column otherwise. *)
Definition set_column (name : string) (s : Series) (d : DataFrame) : DataFrame :=
  if in_columns name d
  then mkFrame (nrows d)
         (map (fun p => if String.eqb p.1 name then (p.1, s) else p) (data d))
  else mkFrame (nrows d) (data d ++ [(name, s)]).

(** What a frame without rows becomes when a list-like of [n] values is
    assigned to it: [n] rows, the old columns filled with missing values. *)
Definition missing_series (dt : dtype) (n : nat) : Series :=
  match dt with
  | DNullableInt => mkSeries DNullableInt (repeat CNA n)
  | DDatetime => mkSeries DDatetime (repeat CNaT n)
  | DObject => mkSeries DObject (repeat CNaN n)
  | _ => mkSeries DFloat64 (repeat CNaN n)
  end.

Definition grow (n : nat) (d : DataFrame) : DataFrame :=
  mkFrame n (map (fun p => (p.1, missing_series (s_dtype p.2) n)) (data d)).

(** df[name] = v.  A scalar is broadcast to every row.  A series or
    list-like must have one value per row (ValueError otherwise), except
    that a frame without rows takes its rows from a non-empty value. *)
Definition assign (name : string) (v : rhs) (d : DataFrame) : exn + DataFrame :=
  match v with
  | RScalar c => inr (set_column name (broadcast c (nrows d)) d)
  | RSeries s =>
      let n := List.length (s_values s) in
      if ((nrows d =? 0) && negb (n =? 0))%nat
      then inr (set_column name s (grow n d))
      else if (n =? nrows d)%nat then inr (set_column name s d)
      else inl ValueError
  end.

Definition setitem (r : ref) (name : string) (v : rhs) : M unit :=
  d <- load r ;;
  d' <- lift (assign name v d) ;;
  store r d'.

(** ** map_columns *)

(** An entry of column_mappings: a dict, with its 'from' and 'to' values
    when the keys are present, or any other template value. *)
Inductive mapping_entry : Type :=
  | MDict (m_from m_to : option string)
  | MOther.

(** One turn of the loop that fills rename_map. *)
Definition note_rename (d : DataFrame) (rename_map : gmap string string)
    (mapping_entry : mapping_entry) : gmap string string :=
  match mapping_entry with
  | MDict (Some old_name) (Some new_name) =>
      if in_columns old_name d
      then if negb (String.eqb old_name new_name)
           then <[old_name := new_name]> rename_map
           else rename_map
      else rename_map
  | _ => rename_map                (* invalid entry: continue *)
  end.

(** m['from'] *)
Definition entry_from (m : mapping_entry) : exn + string :=
  match m with
  | MDict (Some f) _ => inr f
  | MDict None _ => inl KeyError
  | MOther => inl TypeError
  end.

(** [m['from'] for m in column_mappings if m['from'] in df.columns] *)
Fixpoint columns_to_select (d : DataFrame) (column_mappings : list mapping_entry)
  : exn + list string :=
  match column_mappings with
  | [] => inr []
  | m :: rest =>
      match entry_from m with
      | inl e => inl e
      | inr f =>
          match columns_to_select d rest with
          | inl e => inl e
          | inr sel => inr (if in_columns f d then f :: sel else sel)
          end
      end
  end.

Definition map_columns (df : ref) (column_mappings : list mapping_entry) : M ref :=
  match column_mappings with
  | [] => ret df
  | _ =>
      d <- load df ;;
      let rename_map := fold_left (note_rename d) column_mappings ∅ in
      columns_to_select_original <- lift (columns_to_select d column_mappings) ;;
      match columns_to_select_original with
      | [] => ret df
      | _ =>
          selected <- getitem_list df columns_to_select_original ;;
          mapped_df <- copy selected ;;
          rename_inplace mapped_df rename_map ;;;
          ret mapped_df
      end
  end.

(** ** filter_rows *)

(** A filter entry, read with f.get: an absent key reads as None. *)
Record filter_entry : Type := mkFilter {
  f_column : option string;
  f_condition : option string;
  f_value : json
}.

Definition is_cond (condition : option string) (s : string) : bool :=
  match condition with
  | Some c => String.eqb c s
  | None => false
  end.

(** series.astype(str) *)
Definition astype_str (ext : pandas_ext) (s : Series) : Series :=
  mkSeries DObject (map (fun c => CStr (cell_str ext c)) (s_values s)).

Definition is_str (c : cell) : bool :=
  match c with CStr _ => true | _ => false end.

(** series.str: the accessor checks what the series holds before any
    method is called. *)
Definition str_accessor (ext : pandas_ext) (s : Series) : exn + list cell :=
  let present := List.filter notnull (s_values s) in
  if forallb is_str present then inr (s_values s)
  else if str_accessor_mixed ext present then inr (s_values s)
  else inl AttributeError.

(** A string method with na=False: a cell that is not a string gives the
    na value. *)
Definition str_test (f : string -> bool) (c : cell) : bool :=
  match c with
  | CStr s => f s
  | _ => false
  end.

(** series.str.contains(pat, na=False): pat is a regular expression. *)
Definition str_contains (ext : pandas_ext) (s : Series) (pat : string)
  : exn + list bool :=
  match str_accessor ext s with
  | inl e => inl e
  | inr vals =>
      if has_regex_meta pat
      then match re_search ext pat with
           | Some found => inr (map (str_test found) vals)
           | None => inl ReError
           end
      else inr (map (str_test (str_find pat)) vals)
  end.

Definition str_method (ext : pandas_ext) (f : string -> string -> bool)
    (s : Series) (pat : string) : exn + list bool :=
  match str_accessor ext s with
  | inl e => inl e
  | inr vals => inr (map (str_test (f pat)) vals)
  end.

Definition is_list (v : json) : bool :=
  match v with JList _ => true | _ => false end.

Definition json_items (v : json) : list json :=
  match v with JList l => l | _ => [] end.

(** The mask a filter entry computes from the series of its column: the
    if/elif chain of the loop body.  None when the entry leaves the frame
    as it is (a value that is not a list, a condition the chain does not
    know); the left summand when evaluation raises. *)
Definition filter_mask (ext : pandas_ext) (series : Series)
    (condition : option string) (value : json) : exn + option (list bool) :=
  let some (r : exn + list bool) : exn + option (list bool) :=
    match r with inl e => inl e | inr mask => inr (Some mask) end in
  if is_cond condition ">" then some (series_compare ext OpGt series value)
  else if is_cond condition "<" then some (series_compare ext OpLt series value)
  else if is_cond condition ">=" then some (series_compare ext OpGe series value)
  else if is_cond condition "<=" then some (series_compare ext OpLe series value)
  else if is_cond condition "==" then some (series_compare ext OpEq series value)
  else if is_cond condition "!=" then some (series_compare ext OpNe series value)
  else if is_cond condition "isin" then
    if negb (is_list value) then inr None
    else some (series_isin ext series (json_items value))
  else if is_cond condition "notin" then
    if negb (is_list value) then inr None
    else some (match series_isin ext series (json_items value) with
               | inl e => inl e
               | inr mask => inr (map negb mask)
               end)
  else if is_cond condition "isnull" then
    some (inr (map isnull (s_values series)))
  else if is_cond condition "notnull" then
    some (inr (map notnull (s_values series)))
  else if is_cond condition "contains" || is_cond condition "startswith"
          || is_cond condition "endswith" then
    let series :=
      if negb (dtype_eqb (s_dtype series) DObject)
      then astype_str ext series else series in
    if is_cond condition "contains" then
      some (str_contains ext series (py_str ext value))
    else if is_cond condition "startswith" then
      some (str_method ext str_startswith series (py_str ext value))
    else
      some (str_method ext str_endswith series (py_str ext value))
  else inr None.

(** One turn of the loop over the filters; [filtered_df] is rebound to a
    new frame when the entry applies and left as it is otherwise.  The
    labels of the frame are unique, so that [filtered_df[column]] is a
    series and the test on it a mask of the rows. *)
Definition apply_filter (ext : pandas_ext) (filtered_df : ref) (f : filter_entry)
  : M ref :=
  d <- load filtered_df ;;
  match f_column f with
  | None => ret filtered_df
  | Some column =>
      if negb (in_columns column d) then ret filtered_df
      else
        try_except
          (series <- getitem filtered_df column ;;
           r <- lift (filter_mask ext series (f_condition f) (f_value f)) ;;
           match r with
           | Some mask => getitem_mask filtered_df mask
           | None => ret filtered_df
           end)
          (fun _ => ret filtered_df)
  end.

Definition filter_rows (ext : pandas_ext) (df : ref) (filters : list filter_entry)
  : M ref :=
  match filters with
  | [] => ret df
  | _ =>
      filtered_df <- copy df ;;
      fold_m (apply_filter ext) filters filtered_df
  end.

(** ** add_new_columns *)

(** A column definition, read with col_def.get; [c_value] is None when the
    'value' key is absent and Some JNull when it is present and null. *)
Record column_def : Type := mkColumnDef {
  c_name : option string;
  c_operation : option string;
  c_sources : option (list string);
  c_separator : option string;
  c_expression : option string;
  c_source_column : option string;
  c_value : option json
}.

(** [not x] for an optional string: absent, None or empty. *)
Definition falsy (x : option string) : bool :=
  match x with
  | None | Some EmptyString => true
  | Some _ => false
  end.

(** The strings of row [i], one per column. *)
Definition row_strs (ext : pandas_ext) (d : DataFrame) (i : nat) : list string :=
  map (fun p => cell_str ext (nth i (s_values p.2) CNaN)) (data d).

(** frame.astype(str).agg(separator.join, axis=1): one joined string per
    row.  The frames built on the way are never bound to a name and are
    computed as values. *)
Definition agg_join (ext : pandas_ext) (d : DataFrame) (separator : string)
  : exn + rhs :=
  match nrows d, data d with
  | O, _ | _, [] => agg_join_empty ext d separator
  | _, _ =>
      inr (RSeries (mkSeries DObject
             (map (fun i => CStr (join separator (row_strs ext d i)))
                  (seq 0 (nrows d)))))
  end.

(** A template value as the right-hand side of [df[name] = value]. *)
Definition rhs_of_json (ext : pandas_ext) (v : json) : exn + rhs :=
  match v with
  | JNull => inr (RScalar CNone)
  | JBool b => inr (RScalar (CBool b))
  | JInt z => inr (RScalar (CInt z))
  | JFloat q => inr (RScalar (CFloat q))
  | JStr s => inr (RScalar (CStr s))
  | JList _ | JDict _ => listlike_rhs ext v
  end.

(** The value a column definition computes from the frame: the if/elif
    chain of the loop body.  None when the definition is skipped; the left
    summand when evaluation raises. *)
Definition new_column_value (ext : pandas_ext) (d : DataFrame) (col_def : column_def)
  : exn + option rhs :=
  let some (r : exn + rhs) : exn + option rhs :=
    match r with inl e => inl e | inr v => inr (Some v) end in
  let operation := c_operation col_def in
  if is_cond operation "concat" then
    let sources := default [] (c_sources col_def) in
    let separator := default "" (c_separator col_def) in
    let missing_sources := List.filter (fun s => negb (in_columns s d)) sources in
    match missing_sources with
    | _ :: _ => inr None
    | [] => some (agg_join ext (select_columns sources d) separator)
    end
  else if is_cond operation "eval" then
    match c_expression col_def with
    | None | Some EmptyString => inr None
    | Some expression => some (frame_eval ext d expression)
    end
  else if is_cond operation "copy" then
    match c_source_column col_def with
    | None | Some EmptyString => inr None
    | Some source_col =>
        if in_columns source_col d
        then match lookup_column source_col d with
             | Some s => inr (Some (RSeries s))
             | None => inl KeyError
             end
        else inr None
    end
  else if is_cond operation "default_value" then
    match c_value col_def with
    | None => inr None
    | Some value => some (rhs_of_json ext value)
    end
  else inr None.

(** One turn of the loop over the column definitions. *)
Definition add_column (ext : pandas_ext) (df : ref) (col_def : column_def) : M unit :=
  match c_name col_def with
  | None => ret tt
  | Some name =>
      if falsy (Some name) || falsy (c_operation col_def) then ret tt
      else
        try_except
          (d <- load df ;;
           r <- lift (new_column_value ext d col_def) ;;
           match r with
           | Some v => setitem df name v
           | None => ret tt
           end)
          (fun _ => ret tt)
  end.

Definition add_new_columns (ext : pandas_ext) (df : ref)
    (new_column_definitions : list column_def) : M ref :=
  match new_column_definitions with
  | [] => ret df
  | _ => for_each (add_column ext df) new_column_definitions ;;; ret df
  end.

(** ** convert_data_types *)

Definition is_digit (a : ascii) : bool :=
  let n := nat_of_ascii a in (48 <=? n)%nat && (n <=? 57)%nat.

Definition to_lower (a : ascii) : ascii :=
  let n := nat_of_ascii a in
  if (65 <=? n)%nat && (n <=? 90)%nat then ascii_of_nat (n + 32) else a.

Definition lower (s : string) : string :=
  string_of_list_ascii (map to_lower (list_ascii_of_string s)).

Definition digits_value (l : list ascii) : Z :=
  fold_left (fun acc a => (10 * acc + Z.of_nat (nat_of_ascii a - 48))%Z) l 0%Z.

(** A plain decimal integer literal: an optional sign and one or more
    digits. *)
Definition int_literal (s : string) : option Z :=
  let digits_of l :=
    match l with
    | [] => None
    | _ => if forallb is_digit l then Some (digits_value l) else None
    end in
  match list_ascii_of_string s with
  | "-"%char :: l => Z.opp <$> digits_of l
  | "+"%char :: l => digits_of l
  | l => digits_of l
  end.

Definition in_int64 (z : Z) : bool :=
  ((- 2 ^ 63 <=? z) && (z <? 2 ^ 63))%Z.

(** No digit and no inf or nan token: nothing pandas reads as a number. *)
Definition never_numeric (s : string) : bool :=
  negb (existsb is_digit (list_ascii_of_string s))
  && negb (str_find "inf" (lower s)) && negb (str_find "nan" (lower s)).

(** What to_numeric(errors='coerce') makes of one string. *)
Definition parse_numeric (ext : pandas_ext) (s : string) : cell :=
  match int_literal s with
  | Some z =>
      if in_int64 z then CInt z
      else match parse_float ext s with Some q => CFloat q | None => CNaN end
  | None =>
      if never_numeric s then CNaN
      else match parse_float ext s with Some q => CFloat q | None => CNaN end
  end.

(** What to_numeric(errors='coerce') makes of one cell of an object
    series: what is not a number becomes NaN. *)
Definition coerce_numeric (ext : pandas_ext) (c : cell) : cell :=
  match c with
  | CStr s => parse_numeric ext s
  | CInt _ | CFloat _ | CBool _ => c
  | _ => CNaN
  end.

Definition bool_Z (b : bool) : Z := if b then 1%Z else 0%Z.

(** The float64 an integer becomes: up to 2^53 in absolute value every
    integer is a float64. *)
Definition int_float (ext : pandas_ext) (z : Z) : Q :=
  if (Z.abs z <=? 2 ^ 53)%Z then inject_Z z else float_of_int ext z.

Definition as_float_cell (ext : pandas_ext) (c : cell) : cell :=
  match c with
  | CInt z => CFloat (int_float ext z)
  | CBool b => CFloat (inject_Z (bool_Z b))
  | _ => c
  end.

Definition as_int_cell (c : cell) : cell :=
  match c with
  | CBool b => CInt (bool_Z b)
  | _ => c
  end.

Definition is_floating (c : cell) : bool :=
  match c with CFloat _ | CNaN => true | _ => false end.

Definition is_int (c : cell) : bool :=
  match c with CInt _ => true | _ => false end.

(** pd.to_numeric(series, errors='coerce').  A numeric series is returned
    as it is; a datetime series gives its nanosecond counts; an object
    series is coerced cell by cell, and is a float series as soon as one
    cell is a float or NaN: its integers then become float64, which
    rounds them beyond 2^53. *)
Definition to_numeric (ext : pandas_ext) (s : Series) : Series :=
  match s_dtype s with
  | DObject =>
      let cells := map (coerce_numeric ext) (s_values s) in
      if existsb is_floating cells
      then mkSeries DFloat64 (map (as_float_cell ext) cells)
      else if existsb is_int cells
      then mkSeries DInt64 (map as_int_cell cells)
      else match cells with
           | [] => mkSeries DInt64 []
           | _ => mkSeries DBool cells
           end
  | DDatetime =>
      mkSeries DInt64
        (map (fun c => match c with
                       | CTime t => CInt t
                       | _ => CInt (- 2 ^ 63)
                       end) (s_values s))
  | _ => s
  end.

Definition is_integral (q : Q) : bool := (Qden (Qred q) =? 1)%positive.

(** One cell under astype('Int64'): a float that is not a whole number,
    or is one outside int64, cannot be cast. *)
Definition int64_cell (c : cell) : exn + cell :=
  match c with
  | CInt z => inr (CInt z)
  | CBool b => inr (CInt (bool_Z b))
  | CFloat q =>
      if is_integral q && in_int64 (Qnum (Qred q))
      then inr (CInt (Qnum (Qred q)))
      else inl TypeError
  | CNaN | CNA | CNone => inr CNA
  | _ => inl TypeError
  end.

(** One cell under astype(float). *)
Definition float_cell (ext : pandas_ext) (c : cell) : exn + cell :=
  match c with
  | CInt z => inr (CFloat (int_float ext z))
  | CBool b => inr (CFloat (inject_Z (bool_Z b)))
  | CFloat q => inr (CFloat q)
  | CNaN | CNA | CNone => inr CNaN
  | _ => inl TypeError
  end.

Fixpoint map_exn {A B} (f : A -> exn + B) (l : list A) : exn + list B :=
  match l with
  | [] => inr []
  | a :: l' =>
      match f a with
      | inl e => inl e
      | inr b => match map_exn f l' with
                 | inl e => inl e
                 | inr bs => inr (b :: bs)
                 end
      end
  end.

(** series.astype(<dtype>), cell by cell. *)
Definition astype (dt : dtype) (f : cell -> exn + cell) (s : Series) : exn + Series :=
  match map_exn f (s_values s) with
  | inl e => inl e
  | inr cells => inr (mkSeries dt cells)
  end.

(** The number a cell denotes as a dict key: True is 1, False is 0, and a
    float equals the integer of the same value. *)
Definition key_number (c : cell) : option Q :=
  match c with
  | CInt z => Some (inject_Z z)
  | CBool b => Some (inject_Z (bool_Z b))
  | CFloat q => Some q
  | _ => None
  end.

(** Equality of dict keys. *)
Definition key_eqb (a b : cell) : bool :=
  match a, b with
  | CStr x, CStr y => String.eqb x y
  | _, _ =>
      match key_number a, key_number b with
      | Some x, Some y => Qeq_bool x y
      | _, _ => false
      end
  end.

Definition map_to_bool : list (cell * bool) :=
  [ (CStr "true", true); (CStr "True", true); (CStr "TRUE", true);
    (CStr "1", true); (CInt 1, true);
    (CStr "false", false); (CStr "False", false); (CStr "FALSE", false);
    (CStr "0", false); (CInt 0, false) ].

(** series.map(table): the value under the cell's key, NaN when the table
    has no such key. *)
Definition series_map (table : list (cell * bool)) (s : Series) : Series :=
  let cells :=
    map (fun c => match List.find (fun kv => key_eqb kv.1 c) table with
                  | Some kv => CBool kv.2
                  | None => CNaN
                  end) (s_values s) in
  mkSeries (if forallb notnull cells then DBool else DObject) cells.

(** bool(x), as astype(bool) applies it to a cell: NaN is a non-zero
    float and so is true. *)
Definition bool_cell (c : cell) : exn + cell :=
  match c with
  | CBool b => inr (CBool b)
  | CInt z => inr (CBool (negb (z =? 0)%Z))
  | CFloat q => inr (CBool (negb (Qeq_bool q 0)))
  | CStr s => inr (CBool (negb (String.eqb s "")))
  | CNaN | CNaT | CTime _ => inr (CBool true)
  | CNone => inr (CBool false)
  | CNA => inl TypeError
  end.

(** The body of the try for one (column, new_type) item; None when the
    type is not supported and the column is left alone. *)
Definition converted (ext : pandas_ext) (s : Series) (new_type : string)
  : exn + option Series :=
  let some (r : exn + Series) : exn + option Series :=
    match r with inl e => inl e | inr s' => inr (Some s') end in
  if String.eqb new_type "int" then
    some (astype DNullableInt int64_cell (to_numeric ext s))
  else if String.eqb new_type "float" then
    some (astype DFloat64 (float_cell ext) (to_numeric ext s))
  else if String.eqb new_type "str" then
    some (inr (astype_str ext s))
  else if String.eqb new_type "datetime" then
    some (to_datetime ext s)
  else if String.eqb new_type "bool" then
    some (astype DBool bool_cell (series_map map_to_bool s))
  else inr None.

(** One turn of the loop over type_conversions.items().  The labels of
    the frame are unique, so that [df[column]] is a series: the handler,
    which reads [df[column].dtype] once more for its message, cannot
    raise. *)
Definition convert_column (ext : pandas_ext) (df : ref) (item : string * string)
  : M unit :=
  let '(column, new_type) := item in
  d <- load df ;;
  if in_columns column d then
    try_except
      (s <- getitem df column ;;
       r <- lift (converted ext s new_type) ;;
       match r with
       | Some s' => setitem df column (RSeries s')
       | None => ret tt
       end)
      (fun _ => ret tt)
  else ret tt.

(** type_conversions is a dict: its items in insertion order, no key
    twice. *)
Definition convert_data_types (ext : pandas_ext) (df : ref)
    (type_conversions : list (string * string)) : M ref :=
  match type_conversions with
  | [] => ret df
  | _ => for_each (convert_column ext df) type_conversions ;;; ret df
  end.

(** ** transform_data *)

(** transform_options: each section is None when its key is absent;
    [other_keys] are the keys the function does not read. *)
Record transform_options : Type := mkOptions {
  column_mappings : option (list mapping_entry);
  filters : option (list filter_entry);
  new_columns : option (list column_def);
  data_type_conversions : option (list (string * string));
  other_keys : list string
}.

(** [not transform_options]: the dict has no key at all. *)
Definition no_options (o : transform_options) : bool :=
  match column_mappings o, filters o, new_columns o, data_type_conversions o,
        other_keys o with
  | None, None, None, None, [] => true
  | _, _, _, _, _ => false
  end.

Definition transform_data (ext : pandas_ext) (df : ref) (o : transform_options)
  : M ref :=
  if no_options o then ret df
  else
    current_df <- copy df ;;
    current_df <- match column_mappings o with
                  | Some cm => map_columns current_df cm
                  | None => ret current_df
                  end ;;
    current_df <- match filters o with
                  | Some fs => filter_rows ext current_df fs
                  | None => ret current_df
                  end ;;
    current_df <- match new_columns o with
                  | Some ds => add_new_columns ext current_df ds
                  | None => ret current_df
                  end ;;
    current_df <- match data_type_conversions o with
                  | Some tc => convert_data_types ext current_df tc
                  | None => ret current_df
                  end ;;
    ret current_df.

(** ** Running a stage on one frame *)

(** The frame a stage leaves under the reference it returns. *)
Definition result_frame (m : M ref) (h : heap) : exn + DataFrame :=
  match m h with
  | (inr r, h') =>
      match h' !! r with
      | Some d => inr d
      | None => inl OtherError
      end
  | (inl e, _) => inl e
  end.

(** The frame a stage returns when it is called on a store that holds
    only [d]. *)
Definition run (stage : ref -> M ref) (d : DataFrame) : exn + DataFrame :=
  result_frame (stage 0%nat) [d].

(** A frame from its columns, each a label, a dtype and the cells. *)
Definition frame (n : nat) (cols : list (string * dtype * list cell)) : DataFrame :=
  mkFrame n (map (fun c => (c.1.1, mkSeries c.1.2 c.2)) cols).

(** ** An instance of the external operations

    Enough of pandas to run the stages on small frames: numbers compare
    by value and strings by code point, there is no regular expression
    engine and no expression evaluator beyond a bare column label. *)

Definition json_cell (v : json) : cell :=
  match v with
  | JNull => CNone
  | JBool b => CBool b
  | JInt z => CInt z
  | JFloat q => CFloat q
  | JStr s => CStr s
  | _ => CNone
  end.

Definition holds (op : cmp_op) (c : comparison) : bool :=
  match op, c with
  | OpGt, Gt | OpLt, Lt | OpGe, Gt | OpGe, Eq | OpLe, Lt | OpLe, Eq
  | OpEq, Eq | OpNe, Lt | OpNe, Gt => true
  | _, _ => false
  end.

Definition plain_compare_cell (op : cmp_op) (v : json) (c : cell) : exn + bool :=
  let unordered :=
    match op with
    | OpEq => inr false
    | OpNe => inr true
    | _ => inl TypeError
    end in
  if isnull c then inr (match op with OpNe => true | _ => false end)
  else
    match c, v with
    | CStr x, JStr y => inr (holds op (String.compare x y))
    | _, _ =>
        match key_number c, key_number (json_cell v) with
        | Some x, Some y => inr (holds op (Qcompare x y))
        | _, _ => unordered
        end
    end.

(** The float64 nearest to an integer, ties to the even significand. *)
Definition nearest_float64 (z : Z) : Z :=
  let a := Z.abs z in
  let e := (Z.log2 a - 52)%Z in
  if (e <=? 0)%Z then z
  else
    let q := Z.shiftr a e in
    let r := Z.land a (Z.ones e) in
    let half := Z.shiftl 1 (e - 1) in
    let q' := if (r <? half)%Z then q
              else if (half <? r)%Z then (q + 1)%Z
              else if Z.even q then q else (q + 1)%Z in
    (Z.sgn z * Z.shiftl q' e)%Z.

Definition plain_ext : pandas_ext := {|
  float_str q :=
    if is_integral q then pretty (Qnum (Qred q)) +:+ ".0"
    else pretty (Qnum q) +:+ "/" +:+ pretty (Zpos (Qden q));
  time_str t := pretty t;
  container_str _ := "[...]";
  parse_float _ := None;
  float_of_int z := inject_Z (nearest_float64 z);
  series_compare op s v := map_exn (plain_compare_cell op v) (s_values s);
  series_isin s vs :=
    inr (map (fun c => existsb (fun v => key_eqb (json_cell v) c) vs) (s_values s));
  re_search _ := None;
  str_accessor_mixed cells := existsb is_str cells;
  frame_eval d expression :=
    match lookup_column expression d with
    | Some s => inr (RSeries s)
    | None => inl OtherError
    end;
  listlike_rhs v :=
    match v with
    | JList l => inr (RSeries (mkSeries DObject (map json_cell l)))
    | _ => inl OtherError
    end;
  agg_join_empty d _ :=
    match nrows d with
    | O => inl TypeError
    | S _ => inr (RSeries (mkSeries DObject (repeat (CStr "") (nrows d))))
    end;
  to_datetime s :=
    inr (mkSeries DDatetime
           (map (fun c => match c with CTime t => CTime t | _ => CNaT end)
                (s_values s)))
|}.

(** * The stages as functions of the frame

    What each loop turn does to the frame it works on, read off the
    monadic code above; the lemmas of the next part show that the code
    computes exactly these. *)

(** The frame [filtered_df] names after one turn of the loop over the
    filters, as a function of the frame it named before. *)
Definition filter_step (ext : pandas_ext) (d : DataFrame) (f : filter_entry)
  : DataFrame :=
  match f_column f with
  | None => d
  | Some column =>
      if negb (in_columns column d) then d
      else match lookup_column column d with
           | None => d
           | Some series =>
               match filter_mask ext series (f_condition f) (f_value f) with
               | inr (Some mask) =>
                   if (List.length mask =? nrows d)%nat
                   then select_rows mask d else d
               | _ => d
               end
           end
  end.

(** The frame under [df] after one turn of the loop over the column
    definitions. *)
Definition add_column_step (ext : pandas_ext) (d : DataFrame) (col_def : column_def)
  : DataFrame :=
  match c_name col_def with
  | None => d
  | Some name =>
      if falsy (Some name) || falsy (c_operation col_def) then d
      else match new_column_value ext d col_def with
           | inr (Some v) =>
               match assign name v d with
               | inr d' => d'
               | inl _ => d
               end
           | _ => d
           end
  end.

(** The frame under [df] after one turn of the loop over the type
    conversions. *)
Definition convert_step (ext : pandas_ext) (d : DataFrame) (item : string * string)
  : DataFrame :=
  if in_columns item.1 d then
    match lookup_column item.1 d with
    | Some s =>
        match converted ext s item.2 with
        | inr (Some s') =>
            match assign item.1 (RSeries s') d with
            | inr d' => d'
            | inl _ => d
            end
        | _ => d
        end
    | None => d
    end
  else d.

(** What map_columns returns, as a function of the frame under [df]: an
    exception, [df] itself (None) or a new frame. *)
Definition map_columns_frame (d : DataFrame) (column_mappings : list mapping_entry)
  : exn + option DataFrame :=
  match column_mappings with
  | [] => inr None
  | _ =>
      match columns_to_select d column_mappings with
      | inl e => inl e
      | inr [] => inr None
      | inr sel =>
          inr (Some (rename (fold_left (note_rename d) column_mappings ∅)
                       (select_columns sel d)))
      end
  end.

(** * Notions of the specification *)

(** A section of the options: its entries, none when the key is absent. *)
Definition section_entries {A} (s : option (list A)) : list A := default [] s.

(** The pipeline as the specification words it: on a working copy, column
    mapping, then row filtering, then column synthesis, then type
    coercion, each with the entries of its section. *)
Definition pipeline (ext : pandas_ext) (df : ref) (o : transform_options) : M ref :=
  working <- copy df ;;
  mapped <- map_columns working (section_entries (column_mappings o)) ;;
  filtered <- filter_rows ext mapped (section_entries (filters o)) ;;
  synthesized <- add_new_columns ext filtered (section_entries (new_columns o)) ;;
  convert_data_types ext synthesized (section_entries (data_type_conversions o)).

(** [m] run on a store with at least [n] frames leaves the first [n]
    frames as they are, and its result satisfies [Q]. *)
Definition preserves {A} (n : nat) (Q : A -> Prop) (m : M A) : Prop :=
  forall h res h', (n <= List.length h)%nat -> m h = (res, h') ->
    take n h' = take n h /\ (n <= List.length h')%nat
    /\ (forall a, res = inr a -> Q a).

(** Every column has one cell per row. *)
Definition aligned (d : DataFrame) : Prop :=
  Forall (fun p => List.length (s_values p.2) = nrows d) (data d).

(** Column names are unique and all columns have the length of the
    dataset. *)
Definition dataset_inv (d : DataFrame) : Prop :=
  NoDup (columns d) /\ aligned d.

(** A mapping entry with both keys. *)
Definition entry (p : string * string) : mapping_entry := MDict (Some p.1) (Some p.2).

(** A copy definition whose source column, or a concat definition one of
    whose source columns, is not a column of [d]. *)
Definition missing_source (col_def : column_def) (d : DataFrame) : Prop :=
  (c_operation col_def = Some "copy"
   /\ exists s, c_source_column col_def = Some s /\ in_columns s d = false)
  \/ (c_operation col_def = Some "concat"
      /\ exists s, s ∈ default [] (c_sources col_def) /\ in_columns s d = false).

(** The string a missing value becomes under str(). *)
Definition null_str (c : cell) : string :=
  match c with
  | CNone => "None"
  | CNA => "<NA>"
  | CNaT => "NaT"
  | _ => "nan"
  end.

(** The column [c] is there and holds no null cell. *)
Definition no_null_in (c : string) (d : DataFrame) : Prop :=
  exists s, lookup_column c d = Some s /\ Forall (fun x => isnull x = false) (s_values s).

(** ** Example frames *)

Definition col_1_bad_3 : DataFrame :=
  frame 3 [("c", DObject, [CStr "1"; CStr "bad"; CStr "3"])].

Definition frame_a_b : DataFrame :=
  frame 1 [("a", DInt64, [CInt 1]); ("b", DInt64, [CInt 2])].

(** * etl_lib.readers and etl_lib.writers

    The readers and writers hand the work on files to pandas and add the
    handling of the template's options and of errors around it.  The
    calls into pandas are the fields of [io_ext], over a type [W] of
    states of the file system; exceptions are kept by class. *)

Inductive io_exn : Type :=
  | FileNotFoundError
  | EmptyDataError        (* pandas.errors.EmptyDataError, a ValueError *)
  | Exception             (* an instance of the class Exception itself *)
  | Error (e : exn).      (* another class; [Error ValueError] is ValueError
                             and its subclasses but EmptyDataError *)

(** [isinstance(e, ValueError)] *)
Definition is_ValueError (e : io_exn) : bool :=
  match e with
  | EmptyDataError | Error ValueError => true
  | _ => false
  end.

(** header='infer' and header=None *)
Inductive header_param : Type := HeaderInfer | HeaderNone.

Record read_csv_args : Type := mkReadCsv {
  rc_delimiter : string;
  rc_encoding : string;
  rc_skiprows : Z;
  rc_header : header_param;
  rc_names : option (list string)
}.

Record read_json_args : Type := mkReadJson {
  rj_orient : string;
  rj_encoding : string;
  rj_lines : bool
}.

Record to_csv_args : Type := mkToCsv {
  tc_sep : string;
  tc_encoding : string;
  tc_index : bool;
  tc_header : bool
}.

(** to_json is always called with force_ascii=False, default_handler=str
    and date_format='iso'. *)
Record to_json_args : Type := mkToJson {
  tj_orient : string;
  tj_indent : option Z;
  tj_lines : bool
}.

Record io_ext (W : Type) : Type := {
  (* pd.read_csv and pd.read_json: the frame read, or the exception *)
  pd_read_csv : string -> read_csv_args -> W -> io_exn + DataFrame;
  pd_read_json : string -> read_json_args -> W -> io_exn + DataFrame;
  (* df.to_csv and df.to_json: the exception if one is raised, and the
     file system the call leaves *)
  to_csv : DataFrame -> string -> to_csv_args -> W -> option io_exn * W;
  to_json : DataFrame -> string -> to_json_args -> W -> option io_exn * W
}.

Arguments pd_read_csv {W}.
Arguments pd_read_json {W}.
Arguments to_csv {W}.
Arguments to_json {W}.

(** The 'input' section of the template, each key None when absent. *)
Record input_options : Type := mkInput {
  i_file_type : option string;
  i_delimiter : option string;
  i_encoding : option string;
  i_skip_header : option Z;
  i_columns : option (list string);
  i_has_header : option bool;
  i_validate_columns : option bool;
  i_orient : option string;
  i_lines : option bool
}.

(** The 'output' section of the template. *)
Record output_options : Type := mkOutput {
  o_file_type : option string;
  o_delimiter : option string;
  o_encoding : option string;
  o_include_index : option bool;
  o_include_header : option bool;
  o_columns : option (list string);
  o_orient : option string;
  o_indent : option Z;
  o_lines : option bool
}.

(** Truth of [options.get('columns')]: the key is there and its list is
    not empty. *)
Definition given {A} (l : option (list A)) : bool :=
  match l with
  | Some (_ :: _) => true
  | _ => false
  end.

(** [df.columns = labels]: ValueError unless there is one label for each
    column. *)
Definition set_labels (labels : list string) (d : DataFrame) : exn + DataFrame :=
  if (List.length labels =? List.length (data d))%nat
  then inr (mkFrame (nrows d) (zip labels (data d).*2))
  else inl ValueError.

(** [df[names]] on a frame held by value. *)
Definition frame_getitem_list (names : list string) (d : DataFrame) : exn + DataFrame :=
  if forallb (fun n => in_columns n d) names
  then inr (select_columns names d)
  else inl KeyError.

(** ** readers.py *)

(** The body of the try block of read_csv. *)
Definition read_csv_body {W} (io : io_ext W) (file_path : string)
    (input_options : input_options) (w : W) : io_exn + DataFrame :=
  let delimiter := default "," (i_delimiter input_options) in
  let encoding := default "utf-8" (i_encoding input_options) in
  let skip_header_rows := default 0%Z (i_skip_header input_options) in
  let template_columns := i_columns input_options in
  let csv_has_header := default true (i_has_header input_options) in
  let '(header_param, names_param) :=
    if csv_has_header then (HeaderInfer, None)
    else (HeaderNone, template_columns) in
  match pd_read_csv io file_path
          (mkReadCsv delimiter encoding skip_header_rows header_param names_param) w with
  | inl e => inl e
  | inr df =>
      let renamed : io_exn + DataFrame :=
        if csv_has_header && given template_columns then
          if (List.length (columns df) =? List.length (default [] template_columns))%nat
          then match set_labels (default [] template_columns) df with
               | inr df' => inr df'
               | inl e => inl (Error e)
               end
          else inr df
        else inr df in
      match renamed with
      | inl e => inl e
      | inr df =>
          if default false (i_validate_columns input_options) && given template_columns
          then
            let missing_cols :=
              List.filter (fun col => negb (in_columns col df))
                          (default [] template_columns) in
            match missing_cols with
            | [] => inr df
            | _ => inl (Error ValueError)
            end
          else inr df
      end
  end.

Definition read_csv {W} (io : io_ext W) (file_path : string)
    (input_options : input_options) (w : W) : io_exn + DataFrame :=
  match read_csv_body io file_path input_options w with
  | inr df => inr df
  | inl FileNotFoundError => inl FileNotFoundError
  | inl EmptyDataError => inr (mkFrame 0 [])
  | inl _ => inl Exception
  end.

Definition read_json {W} (io : io_ext W) (file_path : string)
    (input_options : input_options) (w : W) : io_exn + DataFrame :=
  let orient := default "records" (i_orient input_options) in
  let encoding := default "utf-8" (i_encoding input_options) in
  let lines := default false (i_lines input_options) in
  match pd_read_json io file_path (mkReadJson orient encoding lines) w with
  | inr df => inr df
  | inl FileNotFoundError => inl FileNotFoundError
  | inl e => if is_ValueError e then inl (Error ValueError) else inl Exception
  end.

Definition read_data {W} (io : io_ext W) (file_path : string)
    (input_options : input_options) (w : W) : io_exn + DataFrame :=
  let file_type := lower (default "" (i_file_type input_options)) in
  if String.eqb file_type "" then inl (Error ValueError)
  else if String.eqb file_type "csv" then read_csv io file_path input_options w
  else if String.eqb file_type "json" then read_json io file_path input_options w
  else inl (Error ValueError).

(** ** writers.py *)

Definition write_csv {W} (io : io_ext W) (df : DataFrame) (file_path : string)
    (output_options : output_options) (w : W) : (io_exn + unit) * W :=
  let delimiter := default "," (o_delimiter output_options) in
  let encoding := default "utf-8" (o_encoding output_options) in
  let include_index := default false (o_include_index output_options) in
  let include_header := default true (o_include_header output_options) in
  let columns_to_write_order := o_columns output_options in
  let df_to_write : exn + DataFrame :=
    if given columns_to_write_order then
      let actual_columns_to_write :=
        List.filter (fun col => in_columns col df)
                    (default [] columns_to_write_order) in
      frame_getitem_list actual_columns_to_write df
    else inr df in
  match df_to_write with
  | inl _ => (inl Exception, w)
  | inr df_to_write =>
      match to_csv io df_to_write file_path
              (mkToCsv delimiter encoding include_index include_header) w with
      | (None, w') => (inr tt, w')
      | (Some _, w') => (inl Exception, w')
      end
  end.

Definition write_json {W} (io : io_ext W) (df : DataFrame) (file_path : string)
    (output_options : output_options) (w : W) : (io_exn + unit) * W :=
  let orient := default "records" (o_orient output_options) in
  let indent_level := o_indent output_options in
  let json_lines := default false (o_lines output_options) in
  let columns_to_write_order := o_columns output_options in
  let df_to_write : exn + DataFrame :=
    if given columns_to_write_order then
      let actual_columns_to_write :=
        List.filter (fun col => in_columns col df)
                    (default [] columns_to_write_order) in
      match actual_columns_to_write with
      | [] => inr df
      | _ => frame_getitem_list actual_columns_to_write df
      end
    else inr df in
  match df_to_write with
  | inl _ => (inl Exception, w)
  | inr df_to_write =>
      match to_json io df_to_write file_path
              (mkToJson orient indent_level json_lines) w with
      | (None, w') => (inr tt, w')
      | (Some _, w') => (inl Exception, w')
      end
  end.

Definition write_data {W} (io : io_ext W) (df : DataFrame) (file_path : string)
    (output_options : output_options) (w : W) : (io_exn + unit) * W :=
  let file_type := lower (default "" (o_file_type output_options)) in
  if String.eqb file_type "" then (inl (Error ValueError), w)
  else if String.eqb file_type "csv" then write_csv io df file_path output_options w
  else if String.eqb file_type "json" then write_json io df file_path output_options w
  else (inl (Error ValueError), w).

(** ** A file system whose files hold frames

    An instance of the calls into pandas: a file holds the frame that was
    written to it, whatever the format; the path '' names no file, and a
    file that holds the frame without rows and columns is an empty
    file. *)
Definition plain_read (file_path : string) (w : gmap string DataFrame)
  : io_exn + DataFrame :=
  match w !! file_path with
  | None => inl FileNotFoundError
  | Some d =>
      match nrows d, data d with
      | O, [] => inl EmptyDataError
      | _, _ => inr d
      end
  end.

Definition plain_write (d : DataFrame) (file_path : string) (w : gmap string DataFrame)
  : option io_exn * gmap string DataFrame :=
  if String.eqb file_path "" then (Some FileNotFoundError, w)
  else (None, <[file_path := d]> w).

Definition plain_io : io_ext (gmap string DataFrame) := {|
  pd_read_csv := fun file_path _ w => plain_read file_path w;
  pd_read_json := fun file_path _ w => plain_read file_path w;
  to_csv := fun d file_path _ w => plain_write d file_path w;
  to_json := fun d file_path _ w => plain_write d file_path w
|}.

(** ** Notions for the readers and writers *)

(** The arguments read_csv passes to pd.read_csv. *)
Definition read_csv_call (o : input_options) : read_csv_args :=
  mkReadCsv (default "," (i_delimiter o)) (default "utf-8" (i_encoding o))
            (default 0%Z (i_skip_header o))
            (if default true (i_has_header o) then HeaderInfer else HeaderNone)
            (if default true (i_has_header o) then None else i_columns o).

(** The arguments read_json passes to pd.read_json. *)
Definition read_json_call (o : input_options) : read_json_args :=
  mkReadJson (default "records" (i_orient o)) (default "utf-8" (i_encoding o))
             (default false (i_lines o)).


(** The output options with another file type. *)
Definition with_file_type (t : string) (o : output_options) : output_options :=
  mkOutput (Some t) (o_delimiter o) (o_encoding o) (o_include_index o)
           (o_include_header o) (o_columns o) (o_orient o) (o_indent o) (o_lines o).

(** The input options with another file type. *)
Definition with_input_type (t : string) (o : input_options) : input_options :=
  mkInput (Some t) (i_delimiter o) (i_encoding o) (i_skip_header o) (i_columns o)
          (i_has_header o) (i_validate_columns o) (i_orient o) (i_lines o).

(** The file types the dispatchers know, in lower case. *)
Definition file_types : list string := ["csv"; "json"].

(** The columns of the template that the frame has. *)
Definition present (cols : list string) (d : DataFrame) : list string :=
  List.filter (fun col => in_columns col d) cols.

(** * convert.py

    main, from the parsed command line on: the paths of the template, of
    the input and of the output.  The file system, the json module and
    os.path are the fields of [os_ext]; logging is left out. *)

(** The template as json.load returns it: its sections, each None when
    its key is absent. *)
Record template : Type := mkTemplate {
  t_input : option input_options;
  t_transformations : option transform_options;
  t_output : option output_options
}.

Record os_ext (W : Type) : Type := {
  (* open(path, 'r', encoding='utf-8') and json.load *)
  json_load : string -> W -> io_exn + template;
  (* os.path.dirname, os.path.exists and os.makedirs *)
  dirname : string -> string;
  path_exists : string -> W -> bool;
  makedirs : string -> W -> option io_exn * W
}.

Arguments json_load {W}.
Arguments dirname {W}.
Arguments path_exists {W}.
Arguments makedirs {W}.

(** Each handler of load_template logs and raises the exception again. *)
Definition load_template {W} (os : os_ext W) (template_path : string) (w : W)
  : io_exn + template :=
  match json_load os template_path w with
  | inr template => inr template
  | inl e => inl e
  end.

(** How the process ends: main returns, or sys.exit(code). *)
Inductive status : Type := Done | Exit (code : Z).

(** The frame main hands to the writer. *)
Definition transformed (ext : pandas_ext) (transform_options : transform_options)
    (data_df : DataFrame) : exn + DataFrame :=
  if negb (no_options transform_options)
  then run (fun df => transform_data ext df transform_options) data_df
  else inr data_df.

(** Every except clause of main ends in sys.exit(1), and the SystemExit
    of a sys.exit(1) inside the try block passes them all. *)
Definition main {W} (ext : pandas_ext) (io : io_ext W) (os : os_ext W)
    (args_template args_input args_output : string) (w : W) : status * W :=
  match load_template os args_template w with
  | inl _ => (Exit 1, w)
  | inr template =>
      match t_input template, t_output template with
      | Some input_options, Some output_options =>
          let transform_options :=
            default (mkOptions None None None None []) (t_transformations template) in
          match read_data io args_input input_options w with
          | inl _ => (Exit 1, w)
          | inr data_df =>
              match transformed ext transform_options data_df with
              | inl _ => (Exit 1, w)
              | inr transformed_df =>
                  let output_dir := dirname os args_output in
                  let '(failed, w1) :=
                    if negb (String.eqb output_dir "")
                       && negb (path_exists os output_dir w)
                    then makedirs os output_dir w
                    else (None, w) in
                  match failed with
                  | Some _ => (Exit 1, w1)
                  | None =>
                      match write_data io transformed_df args_output output_options w1 with
                      | (inr _, w2) => (Done, w2)
                      | (inl _, w2) => (Exit 1, w2)
                      end
                  end
              end
          end
      | _, _ => (Exit 1, w)
      end
  end.

(** An instance of [os_ext] over the file system whose files hold frames:
    every path names the template [t], or no file when [t] is None, and
    no path has a directory part. *)
Definition plain_os (t : option template) : os_ext (gmap string DataFrame) := {|
  json_load := fun _ _ => match t with Some t => inr t | None => inl FileNotFoundError end;
  dirname := fun _ => "";
  path_exists := fun _ _ => true;
  makedirs := fun _ w => (None, w)
|}.

(** * Notions for the further properties *)

(** The mask of two row selections in a row: [m2] selects among the rows
    that [m1] keeps. *)
Fixpoint compose_masks (m1 m2 : list bool) : list bool :=
  match m1 with
  | [] => []
  | false :: m1' => false :: compose_masks m1' m2
  | true :: m1' =>
      match m2 with
      | [] => []
      | b :: m2' => b :: compose_masks m1' m2'
      end
  end.

(** The conditions the if/elif chain of filter_rows knows. *)
Definition supported_conditions : list string :=
  [">"; "<"; ">="; "<="; "=="; "!="; "isin"; "notin"; "isnull"; "notnull";
   "contains"; "startswith"; "endswith"].

(** A filter entry the loop passes over whatever the frame holds: its
    condition is none of the supported ones, or it is isin or notin with a
    value that is not a list. *)
Definition inert_filter (f : filter_entry) : Prop :=
  (forall c, f_condition f = Some c -> c ∉ supported_conditions)
  \/ ((f_condition f = Some "isin" \/ f_condition f = Some "notin")
      /\ is_list (f_value f) = false).

(** The operations the if/elif chain of add_new_columns knows. *)
Definition known_operations : list string :=
  ["concat"; "eval"; "copy"; "default_value"].

(** A column definition the loop passes over whatever the frame holds: no
    name, no operation, an operation it does not know, or the field its
    operation needs is not there. *)
Definition skipped_definition (col_def : column_def) : Prop :=
  falsy (c_name col_def) = true
  \/ falsy (c_operation col_def) = true
  \/ (forall op, c_operation col_def = Some op -> op ∉ known_operations)
  \/ (c_operation col_def = Some "eval" /\ falsy (c_expression col_def) = true)
  \/ (c_operation col_def = Some "copy" /\ falsy (c_source_column col_def) = true)
  \/ (c_operation col_def = Some "default_value" /\ c_value col_def = None).

(** The type tags convert_data_types knows. *)
Definition supported_types : list string :=
  ["int"; "float"; "str"; "datetime"; "bool"].

(** pd.to_datetime returns one value per value it is given. *)
Definition datetime_keeps_length (ext : pandas_ext) : Prop :=
  forall s s', to_datetime ext s = inr s' ->
    List.length (s_values s') = List.length (s_values s).

(** A cell that is a key of map_to_bool with the value False. *)
Definition falsy_token (c : cell) : bool :=
  existsb (fun k => key_eqb k c)
    [CStr "false"; CStr "False"; CStr "FALSE"; CStr "0"; CInt 0].

(** The cell of column [c] in row [i]. *)
Definition cell_at (d : DataFrame) (c : string) (i : nat) : cell :=
  match lookup_column c d with
  | Some s => nth i (s_values s) CNaN
  | None => CNaN
  end.

(** A template value that is neither a list nor a dict. *)
Definition is_scalar (v : json) : bool :=
  match v with JList _ | JDict _ => false | _ => true end.

(** A cell that is NaN or None, or a string that is a plain decimal
    integer literal of at most 2^53 in absolute value, so that it is the
    same number as an int64 and as a float64, or holds nothing pandas
    reads as a number. *)
Definition exact_int_cell (x : cell) : bool :=
  match x with
  | CStr s =>
      match int_literal s with
      | Some z => (Z.abs z <=? 2 ^ 53)%Z
      | None => never_numeric s
      end
  | CNaN | CNone => true
  | _ => false
  end.

(** A string that is a plain decimal integer literal within int64. *)
Definition int64_literal_cell (x : cell) : bool :=
  match x with
  | CStr s =>
      match int_literal s with
      | Some z => in_int64 z
      | None => false
      end
  | _ => false
  end.

(** The integer such a cell denotes, pd.NA when it denotes none. *)
Definition int_reading (x : cell) : cell :=
  match x with
  | CStr s =>
      match int_literal s with
      | Some z => CInt z
      | None => CNA
      end
  | _ => CNA
  end.

(** * Properties *)

(** ** The monad *)

Lemma bind_ret_r {A} (m : M A) (h : heap) : bind m ret h = m h.
Proof. unfold bind, ret. destruct (m h) as [[e | a] h']; reflexivity. Qed.

Lemma bind_run {A B} (m : M A) (k : A -> M B) h a h' :
  m h = (inr a, h') -> bind m k h = k a h'.
Proof. intros H. unfold bind. by rewrite H. Qed.

Lemma load_some (r : ref) (h : heap) (d : DataFrame) :
  h !! r = Some d -> load r h = (inr d, h).
Proof. intros H. unfold load. rewrite H. reflexivity. Qed.

Lemma lookup_alloc (h : heap) (d : DataFrame) : (h ++ [d]) !! List.length h = Some d.
Proof. rewrite lookup_app_r by lia. rewrite Nat.sub_diag. reflexivity. Qed.

Lemma lookup_alloc_old (h : heap) (d d' : DataFrame) (r : ref) :
  h !! r = Some d -> (h ++ [d']) !! r = Some d.
Proof. intros H. rewrite lookup_app_l; [done | by eapply lookup_lt_Some]. Qed.

(** ** Frames of the filter loop *)

Lemma apply_filter_step ext r f h d :
  h !! r = Some d ->
  exists r' new,
    apply_filter ext r f h = (inr r', h ++ new)
    /\ (h ++ new) !! r' = Some (filter_step ext d f).
Proof.
  intros Hr. unfold apply_filter, filter_step, bind.
  rewrite (load_some _ _ _ Hr).
  assert (Hsame : exists r' new, (inr r : exn + ref, h) = (inr r', h ++ new)
                     /\ (h ++ new) !! r' = Some d).
  { exists r, []. rewrite app_nil_r. done. }
  destruct (f_column f) as [column|]; [|exact Hsame].
  destruct (negb (in_columns column d)); [exact Hsame|].
  unfold try_except, getitem, bind. rewrite (load_some _ _ _ Hr).
  destruct (lookup_column column d) as [series|]; [|exact Hsame].
  unfold ret, lift.
  destruct (filter_mask ext series (f_condition f) (f_value f)) as [e|[mask|]];
    [exact Hsame| |exact Hsame].
  unfold getitem_mask, bind. rewrite (load_some _ _ _ Hr).
  destruct (List.length mask =? nrows d)%nat; [|exact Hsame].
  unfold alloc. exists (List.length h), [select_rows mask d].
  split; [reflexivity | apply lookup_alloc].
Qed.

Lemma fold_apply_filter ext fs : forall r h d,
  h !! r = Some d ->
  exists r' new,
    fold_m (apply_filter ext) fs r h = (inr r', h ++ new)
    /\ (h ++ new) !! r' = Some (fold_left (filter_step ext) fs d).
Proof.
  induction fs as [|f fs IH]; intros r h d Hr; simpl.
  - exists r, []. rewrite app_nil_r. done.
  - destruct (apply_filter_step ext r f h d Hr) as (r1 & new1 & Hrun & Hr1).
    unfold bind. rewrite Hrun.
    destruct (IH r1 (h ++ new1) _ Hr1) as (r2 & new2 & Hrun2 & Hr2).
    exists r2, (new1 ++ new2). rewrite app_assoc. done.
Qed.

Lemma filter_rows_run ext df fs h d :
  h !! df = Some d ->
  exists r' new,
    filter_rows ext df fs h = (inr r', h ++ new)
    /\ (h ++ new) !! r' = Some (fold_left (filter_step ext) fs d).
Proof.
  intros Hr. unfold filter_rows. destruct fs as [|f fs].
  - exists df, []. rewrite app_nil_r. done.
  - unfold copy, bind at 1. unfold bind at 1. rewrite (load_some _ _ _ Hr). unfold alloc.
    destruct (fold_apply_filter ext (f :: fs) (List.length h) (h ++ [d]) d
                (lookup_alloc h d)) as (r' & new & Hrun & Hr').
    exists r', ([d] ++ new). rewrite app_assoc. done.
Qed.

Lemma filter_rows_frame ext df fs h d :
  h !! df = Some d ->
  result_frame (filter_rows ext df fs) h = inr (fold_left (filter_step ext) fs d).
Proof.
  intros Hr. destruct (filter_rows_run ext df fs h d Hr) as (r' & new & Hrun & Hr').
  unfold result_frame. rewrite Hrun, Hr'. reflexivity.
Qed.

(** ** Frames of the loops that assign in place *)

Lemma for_each_inplace {A} (f : A -> M unit) (step : DataFrame -> A -> DataFrame)
    (df : ref) :
  (forall a h d, h !! df = Some d -> f a h = (inr tt, <[df := step d a]> h)) ->
  forall l h d, h !! df = Some d ->
    for_each f l h = (inr tt, <[df := fold_left step l d]> h).
Proof.
  intros Hf. induction l as [|a l IH]; intros h d Hr; simpl.
  - unfold ret. by rewrite list_insert_id.
  - unfold bind. rewrite (Hf a h d Hr).
    assert (Hlt : (df < List.length h)%nat) by (by eapply lookup_lt_Some).
    rewrite (IH _ (step d a)) by (by apply list_lookup_insert_eq).
    by rewrite list_insert_insert_eq.
Qed.

Lemma add_column_spec ext df col_def h d :
  h !! df = Some d ->
  add_column ext df col_def h = (inr tt, <[df := add_column_step ext d col_def]> h).
Proof.
  intros Hr. unfold add_column, add_column_step.
  assert (Hsame : ret tt h = (inr tt, <[df := d]> h)).
  { unfold ret. by rewrite list_insert_id. }
  destruct (c_name col_def) as [name|]; [|exact Hsame].
  destruct (falsy (Some name) || falsy (c_operation col_def)); [exact Hsame|].
  unfold try_except, bind. rewrite (load_some _ _ _ Hr). unfold lift.
  destruct (new_column_value ext d col_def) as [e|[v|]]; [exact Hsame| |exact Hsame].
  unfold setitem, bind. rewrite (load_some _ _ _ Hr). unfold lift.
  destruct (assign name v d) as [e|d']; [exact Hsame|reflexivity].
Qed.

Lemma add_new_columns_run ext df defs h d :
  h !! df = Some d ->
  add_new_columns ext df defs h
  = (inr df, <[df := fold_left (add_column_step ext) defs d]> h).
Proof.
  intros Hr. unfold add_new_columns. destruct defs as [|e defs].
  - unfold ret. simpl. by rewrite list_insert_id.
  - unfold bind.
    rewrite (for_each_inplace _ (add_column_step ext) df
               (fun a h' d' => add_column_spec ext df a h' d') (e :: defs) h d Hr).
    reflexivity.
Qed.

Lemma convert_column_spec ext df item h d :
  h !! df = Some d ->
  convert_column ext df item h = (inr tt, <[df := convert_step ext d item]> h).
Proof.
  intros Hr. unfold convert_column, convert_step. destruct item as [column new_type].
  assert (Hsame : ret tt h = (inr tt, <[df := d]> h)).
  { unfold ret. by rewrite list_insert_id. }
  unfold bind at 1. rewrite (load_some _ _ _ Hr). cbn [fst snd].
  destruct (in_columns column d); [|exact Hsame].
  unfold try_except, getitem, bind. rewrite (load_some _ _ _ Hr).
  destruct (lookup_column column d) as [s|]; [|exact Hsame].
  unfold ret, lift.
  destruct (converted ext s new_type) as [e|[s'|]]; [exact Hsame| |exact Hsame].
  unfold setitem, bind. rewrite (load_some _ _ _ Hr). unfold lift.
  destruct (assign column (RSeries s') d) as [e|d']; [exact Hsame|reflexivity].
Qed.

Lemma convert_data_types_run ext df tc h d :
  h !! df = Some d ->
  convert_data_types ext df tc h
  = (inr df, <[df := fold_left (convert_step ext) tc d]> h).
Proof.
  intros Hr. unfold convert_data_types. destruct tc as [|e tc].
  - unfold ret. simpl. by rewrite list_insert_id.
  - unfold bind.
    rewrite (for_each_inplace _ (convert_step ext) df
               (fun a h' d' => convert_column_spec ext df a h' d') (e :: tc) h d Hr).
    reflexivity.
Qed.

(** ** Frames of map_columns *)

Lemma columns_to_select_in d cm sel :
  columns_to_select d cm = inr sel -> forallb (fun n => in_columns n d) sel = true.
Proof.
  revert sel. induction cm as [|m cm IH]; intros sel; simpl.
  - intros [= <-]. reflexivity.
  - destruct (entry_from m) as [e|f]; [done|].
    destruct (columns_to_select d cm) as [e|sel']; [done|].
    specialize (IH sel' eq_refl).
    intros [= <-]. destruct (in_columns f d) eqn:Hf; simpl; [rewrite Hf|]; exact IH.
Qed.

Lemma map_columns_run df cm h d :
  h !! df = Some d ->
  match map_columns_frame d cm with
  | inl e => map_columns df cm h = (inl e, h)
  | inr None => map_columns df cm h = (inr df, h)
  | inr (Some d') =>
      exists tmp, map_columns df cm h = (inr (S (List.length h)), h ++ [tmp; d'])
  end.
Proof.
  intros Hr. unfold map_columns_frame.
  destruct cm as [|m cm]; [reflexivity|].
  destruct (columns_to_select d (m :: cm)) as [e|sel] eqn:Hsel.
  { unfold map_columns, bind, lift. rewrite (load_some _ _ _ Hr), Hsel. reflexivity. }
  destruct sel as [|c sel].
  { unfold map_columns, bind, lift. rewrite (load_some _ _ _ Hr), Hsel. reflexivity. }
  pose proof (columns_to_select_in _ _ _ Hsel) as Hin.
  exists (select_columns (c :: sel) d).
  unfold map_columns.
  unfold bind at 1. rewrite (load_some _ _ _ Hr).
  unfold bind at 1. unfold lift. rewrite Hsel.
  unfold bind at 1. unfold getitem_list, bind at 1. rewrite (load_some _ _ _ Hr).
  rewrite Hin. unfold alloc at 1.
  unfold bind at 1. unfold copy, bind at 1.
  rewrite (load_some _ _ _ (lookup_alloc h _)). unfold alloc.
  unfold bind at 1. unfold rename_inplace, bind at 1.
  rewrite (load_some (List.length (h ++ [select_columns (c :: sel) d])) _
             (select_columns (c :: sel) d)).
  2:{ rewrite lookup_alloc. reflexivity. }
  unfold store, ret.
  f_equal.
  - f_equal. rewrite length_app. simpl. lia.
  - rewrite <- (Nat.add_0_r (List.length (h ++ _))).
    rewrite insert_app_r. simpl. by rewrite <- app_assoc.
Qed.

(** ** Type coercion on the column "1", "bad", "3" *)

(** C1, as the code behaves: coercing the column "1", "bad", "3" to bool
    yields [true, true, true] and not [true, false, true].  "1" is true by
    the literal table; "bad" and "3" are not keys of the table, so the map
    leaves NaN there, and astype(bool) makes NaN true, not false. *)
Theorem convert_bool_1_bad_3 (ext : pandas_ext) :
  run (fun df => convert_data_types ext df [("c", "bool")]) col_1_bad_3
  = inr (frame 3 [("c", DBool, [CBool true; CBool true; CBool true])]).
Proof. reflexivity. Qed.

(** What the map alone gives on the same column: the two cells without a
    key are NaN before astype(bool) is applied. *)
Lemma series_map_1_bad_3 :
  series_map map_to_bool (mkSeries DObject [CStr "1"; CStr "bad"; CStr "3"])
  = mkSeries DObject [CBool true; CNaN; CNaN].
Proof. reflexivity. Qed.

(** C8: coercing the column "1", "bad", "3" to int yields [1, null, 3] in
    the nullable integer dtype: the cells that parse become integers and
    the one that does not becomes the missing value pd.NA. *)
Theorem convert_int_1_bad_3 (ext : pandas_ext) :
  run (fun df => convert_data_types ext df [("c", "int")]) col_1_bad_3
  = inr (frame 3 [("c", DNullableInt, [CInt 1; CNA; CInt 3])]).
Proof. reflexivity. Qed.

(** ** Malformed mapping entries *)

(** C3, as the code behaves: with a mapping list that holds a valid entry
    and an entry without 'from', or an entry that is not a dict,
    map_columns raises (KeyError, TypeError) instead of skipping the
    entry: the loop skips it, the list comprehension after the loop reads
    m['from'] of every entry again. *)
Theorem map_columns_malformed_raises :
  run (fun df => map_columns df [MDict (Some "a") (Some "x"); MDict None (Some "y")])
      frame_a_b
  = inl KeyError
  /\ run (fun df => map_columns df [MDict (Some "a") (Some "x"); MOther]) frame_a_b
     = inl TypeError.
Proof. split; reflexivity. Qed.

(** An entry with 'from' but without 'to' is not skipped either: the loop
    passes over it, the selection after the loop keeps its column under
    the old name. *)
Lemma map_columns_entry_without_to :
  run (fun df => map_columns df [MDict (Some "a") (Some "x"); MDict (Some "b") None])
      frame_a_b
  = inr (frame 1 [("x", DInt64, [CInt 1]); ("b", DInt64, [CInt 2])]).
Proof. reflexivity. Qed.

(** Any entry that is not a dict with a 'from' key makes the call raise,
    whatever the other entries and the frame are. *)
Lemma map_columns_raises_on_malformed df cm h d :
  h !! df = Some d ->
  Exists (fun m => exists e, entry_from m = inl e) cm ->
  exists e, map_columns df cm h = (inl e, h).
Proof.
  intros Hr Hex.
  assert (Hsel : exists e, columns_to_select d cm = inl e).
  { induction Hex as [m cm [e He]|m cm _ IH]; simpl.
    - rewrite He. eauto.
    - destruct IH as [e IH]. destruct (entry_from m); [eauto|]. rewrite IH. eauto. }
  pose proof (map_columns_run df cm h d Hr) as Hrun.
  destruct Hsel as [e Hsel]. unfold map_columns_frame in Hrun.
  destruct cm as [|m cm]; [by apply Exists_nil in Hex|].
  rewrite Hsel in Hrun. eauto.
Qed.

(** ** Mappings that resolve to no column *)

Lemma columns_to_select_none d cm :
  Forall (fun m => exists f, entry_from m = inr f /\ in_columns f d = false) cm ->
  columns_to_select d cm = inr [].
Proof.
  induction 1 as [|m cm (f & Hf & Hin) _ IH]; simpl; [reflexivity|].
  rewrite Hf, IH, Hin. reflexivity.
Qed.

(** C5: when every mapping entry has a 'from' name and none of these
    names is a column of the dataset, map_columns returns the dataset it
    was given, untouched; with no entry at all it does the same. *)
Theorem map_columns_nothing_resolves df h d cm :
  h !! df = Some d ->
  Forall (fun m => exists f, entry_from m = inr f /\ in_columns f d = false) cm ->
  map_columns df [] h = (inr df, h) /\ map_columns df cm h = (inr df, h).
Proof.
  intros Hr Hall. split; [reflexivity|].
  pose proof (map_columns_run df cm h d Hr) as Hrun.
  unfold map_columns_frame in Hrun.
  destruct cm as [|m cm]; [reflexivity|].
  by rewrite (columns_to_select_none _ _ Hall) in Hrun.
Qed.

Lemma map_columns_nothing_resolves_witness :
  map_columns 0 [] [frame 1 [("a", DInt64, [CInt 1])]]
  = (inr 0%nat, [frame 1 [("a", DInt64, [CInt 1])]])
  /\ map_columns 0 [MDict (Some "x") (Some "y"); MDict (Some "z") None]
       [frame 1 [("a", DInt64, [CInt 1])]]
     = (inr 0%nat, [frame 1 [("a", DInt64, [CInt 1])]]).
Proof.
  apply (map_columns_nothing_resolves 0 _ (frame 1 [("a", DInt64, [CInt 1])])).
  - reflexivity.
  - repeat constructor; eexists; (split; [reflexivity | reflexivity]).
Defined.

(** ** Order of the stages *)

Lemma bind_ext {A B} (m : M A) (k1 k2 : A -> M B) (h : heap) :
  (forall a h', k1 a h' = k2 a h') -> bind m k1 h = bind m k2 h.
Proof. intros Hk. unfold bind. destruct (m h) as [[e|a] h']; [reflexivity|apply Hk]. Qed.

(** C6: transform_data runs, on a copy of its input, column mapping, row
    filtering, column synthesis and type coercion in this order, for every
    dataset and every store; a stage whose section is absent behaves as
    on an empty section, and on an empty section every stage returns the
    dataset it was given and changes nothing. *)
Theorem transform_data_is_pipeline ext df o h :
  (map_columns df [] h = (inr df, h)
   /\ filter_rows ext df [] h = (inr df, h)
   /\ add_new_columns ext df [] h = (inr df, h)
   /\ convert_data_types ext df [] h = (inr df, h))
  /\ transform_data ext df o h
     = if no_options o then (inr df, h) else pipeline ext df o h.
Proof.
  split; [repeat split|].
  unfold transform_data, pipeline. destruct (no_options o); [reflexivity|].
  apply bind_ext; intros c0 h0.
  transitivity
    (bind (map_columns c0 (section_entries (column_mappings o)))
       (fun c1 => bind (filter_rows ext c1 (section_entries (filters o)))
          (fun c2 => bind (add_new_columns ext c2 (section_entries (new_columns o)))
             (fun c3 => bind (convert_data_types ext c3
                                (section_entries (data_type_conversions o))) ret)))
       h0).
  - destruct (column_mappings o), (filters o), (new_columns o),
      (data_type_conversions o); reflexivity.
  - apply bind_ext; intros c1 h1. apply bind_ext; intros c2 h2.
    apply bind_ext; intros c3 h3. apply bind_ret_r.
Qed.

(** ** What a call leaves untouched *)

Lemma preserves_ret {A} n (Q : A -> Prop) a : Q a -> preserves n Q (ret a).
Proof. intros HQ h res h' Hn [= <- <-]. repeat split; [done|]. by intros ? [= <-]. Qed.

Lemma preserves_raise {A} n (Q : A -> Prop) e : preserves n Q (raise e).
Proof. intros h res h' Hn [= <- <-]. repeat split; done. Qed.

Lemma preserves_lift {A} n (r : exn + A) : preserves n (fun _ => True) (lift r).
Proof. intros h res h' Hn [= <- <-]. repeat split; done. Qed.

Lemma preserves_weaken {A} n (P Q : A -> Prop) m :
  preserves n P m -> (forall a, P a -> Q a) -> preserves n Q m.
Proof.
  intros Hm HPQ h res h' Hn Hrun. destruct (Hm h res h' Hn Hrun) as (? & ? & HP).
  repeat split; auto.
Qed.

Lemma preserves_bind {A B} n (P : A -> Prop) (Q : B -> Prop) m k :
  preserves n P m -> (forall a, P a -> preserves n Q (k a)) ->
  preserves n Q (bind m k).
Proof.
  intros Hm Hk h res h' Hn. unfold bind.
  destruct (m h) as [[e|a] h1] eqn:Hrun.
  - intros [= <- <-]. destruct (Hm h _ _ Hn Hrun) as (? & ? & _). repeat split; done.
  - intros Hrun2. destruct (Hm h _ _ Hn Hrun) as (Ht & Hn1 & HP).
    destruct (Hk a (HP a eq_refl) h1 res h' Hn1 Hrun2) as (Ht2 & ? & ?).
    repeat split; auto. congruence.
Qed.

Lemma preserves_try {A} n (Q : A -> Prop) m handler :
  preserves n Q m -> (forall e, preserves n Q (handler e)) ->
  preserves n Q (try_except m handler).
Proof.
  intros Hm Hh h res h' Hn. unfold try_except.
  destruct (m h) as [[e|a] h1] eqn:Hrun.
  - intros Hrun2. destruct (Hm h _ _ Hn Hrun) as (Ht & Hn1 & _).
    destruct (Hh e h1 res h' Hn1 Hrun2) as (Ht2 & ? & ?).
    repeat split; auto. congruence.
  - intros [= <- <-]. exact (Hm h _ _ Hn Hrun).
Qed.

Lemma preserves_load n r : preserves n (fun _ => True) (load r).
Proof.
  intros h res h' Hn. unfold load. destruct (h !! r); intros [= <- <-]; repeat split; done.
Qed.

Lemma preserves_store n r d : (n <= r)%nat -> preserves n (fun _ => True) (store r d).
Proof.
  intros Hr h res h' Hn [= <- <-]. split; [|split].
  - by apply take_insert_ge.
  - by rewrite length_insert.
  - done.
Qed.

Lemma preserves_alloc n d : preserves n (fun r => (n <= r)%nat) (alloc d).
Proof.
  intros h res h' Hn [= <- <-]. split; [|split].
  - by rewrite take_app_le.
  - rewrite length_app. lia.
  - by intros ? [= <-].
Qed.

(** One command of a sequence, by the lemma for that command. *)
Tactic Notation "step_with" uconstr(H) := eapply preserves_bind; [apply H|].

Lemma preserves_copy n r : preserves n (fun r' => (n <= r')%nat) (copy r).
Proof.
  unfold copy. step_with preserves_load.
  intros d _. apply preserves_alloc.
Qed.

Lemma preserves_getitem n r c : preserves n (fun _ => True) (getitem r c).
Proof.
  unfold getitem. step_with preserves_load.
  intros d _. destruct (lookup_column c d); [by apply preserves_ret|apply preserves_raise].
Qed.

Lemma preserves_getitem_list n r names :
  preserves n (fun r' => (n <= r')%nat) (getitem_list r names).
Proof.
  unfold getitem_list. step_with preserves_load.
  intros d _. destruct (forallb _ names); [apply preserves_alloc|apply preserves_raise].
Qed.

Lemma preserves_getitem_mask n r mask :
  preserves n (fun r' => (n <= r')%nat) (getitem_mask r mask).
Proof.
  unfold getitem_mask. step_with preserves_load.
  intros d _. destruct (_ =? _)%nat; [apply preserves_alloc|apply preserves_raise].
Qed.

Lemma preserves_setitem n r name v :
  (n <= r)%nat -> preserves n (fun _ => True) (setitem r name v).
Proof.
  intros Hr. unfold setitem. step_with preserves_load.
  intros d _. step_with preserves_lift.
  intros d' _. by apply preserves_store.
Qed.

Lemma preserves_for_each {A} n (f : A -> M unit) l :
  (forall a, preserves n (fun _ => True) (f a)) ->
  preserves n (fun _ => True) (for_each f l).
Proof.
  intros Hf. induction l as [|a l IH]; simpl; [by apply preserves_ret|].
  eapply preserves_bind; [apply Hf|]. intros _ _. exact IH.
Qed.

Lemma preserves_fold_m {A} n (f : ref -> A -> M ref) l :
  (forall r a, (n <= r)%nat -> preserves n (fun r' => (n <= r')%nat) (f r a)) ->
  forall r, (n <= r)%nat -> preserves n (fun r' => (n <= r')%nat) (fold_m f l r).
Proof.
  intros Hf. induction l as [|a l IH]; intros r Hr; simpl; [by apply preserves_ret|].
  eapply preserves_bind; [by apply Hf|]. intros r' Hr'. by apply IH.
Qed.

(** A stage called on a frame outside the first [n] leaves these alone
    and returns a frame outside them. *)
Lemma preserves_map_columns n df cm :
  (n <= df)%nat -> preserves n (fun r' => (n <= r')%nat) (map_columns df cm).
Proof.
  intros Hdf. unfold map_columns. destruct cm as [|m cm]; [by apply preserves_ret|].
  step_with preserves_load. intros d _.
  step_with preserves_lift. intros sel _.
  destruct sel as [|c sel]; [by apply preserves_ret|].
  step_with preserves_getitem_list. intros r1 Hr1.
  step_with preserves_copy. intros r2 Hr2.
  eapply preserves_bind.
  - unfold rename_inplace. step_with preserves_load.
    intros d2 _. by apply preserves_store.
  - intros _ _. by apply preserves_ret.
Qed.

Lemma preserves_apply_filter ext n r f :
  (n <= r)%nat -> preserves n (fun r' => (n <= r')%nat) (apply_filter ext r f).
Proof.
  intros Hr. unfold apply_filter.
  step_with preserves_load. intros d _.
  destruct (f_column f) as [column|]; [|by apply preserves_ret].
  destruct (negb (in_columns column d)); [by apply preserves_ret|].
  apply preserves_try; [|intros e; by apply preserves_ret].
  step_with preserves_getitem. intros s _.
  step_with preserves_lift. intros [mask|] _.
  - apply preserves_getitem_mask.
  - by apply preserves_ret.
Qed.

Lemma preserves_filter_rows ext n df fs :
  (n <= df)%nat -> preserves n (fun r' => (n <= r')%nat) (filter_rows ext df fs).
Proof.
  intros Hdf. unfold filter_rows. destruct fs as [|f fs]; [by apply preserves_ret|].
  step_with preserves_copy. intros r Hr.
  apply preserves_fold_m; [|done]. intros. by apply preserves_apply_filter.
Qed.

Lemma preserves_add_new_columns ext n df defs :
  (n <= df)%nat -> preserves n (fun r' => (n <= r')%nat) (add_new_columns ext df defs).
Proof.
  intros Hdf. unfold add_new_columns.
  destruct defs as [|e defs]; [by apply preserves_ret|].
  eapply preserves_bind; [|intros _ _; by apply preserves_ret].
  apply preserves_for_each. intros col_def. unfold add_column.
  destruct (c_name col_def) as [name|]; [|by apply preserves_ret].
  destruct (_ || _); [by apply preserves_ret|].
  apply preserves_try; [|intros; by apply preserves_ret].
  step_with preserves_load. intros d _.
  step_with preserves_lift. intros [v|] _.
  - by apply preserves_setitem.
  - by apply preserves_ret.
Qed.

Lemma preserves_convert_data_types ext n df tc :
  (n <= df)%nat -> preserves n (fun r' => (n <= r')%nat) (convert_data_types ext df tc).
Proof.
  intros Hdf. unfold convert_data_types.
  destruct tc as [|e tc]; [by apply preserves_ret|].
  eapply preserves_bind; [|intros _ _; by apply preserves_ret].
  apply preserves_for_each. intros [column new_type]. unfold convert_column.
  step_with preserves_load. intros d _.
  destruct (in_columns column d); [|by apply preserves_ret].
  apply preserves_try; [|intros; by apply preserves_ret].
  step_with preserves_getitem. intros s _.
  step_with preserves_lift. intros [s'|] _.
  - by apply preserves_setitem.
  - by apply preserves_ret.
Qed.

Lemma preserves_transform_data ext df o (h : heap) :
  preserves (List.length h)
    (fun r' => if no_options o then r' = df else (List.length h <= r')%nat)
    (transform_data ext df o).
Proof.
  unfold transform_data. destruct (no_options o); [by apply preserves_ret|].
  step_with preserves_copy. intros c0 H0.
  eapply preserves_bind.
  { destruct (column_mappings o);
      [by apply preserves_map_columns | by apply (preserves_ret _ (fun r => _ <= r)%nat)]. }
  intros c1 H1. eapply preserves_bind.
  { destruct (filters o);
      [by apply preserves_filter_rows | by apply (preserves_ret _ (fun r => _ <= r)%nat)]. }
  intros c2 H2. eapply preserves_bind.
  { destruct (new_columns o);
      [by apply preserves_add_new_columns
      | by apply (preserves_ret _ (fun r => _ <= r)%nat)]. }
  intros c3 H3. eapply preserves_bind.
  { destruct (data_type_conversions o);
      [by apply preserves_convert_data_types
      | by apply (preserves_ret _ (fun r => _ <= r)%nat)]. }
  intros c4 H4. by apply preserves_ret.
Qed.

(** C9: whatever the store, the dataset and the options, a call of
    transform_data changes no frame that was in the store before the call
    (the final store is the initial one followed by the frames the call
    allocated), so the dataset passed to it reads the same after the
    call, whether the call returns or raises; with options given, the
    dataset it returns is one of the frames it allocated. *)
Theorem transform_data_leaves_input ext df o h :
  (exists new, (transform_data ext df o h).2 = h ++ new)
  /\ (forall d, h !! df = Some d -> (transform_data ext df o h).2 !! df = Some d)
  /\ (forall r', (transform_data ext df o h).1 = inr r' ->
         if no_options o then r' = df else (List.length h <= r')%nat).
Proof.
  destruct (transform_data ext df o h) as [res h'] eqn:Hrun.
  destruct (preserves_transform_data ext df o h h res h' (le_n _) Hrun) as (Ht & Hn & HQ).
  rewrite firstn_all in Ht.
  assert (Hnew : h' = h ++ drop (List.length h) h').
  { rewrite <- Ht at 1. by rewrite take_drop. }
  split; [by eexists | split].
  - intros d Hd. cbn [snd]. rewrite Hnew. by apply lookup_app_l_Some.
  - exact HQ.
Qed.

Lemma transform_data_leaves_input_witness :
  (exists new,
      (transform_data plain_ext 0
         (mkOptions (Some [MDict (Some "c") (Some "n")]) None None
            (Some [("n", "int")]) [])
         [col_1_bad_3]).2 = [col_1_bad_3] ++ new)
  /\ (transform_data plain_ext 0
        (mkOptions (Some [MDict (Some "c") (Some "n")]) None None
           (Some [("n", "int")]) [])
        [col_1_bad_3]).2 !! 0%nat = Some col_1_bad_3
  /\ (exists r',
         (transform_data plain_ext 0
            (mkOptions (Some [MDict (Some "c") (Some "n")]) None None
               (Some [("n", "int")]) [])
            [col_1_bad_3]).1 = inr r'
         /\ (1 <= r')%nat).
Proof.
  destruct (transform_data_leaves_input plain_ext 0
              (mkOptions (Some [MDict (Some "c") (Some "n")]) None None
                 (Some [("n", "int")]) [])
              [col_1_bad_3]) as (Hnew & Hsame & Hfresh).
  split; [exact Hnew | split; [apply Hsame; reflexivity |]].
  exists 3%nat. split; [reflexivity | apply (Hfresh 3%nat); reflexivity].
Defined.

(** ** Labels under the stages *)

Lemma columns_select_rows mask d : columns (select_rows mask d) = columns d.
Proof.
  unfold columns, select_rows. cbn [data]. rewrite <- list_fmap_compose.
  apply list_fmap_ext. by intros _ [c s] _.
Qed.

Lemma columns_filter_step ext d f : columns (filter_step ext d f) = columns d.
Proof.
  unfold filter_step. destruct (f_column f); [|done].
  destruct (negb _); [done|]. destruct (lookup_column _ _); [|done].
  destruct (filter_mask _ _ _ _) as [?|[?|]]; try done.
  destruct (_ =? _)%nat; [apply columns_select_rows|done].
Qed.

Lemma columns_fold_filter_step ext fs d :
  columns (fold_left (filter_step ext) fs d) = columns d.
Proof.
  revert d. induction fs as [|f fs IH]; intros d; simpl; [done|].
  by rewrite IH, columns_filter_step.
Qed.

Lemma columns_grow n d : columns (grow n d) = columns d.
Proof.
  unfold columns, grow. cbn [data]. rewrite <- list_fmap_compose.
  apply list_fmap_ext. by intros _ [c s] _.
Qed.

Lemma columns_set_column_in name s d :
  in_columns name d = true -> columns (set_column name s d) = columns d.
Proof.
  intros Hin. unfold set_column. rewrite Hin. unfold columns. cbn [data].
  rewrite <- list_fmap_compose. apply list_fmap_ext. intros _ [c s'] _. simpl.
  by destruct (String.eqb c name).
Qed.

Lemma in_columns_grow name n d : in_columns name (grow n d) = in_columns name d.
Proof. unfold in_columns. by rewrite columns_grow. Qed.

Lemma columns_assign_in name v d d' :
  in_columns name d = true -> assign name v d = inr d' -> columns d' = columns d.
Proof.
  intros Hin. unfold assign. destruct v as [c|s].
  - intros [= <-]. by apply columns_set_column_in.
  - destruct (_ && _).
    + intros [= <-]. rewrite columns_set_column_in; [apply columns_grow|].
      by rewrite in_columns_grow.
    + destruct (_ =? _)%nat; [|done]. intros [= <-]. by apply columns_set_column_in.
Qed.

Lemma columns_convert_step ext d item : columns (convert_step ext d item) = columns d.
Proof.
  unfold convert_step. destruct (in_columns item.1 d) eqn:Hin; [|done].
  destruct (lookup_column _ _); [|done].
  destruct (converted _ _ _) as [?|[s'|]]; try done.
  destruct (assign _ _ _) eqn:Ha; [done|]. by eapply columns_assign_in.
Qed.

Lemma columns_fold_convert_step ext tc d :
  columns (fold_left (convert_step ext) tc d) = columns d.
Proof.
  revert d. induction tc as [|e tc IH]; intros d; simpl; [done|].
  by rewrite IH, columns_convert_step.
Qed.

(** ** Entries that name a column the dataset does not have *)

Lemma filter_step_missing ext d f c :
  f_column f = Some c -> in_columns c d = false -> filter_step ext d f = d.
Proof. intros Hc Hin. unfold filter_step. by rewrite Hc, Hin. Qed.

Lemma add_column_step_missing ext d col_def :
  missing_source col_def d -> add_column_step ext d col_def = d.
Proof.
  intros Hmiss. unfold add_column_step.
  destruct (c_name col_def) as [name|]; [|done].
  destruct (_ || _); [done|].
  assert (Hv : new_column_value ext d col_def = inr None); [|by rewrite Hv].
  unfold new_column_value.
  destruct Hmiss as [(Hop & s & Hs & Hin)|(Hop & s & Hs & Hin)]; rewrite Hop; cbn.
  - rewrite Hs, Hin. by destruct s.
  - destruct (List.filter _ _) eqn:Hf; [|done].
    assert (s ∈ List.filter (fun s => negb (in_columns s d)) (default [] (c_sources col_def))).
    { apply list_elem_of_In, filter_In. split; [by apply list_elem_of_In|by rewrite Hin]. }
    rewrite Hf in H. by apply not_elem_of_nil in H.
Qed.

Lemma convert_step_missing ext d c t :
  in_columns c d = false -> convert_step ext d (c, t) = d.
Proof. intros Hin. unfold convert_step. cbn [fst]. by rewrite Hin. Qed.

Lemma lookup_column_elem c d s :
  lookup_column c d = Some s -> in_columns c d = true /\ (c, s) ∈ data d.
Proof.
  unfold lookup_column. destruct (List.find _ _) as [[c' s']|] eqn:Hfind; [|done].
  intros [= <-]. apply find_some in Hfind as [Hin Hc]. simpl in Hc.
  apply String.eqb_eq in Hc as ->. split.
  - apply bool_decide_eq_true. apply list_elem_of_fmap. exists (c, s').
    split; [done|by apply list_elem_of_In].
  - by apply list_elem_of_In.
Qed.

Lemma assign_series_aligned c (s s' : Series) d :
  List.length (s_values s') = nrows d ->
  assign c (RSeries s') d = inr (set_column c s' d).
Proof.
  intros Hlen. unfold assign. rewrite Hlen, Nat.eqb_refl.
  by destruct (nrows d =? 0)%nat.
Qed.

Lemma filter_step_null_test ext d c s v (isnull_cond : bool) :
  aligned d -> lookup_column c d = Some s ->
  filter_step ext d
    (mkFilter (Some c) (Some (if isnull_cond then "isnull" else "notnull")) v)
  = select_rows (map (if isnull_cond then isnull else notnull) (s_values s)) d.
Proof.
  intros Hal Hs. destruct (lookup_column_elem _ _ _ Hs) as [Hin Helem].
  assert (Hlen : List.length (s_values s) = nrows d).
  { unfold aligned in Hal. rewrite Forall_forall in Hal. exact (Hal _ Helem). }
  unfold filter_step. cbn [f_column f_condition f_value]. rewrite Hin, Hs. cbn [negb].
  destruct isnull_cond.
  - change (filter_mask ext s (Some "isnull") v)
      with (inr (Some (map isnull (s_values s))) : exn + option (list bool)).
    cbv beta iota. by rewrite length_map, Hlen, Nat.eqb_refl.
  - change (filter_mask ext s (Some "notnull") v)
      with (inr (Some (map notnull (s_values s))) : exn + option (list bool)).
    cbv beta iota. by rewrite length_map, Hlen, Nat.eqb_refl.
Qed.

(** C7: on a dataset (unique column names, columns of equal length), a
    filter entry, a copy or concat definition, or a type conversion that
    names a column the dataset does not have never makes its stage raise,
    and the remaining entries are all applied: the stage returns the
    dataset that the entries before and after it produce, one after the
    other, and this is also what it returns without the entry.  So a
    notnull filter that follows the entry removes the rows with a null
    cell, a default_value definition that follows it adds its column, and
    a str conversion that follows it converts its column.  For synthesis
    the dataset is the one the earlier definitions have left; the keys of
    type_conversions are those of a dict. *)
Theorem missing_column_entry_is_skipped ext df h d :
  h !! df = Some d -> dataset_inv d ->
  ((forall pre post f c,
       f_column f = Some c -> in_columns c d = false ->
       result_frame (filter_rows ext df (pre ++ f :: post)) h
       = inr (fold_left (filter_step ext) post (fold_left (filter_step ext) pre d))
       /\ result_frame (filter_rows ext df (pre ++ post)) h
          = result_frame (filter_rows ext df (pre ++ f :: post)) h)
   /\ (forall f c c2 s2 v,
          f_column f = Some c -> in_columns c d = false ->
          lookup_column c2 d = Some s2 ->
          result_frame (filter_rows ext df [f; mkFilter (Some c2) (Some "notnull") v]) h
          = inr (select_rows (map notnull (s_values s2)) d)))
  /\ ((forall pre post col_def d1,
          (add_new_columns ext df pre h).2 !! df = Some d1 ->
          missing_source col_def d1 ->
          add_new_columns ext df (pre ++ col_def :: post) h
          = (inr df, <[df := fold_left (add_column_step ext) post d1]> h)
          /\ add_new_columns ext df (pre ++ post) h
             = add_new_columns ext df (pre ++ col_def :: post) h)
      /\ (forall col_def name v,
             missing_source col_def d -> name <> "" -> is_scalar v = true ->
             add_new_columns ext df
               [col_def;
                mkColumnDef (Some name) (Some "default_value") None None None None (Some v)]
               h
             = (inr df, <[df := set_column name (broadcast (json_cell v) (nrows d)) d]> h)))
  /\ ((forall pre post c t,
          NoDup (pre ++ (c, t) :: post).*1 -> in_columns c d = false ->
          convert_data_types ext df (pre ++ (c, t) :: post) h
          = (inr df, <[df := fold_left (convert_step ext) post
                                (fold_left (convert_step ext) pre d)]> h)
          /\ convert_data_types ext df (pre ++ post) h
             = convert_data_types ext df (pre ++ (c, t) :: post) h)
      /\ (forall c t c2 s2,
             in_columns c d = false -> lookup_column c2 d = Some s2 ->
             convert_data_types ext df [(c, t); (c2, "str")] h
             = (inr df, <[df := set_column c2 (astype_str ext s2) d]> h))).
Proof.
  intros Hr Hinv. assert (Hlt : (df < List.length h)%nat) by (by eapply lookup_lt_Some).
  split; [|split]; split.
  - intros pre post f c Hc Hin.
    rewrite !(filter_rows_frame _ _ _ _ _ Hr).
    rewrite !fold_left_app. cbn [fold_left].
    rewrite (filter_step_missing _ _ _ c); [done|done|].
    unfold in_columns in *. by rewrite columns_fold_filter_step.
  - intros f c c2 s2 v Hc Hin Hs2.
    rewrite (filter_rows_frame _ _ _ _ _ Hr). cbn [fold_left].
    rewrite (filter_step_missing _ _ _ c Hc Hin).
    by rewrite (filter_step_null_test ext d c2 s2 v false (proj2 Hinv) Hs2).
  - intros pre post col_def d1 Hd1 Hmiss.
    rewrite !(add_new_columns_run _ _ _ _ _ Hr).
    rewrite (add_new_columns_run _ _ _ _ _ Hr) in Hd1. cbn [snd] in Hd1.
    rewrite list_lookup_insert_eq in Hd1 by done. injection Hd1 as <-.
    rewrite !fold_left_app. cbn [fold_left]. by rewrite add_column_step_missing.
  - intros col_def name v Hmiss Hname Hv.
    rewrite (add_new_columns_run _ _ _ _ _ Hr). cbn [fold_left].
    rewrite (add_column_step_missing _ _ _ Hmiss). do 3 f_equal.
    unfold add_column_step. cbn [c_name c_operation].
    destruct name as [|a name]; [done|]. cbn [falsy orb].
    unfold new_column_value. cbn [c_operation c_value is_cond String.eqb
                                    Ascii.eqb Bool.eqb].
    by destruct v.
  - intros pre post c t _ Hin.
    rewrite !(convert_data_types_run _ _ _ _ _ Hr).
    rewrite !fold_left_app. cbn [fold_left]. rewrite convert_step_missing; [done|].
    unfold in_columns in *. by rewrite columns_fold_convert_step.
  - intros c t c2 s2 Hin Hs2.
    rewrite (convert_data_types_run _ _ _ _ _ Hr). cbn [fold_left].
    rewrite (convert_step_missing _ _ _ _ Hin). do 3 f_equal.
    destruct (lookup_column_elem _ _ _ Hs2) as [Hin2 Helem].
    unfold convert_step. cbn [fst snd]. rewrite Hin2, Hs2.
    change (converted ext s2 "str") with (inr (Some (astype_str ext s2)) : exn + _).
    cbv beta iota. rewrite (assign_series_aligned _ s2); [done|].
    unfold astype_str. cbn [s_values]. rewrite length_map.
    destruct Hinv as [_ Hal]. unfold aligned in Hal. rewrite Forall_forall in Hal.
    exact (Hal _ Helem).
Qed.

Lemma missing_column_entry_is_skipped_witness :
  let d0 := frame 3 [("n", DInt64, [CInt 1; CInt 2; CInt 3]);
                     ("s", DObject, [CStr "a"; CStr "b"; CStr "c"])] in
  let gt1 := mkFilter (Some "n") (Some ">") (JInt 1) in
  let lt3 := mkFilter (Some "n") (Some "<") (JInt 3) in
  let lost := mkFilter (Some "zz") (Some ">") (JInt 0) in
  let copy_n := mkColumnDef (Some "m") (Some "copy") None None None (Some "n") None in
  let copy_zz := mkColumnDef (Some "q") (Some "copy") None None None (Some "zz") None in
  let cat := mkColumnDef (Some "t") (Some "concat") (Some ["s"; "m"]) (Some "-")
               None None None in
  result_frame (filter_rows plain_ext 0 ([gt1] ++ lost :: [lt3])) [d0]
  = inr (frame 1 [("n", DInt64, [CInt 2]); ("s", DObject, [CStr "b"])])
  /\ add_new_columns plain_ext 0 ([copy_n] ++ copy_zz :: [cat]) [d0]
     = (inr 0%nat,
        [frame 3 [("n", DInt64, [CInt 1; CInt 2; CInt 3]);
                  ("s", DObject, [CStr "a"; CStr "b"; CStr "c"]);
                  ("m", DInt64, [CInt 1; CInt 2; CInt 3]);
                  ("t", DObject, [CStr "a-1"; CStr "b-2"; CStr "c-3"])]])
  /\ convert_data_types plain_ext 0 ([("n", "str")] ++ ("zz", "int") :: [("s", "bool")])
       [d0]
     = (inr 0%nat,
        [frame 3 [("n", DObject, [CStr "1"; CStr "2"; CStr "3"]);
                  ("s", DBool, [CBool true; CBool true; CBool true])]]).
Proof.
  cbv zeta.
  destruct (missing_column_entry_is_skipped plain_ext 0
              [frame 3 [("n", DInt64, [CInt 1; CInt 2; CInt 3]);
                        ("s", DObject, [CStr "a"; CStr "b"; CStr "c"])]]
              _ eq_refl) as ([Hfilter _] & [Hsynth _] & [Hconv _]).
  { split; [by apply (bool_decide_unpack _)|repeat constructor]. }
  split; [|split].
  - etransitivity; [|reflexivity].
    exact (proj1 (Hfilter [mkFilter (Some "n") (Some ">") (JInt 1)]
                    [mkFilter (Some "n") (Some "<") (JInt 3)]
                    (mkFilter (Some "zz") (Some ">") (JInt 0)) "zz" eq_refl eq_refl)).
  - etransitivity; [|reflexivity].
    refine (proj1 (Hsynth
                     [mkColumnDef (Some "m") (Some "copy") None None None (Some "n") None]
                     [mkColumnDef (Some "t") (Some "concat") (Some ["s"; "m"]) (Some "-")
                        None None None]
                     (mkColumnDef (Some "q") (Some "copy") None None None (Some "zz") None)
                     _ eq_refl _)).
    left. split; [reflexivity|]. exists "zz". split; reflexivity.
  - etransitivity; [|reflexivity].
    refine (proj1 (Hconv [("n", "str")] [("s", "bool")] "zz" "int" _ eq_refl)).
    by apply (bool_decide_unpack _).
Defined.

(** ** The dataset invariant *)

Lemma keep_length {A} (mask : list bool) : forall l : list A,
  List.length l = List.length mask ->
  List.length (keep mask l) = List.length (List.filter id mask).
Proof.
  induction mask as [|b mask IH]; intros [|a l]; simpl; try done.
  intros [= Hl]. destruct b; simpl; by rewrite IH.
Qed.

Lemma aligned_select_rows mask d :
  List.length mask = nrows d -> aligned d -> aligned (select_rows mask d).
Proof.
  intros Hm Hal. unfold aligned, select_rows in *. cbn [data nrows].
  apply Forall_fmap. eapply Forall_impl; [exact Hal|].
  intros [c s] Hs. simpl in *. apply keep_length. congruence.
Qed.

Lemma inv_filter_step ext d f : dataset_inv d -> dataset_inv (filter_step ext d f).
Proof.
  intros [Hnd Hal]. split; [by rewrite columns_filter_step|].
  unfold filter_step. destruct (f_column f); [|done].
  destruct (negb _); [done|]. destruct (lookup_column _ _); [|done].
  destruct (filter_mask _ _ _ _) as [?|[mask|]]; try done.
  destruct (_ =? _)%nat eqn:Hlen; [|done].
  apply aligned_select_rows; [by apply Nat.eqb_eq|done].
Qed.

Lemma inv_set_column name s d :
  List.length (s_values s) = nrows d -> dataset_inv d ->
  dataset_inv (set_column name s d).
Proof.
  intros Hs [Hnd Hal]. destruct (in_columns name d) eqn:Hin.
  - split; [by rewrite columns_set_column_in|].
    unfold set_column. rewrite Hin. unfold aligned in *. cbn [data nrows].
    apply Forall_fmap. eapply Forall_impl; [exact Hal|].
    intros [c s'] Hs'. simpl in *. by destruct (String.eqb c name).
  - unfold set_column. rewrite Hin. split.
    + unfold columns. cbn [data]. rewrite fmap_app. simpl.
      apply NoDup_app. split; [done|]. split; [|apply NoDup_singleton].
      intros x Hx Hx'. apply list_elem_of_singleton in Hx' as ->.
      unfold in_columns in Hin. by apply bool_decide_eq_false in Hin.
    + unfold aligned in *. cbn [data nrows]. apply Forall_app. split; [done|].
      by apply Forall_singleton.
Qed.

Lemma inv_grow n d : NoDup (columns d) -> dataset_inv (grow n d).
Proof.
  intros Hnd. split; [by rewrite columns_grow|].
  unfold aligned, grow. cbn [data nrows]. apply Forall_fmap, Forall_true.
  intros [c s]. simpl. destruct (s_dtype s); simpl; apply repeat_length.
Qed.

Lemma inv_assign name v d d' :
  dataset_inv d -> assign name v d = inr d' -> dataset_inv d'.
Proof.
  intros Hinv. unfold assign. destruct v as [c|s].
  - intros [= <-]. apply inv_set_column; [|done]. simpl. apply repeat_length.
  - destruct (_ && _).
    + intros [= <-]. apply inv_set_column; [done|]. apply inv_grow, Hinv.
    + destruct (_ =? _)%nat eqn:Hlen; [|done]. intros [= <-].
      apply inv_set_column; [by apply Nat.eqb_eq|done].
Qed.

Lemma inv_add_column_step ext d col_def :
  dataset_inv d -> dataset_inv (add_column_step ext d col_def).
Proof.
  intros Hinv. unfold add_column_step.
  destruct (c_name col_def) as [name|]; [|done].
  destruct (_ || _); [done|].
  destruct (new_column_value _ _ _) as [?|[v|]]; try done.
  destruct (assign _ _ _) eqn:Ha; [done|]. by eapply inv_assign.
Qed.

Lemma inv_convert_step ext d item :
  dataset_inv d -> dataset_inv (convert_step ext d item).
Proof.
  intros Hinv. unfold convert_step.
  destruct (in_columns _ _); [|done]. destruct (lookup_column _ _); [|done].
  destruct (converted _ _ _) as [?|[s'|]]; try done.
  destruct (assign _ _ _) eqn:Ha; [done|]. by eapply inv_assign.
Qed.

Lemma inv_fold_left {A} (step : DataFrame -> A -> DataFrame) l :
  (forall d a, dataset_inv d -> dataset_inv (step d a)) ->
  forall d, dataset_inv d -> dataset_inv (fold_left step l d).
Proof.
  intros Hstep. induction l as [|a l IH]; intros d Hd; simpl; [done|].
  by apply IH, Hstep.
Qed.

(** *** Column mapping *)

Lemma map_columns_result df cm h d :
  h !! df = Some d ->
  result_frame (map_columns df cm) h =
  match map_columns_frame d cm with
  | inl e => inl e
  | inr None => inr d
  | inr (Some d') => inr d'
  end.
Proof.
  intros Hr. pose proof (map_columns_run df cm h d Hr) as Hrun. unfold result_frame.
  destruct (map_columns_frame d cm) as [e|[d'|]].
  - by rewrite Hrun.
  - destruct Hrun as [tmp ->].
    replace (h ++ [tmp; d']) with ((h ++ [tmp]) ++ [d']) by (by rewrite <- app_assoc).
    replace (S (List.length h)) with (List.length (h ++ [tmp]))
      by (rewrite length_app; simpl; lia).
    by rewrite lookup_alloc.
  - by rewrite Hrun, Hr.
Qed.

Lemma aligned_select_columns names d : aligned d -> aligned (select_columns names d).
Proof.
  intros Hal. unfold aligned, select_columns in *. cbn [data nrows].
  apply Forall_forall. intros p Hp. apply list_elem_of_In, in_flat_map in Hp.
  destruct Hp as (n & _ & Hp). apply filter_In in Hp as [Hp _].
  rewrite Forall_forall in Hal. by apply Hal, list_elem_of_In.
Qed.

Lemma aligned_rename rm d : aligned d -> aligned (rename rm d).
Proof.
  intros Hal. unfold aligned, rename in *. cbn [data nrows].
  apply Forall_fmap. eapply Forall_impl; [exact Hal|]. by intros [c s].
Qed.

Lemma columns_rename rm d :
  columns (rename rm d) = (fun c => default c (rm !! c)) <$> columns d.
Proof.
  unfold columns, rename. cbn [data]. rewrite <- !list_fmap_compose.
  apply list_fmap_ext. by intros _ [c s] _.
Qed.

Lemma filter_label_unique (l : list (string * Series)) n :
  NoDup l.*1 -> n ∈ l.*1 -> (List.filter (fun p => String.eqb p.1 n) l).*1 = [n].
Proof.
  induction l as [|[c s] l IH]; simpl; intros Hnd Hin.
  - by apply not_elem_of_nil in Hin.
  - apply NoDup_cons in Hnd as [Hc Hnd]. destruct (String.eqb_spec c n) as [->|Hne].
    + simpl. f_equal.
      assert (Hnone : forall l' : list (string * Series), n ∉ l'.*1 ->
                 List.filter (fun p => String.eqb p.1 n) l' = []).
      { induction l' as [|[c' s'] l' IH']; simpl; [done|].
        intros Hn. apply not_elem_of_cons in Hn as [Hn Hn'].
        destruct (String.eqb_spec c' n); [congruence|]. by apply IH'. }
      by rewrite Hnone.
    + apply IH; [done|]. apply elem_of_cons in Hin as [->|Hin]; [done|done].
Qed.

Lemma columns_select_columns names d :
  NoDup (columns d) -> Forall (fun n => n ∈ columns d) names ->
  columns (select_columns names d) = names.
Proof.
  intros Hnd Hall. unfold columns, select_columns in *. cbn [data].
  induction Hall as [|n names Hn _ IH]; simpl; [done|].
  rewrite fmap_app, IH. by rewrite filter_label_unique.
Qed.

Lemma columns_to_select_entries d (pairs : list (string * string)) :
  columns_to_select d (entry <$> pairs)
  = inr (List.filter (fun p => in_columns p.1 d) pairs).*1.
Proof.
  induction pairs as [|[f t] pairs IH]; [done|].
  rewrite fmap_cons. cbn [columns_to_select entry entry_from fst].
  rewrite IH. cbn [List.filter fst]. by destruct (in_columns f d).
Qed.

Lemma rename_map_other d (pairs : list (string * string)) c :
  forall rm, c ∉ pairs.*1 ->
    fold_left (note_rename d) (entry <$> pairs) rm !! c = rm !! c.
Proof.
  induction pairs as [|[f t] pairs IH]; intros rm Hc; [done|].
  rewrite fmap_cons in *. cbn [fold_left]. cbn [fmap list_fmap fst] in Hc.
  apply not_elem_of_cons in Hc as [Hne Hc]. rewrite IH by done.
  cbn [note_rename entry fst snd].
  destruct (in_columns f d); [|done]. destruct (negb _); [|done].
  by rewrite lookup_insert_ne.
Qed.

Lemma rename_map_lookup d (pairs : list (string * string)) f t :
  forall rm, NoDup pairs.*1 -> Forall (fun p => rm !! p.1 = None) pairs ->
    (f, t) ∈ pairs -> in_columns f d = true ->
    default f (fold_left (note_rename d) (entry <$> pairs) rm !! f) = t.
Proof.
  induction pairs as [|[f' t'] pairs IH]; intros rm Hnd Hrm Hin Hcol.
  - by apply not_elem_of_nil in Hin.
  - simpl in Hnd. apply NoDup_cons in Hnd as [Hf' Hnd].
    apply Forall_cons in Hrm as [Hrm' Hrm]. simpl in Hrm'.
    rewrite fmap_cons. cbn [fold_left].
    apply elem_of_cons in Hin as [[= <- <-]|Hin].
    + rewrite rename_map_other by done. cbn [note_rename entry fst snd].
      rewrite Hcol.
      destruct (String.eqb_spec f t) as [->|Hne]; simpl.
      * by rewrite Hrm'.
      * by rewrite lookup_insert_eq.
    + apply IH; try done. cbn [note_rename entry fst snd].
      assert (Hne : forall p, p ∈ pairs -> p.1 <> f').
      { intros p Hp Heq. apply Hf'. rewrite <- Heq. by apply list_elem_of_fmap_2. }
      destruct (in_columns f' d); [|done]. destruct (negb _); [|done].
      apply Forall_forall. intros p Hp. rewrite lookup_insert_ne.
      * rewrite Forall_forall in Hrm. by apply Hrm.
      * intros Heq. by apply (Hne p).
Qed.

Lemma NoDup_filter_snd d (pairs : list (string * string)) :
  NoDup pairs.*2 -> NoDup (List.filter (fun p => in_columns p.1 d) pairs).*2.
Proof.
  induction pairs as [|[f t] pairs IH]; simpl; [done|].
  intros Hnd. apply NoDup_cons in Hnd as [Ht Hnd].
  destruct (in_columns f d); simpl; [|by apply IH].
  apply NoDup_cons. split; [|by apply IH].
  intros Hin. apply Ht. apply list_elem_of_fmap in Hin as ([f' t'] & -> & Hin).
  apply list_elem_of_In, filter_In in Hin as [Hin _].
  apply list_elem_of_fmap. exists (f', t'). split; [done|by apply list_elem_of_In].
Qed.

Lemma map_columns_frame_some d cm d' :
  map_columns_frame d cm = inr (Some d') ->
  exists c sel,
    columns_to_select d cm = inr (c :: sel)
    /\ d' = rename (fold_left (note_rename d) cm ∅) (select_columns (c :: sel) d).
Proof.
  unfold map_columns_frame. destruct cm as [|m cm]; [done|].
  destruct (columns_to_select _ _) as [?|[|c sel]]; try done.
  intros [= <-]. by exists c, sel.
Qed.

Lemma inv_map_columns_frame d (pairs : list (string * string)) d' :
  dataset_inv d -> NoDup pairs.*1 -> NoDup pairs.*2 ->
  map_columns_frame d (entry <$> pairs) = inr (Some d') -> dataset_inv d'.
Proof.
  intros [Hnd Hal] Hfrom Hto Hframe.
  apply map_columns_frame_some in Hframe as (c & rest & Hsel & ->).
  rewrite columns_to_select_entries in Hsel. injection Hsel as Hsel.
  rewrite <- Hsel. clear Hsel c rest.
  set (sel := List.filter (fun p => in_columns p.1 d) pairs).
  split; [|by apply aligned_rename, aligned_select_columns].
  rewrite columns_rename, columns_select_columns; [|done|].
  2:{ apply Forall_fmap, Forall_forall. intros p Hp.
      apply list_elem_of_In, filter_In in Hp as [_ Hp].
      by apply bool_decide_eq_true in Hp. }
  assert (Heq : (fun c => default c (fold_left (note_rename d) (entry <$> pairs) ∅ !! c))
                  <$> sel.*1 = sel.*2).
  { rewrite <- list_fmap_compose. apply list_fmap_ext. intros i [f t] Hp. simpl.
    apply list_elem_of_lookup_2, list_elem_of_In, filter_In in Hp as [Hp Hcol].
    apply rename_map_lookup; try done.
    - by apply Forall_true.
    - by apply list_elem_of_In. }
  rewrite Heq. by apply NoDup_filter_snd.
Qed.

Lemma aligned_map_columns_frame d cm d' :
  aligned d -> map_columns_frame d cm = inr (Some d') -> aligned d'.
Proof.
  intros Hal Hframe. apply map_columns_frame_some in Hframe as (c & rest & _ & ->).
  by apply aligned_rename, aligned_select_columns.
Qed.

Lemma map_columns_frame_entries d (pairs : list (string * string)) :
  exists r, map_columns_frame d (entry <$> pairs) = inr r.
Proof.
  unfold map_columns_frame. destruct (entry <$> pairs) eqn:He; [eauto|].
  rewrite <- He, columns_to_select_entries. destruct (_.*1); eauto.
Qed.

Lemma in_columns_lookup n d :
  in_columns n d = true -> exists s, lookup_column n d = Some s.
Proof.
  intros Hin. apply bool_decide_eq_true in Hin. unfold columns, lookup_column in *.
  induction (data d) as [|[c s] l IH]; [by apply not_elem_of_nil in Hin|].
  simpl in *. destruct (String.eqb_spec c n) as [->|Hne]; [by eexists|].
  apply IH. apply elem_of_cons in Hin as [->|Hin]; done.
Qed.

Lemma filter_label_one (l : list (string * Series)) n s :
  NoDup l.*1 ->
  snd <$> List.find (fun p => String.eqb p.1 n) l = Some s ->
  List.filter (fun p => String.eqb p.1 n) l = [(n, s)].
Proof.
  induction l as [|[c s'] l IH]; simpl; intros Hnd Hfind; [done|].
  apply NoDup_cons in Hnd as [Hc Hnd]. destruct (String.eqb_spec c n) as [->|Hne].
  - simpl in Hfind. injection Hfind as ->. f_equal.
    clear IH Hnd. induction l as [|[c' s''] l IH']; simpl in *; [done|].
    apply not_elem_of_cons in Hc as [Hn Hc]. destruct (String.eqb_spec c' n); [congruence|].
    by apply IH'.
  - by apply IH.
Qed.

Lemma map_columns_frame_none d (pairs : list (string * string)) :
  map_columns_frame d (entry <$> pairs) = inr None ->
  List.filter (fun p => in_columns p.1 d) pairs = [].
Proof.
  unfold map_columns_frame. destruct (entry <$> pairs) eqn:He.
  - apply fmap_nil_inv in He as ->. done.
  - rewrite <- He, columns_to_select_entries.
    destruct (_.*1) eqn:Hsel; [|done]. by apply fmap_nil_inv in Hsel.
Qed.

Lemma select_one_column f s d :
  NoDup (columns d) -> lookup_column f d = Some s ->
  List.filter (fun p => String.eqb p.1 f) (data d) = [(f, s)].
Proof. intros Hnd Hs. by apply filter_label_one. Qed.

Lemma repeated_from_data d (l1 l2 l3 : list (string * string)) f t1 t2 s :
  NoDup (columns d) -> lookup_column f d = Some s ->
  exists name D1 D2 D3,
    data (rename (fold_left (note_rename d)
                    (entry <$> (l1 ++ (f, t1) :: l2 ++ (f, t2) :: l3)) ∅)
            (select_columns
               (List.filter (fun p => in_columns p.1 d)
                  (l1 ++ (f, t1) :: l2 ++ (f, t2) :: l3)).*1 d))
    = D1 ++ (name, s) :: D2 ++ (name, s) :: D3.
Proof.
  intros Hnd Hs. destruct (lookup_column_elem _ _ _ Hs) as [Hin _].
  set (rm := fold_left _ _ _).
  unfold rename, select_columns. cbn [data nrows].
  rewrite List.filter_app. cbn [List.filter fst]. rewrite Hin.
  rewrite List.filter_app. cbn [List.filter fst]. rewrite Hin.
  rewrite fmap_app, fmap_cons, fmap_app, fmap_cons. cbn [fst].
  rewrite flat_map_app. cbn [flat_map]. rewrite flat_map_app. cbn [flat_map].
  rewrite (select_one_column _ _ _ Hnd Hs).
  rewrite !fmap_app, !fmap_cons. cbn [fst snd fmap list_fmap].
  by eexists _, _, _, _.
Qed.

Lemma inv_frame_a_b : dataset_inv frame_a_b.
Proof.
  split.
  - by apply (bool_decide_unpack _).
  - repeat constructor.
Qed.

(** C4 fails as stated: on a dataset with unique names a, b, the mapping
    list that names the existing column a in two entries makes
    map_columns return a dataset with the columns y, y. *)
Lemma map_columns_repeated_from :
  dataset_inv frame_a_b
  /\ exists out,
       run (fun df => map_columns df
                        [MDict (Some "a") (Some "x"); MDict (Some "a") (Some "y")])
           frame_a_b = inr out
       /\ columns out = ["y"; "y"]
       /\ ~ dataset_inv out.
Proof.
  split; [exact inv_frame_a_b|]. eexists. split; [reflexivity|]. split; [reflexivity|].
  intros [Hnd _]. apply NoDup_cons in Hnd as [Hy _]. apply Hy. by left.
Qed.

Lemma result_frame_inplace (m : M ref) df h d' :
  (df < List.length h)%nat -> m h = (inr df, <[df := d']> h) ->
  result_frame m h = inr d'.
Proof.
  intros Hlt Hrun. unfold result_frame. by rewrite Hrun, list_lookup_insert_eq.
Qed.

(** C4, amended: row filtering, column synthesis and type coercion
    preserve the dataset invariant (unique column names, all columns of
    the dataset's length) for every configuration; column mapping always
    preserves the equal lengths, and preserves the invariant when the
    entries are dicts with both keys in which no 'from' name and no 'to'
    name occurs twice.  A list of such dicts in which two entries name
    the same existing 'from' column yields that column twice, under one
    name, so the names of the result are not unique. *)
Theorem stages_preserve_invariant ext df h d :
  h !! df = Some d -> dataset_inv d ->
  (forall pairs : list (string * string),
      NoDup pairs.*1 -> NoDup pairs.*2 ->
      exists d', result_frame (map_columns df (entry <$> pairs)) h = inr d'
                 /\ dataset_inv d')
  /\ (forall cm d', result_frame (map_columns df cm) h = inr d' -> aligned d')
  /\ (forall (l1 l2 l3 : list (string * string)) f t1 t2 s,
         lookup_column f d = Some s ->
         exists d' name D1 D2 D3,
           result_frame
             (map_columns df (entry <$> (l1 ++ (f, t1) :: l2 ++ (f, t2) :: l3))) h
           = inr d'
           /\ data d' = D1 ++ (name, s) :: D2 ++ (name, s) :: D3
           /\ ~ NoDup (columns d'))
  /\ (forall fs,
         exists d', result_frame (filter_rows ext df fs) h = inr d' /\ dataset_inv d')
  /\ (forall defs,
         exists d', result_frame (add_new_columns ext df defs) h = inr d'
                    /\ dataset_inv d')
  /\ (forall tc,
         exists d', result_frame (convert_data_types ext df tc) h = inr d'
                    /\ dataset_inv d').
Proof.
  intros Hr Hinv. assert (Hlt : (df < List.length h)%nat) by (by eapply lookup_lt_Some).
  split; [|split; [|split; [|split; [|split]]]].
  - intros pairs Hfrom Hto. rewrite (map_columns_result _ _ _ _ Hr).
    destruct (map_columns_frame d (entry <$> pairs)) as [e|[d'|]] eqn:Hframe.
    + destruct (map_columns_frame_entries d pairs) as [r Hr']. congruence.
    + exists d'. split; [done|]. by eapply inv_map_columns_frame.
    + by exists d.
  - intros cm d'. rewrite (map_columns_result _ _ _ _ Hr).
    destruct (map_columns_frame d cm) as [e|[d1|]] eqn:Hframe; [done| |].
    + intros [= <-]. eapply aligned_map_columns_frame; [apply Hinv|done].
    + intros [= <-]. apply Hinv.
  - intros l1 l2 l3 f t1 t2 s Hs. rewrite (map_columns_result _ _ _ _ Hr).
    set (pairs := l1 ++ (f, t1) :: l2 ++ (f, t2) :: l3).
    destruct (lookup_column_elem _ _ _ Hs) as [Hin _].
    destruct (repeated_from_data d l1 l2 l3 f t1 t2 s (proj1 Hinv) Hs)
      as (name & D1 & D2 & D3 & Hdata). fold pairs in Hdata.
    assert (Hsel : List.filter (fun p => in_columns p.1 d) pairs <> []).
    { unfold pairs. rewrite List.filter_app. cbn [List.filter fst]. rewrite Hin.
      by destruct (List.filter _ l1). }
    destruct (map_columns_frame d (entry <$> pairs)) as [e|[d'|]] eqn:Hframe.
    + destruct (map_columns_frame_entries d pairs) as [r Hr']. congruence.
    + exists d', name, D1, D2, D3. split; [done|].
      apply map_columns_frame_some in Hframe as (c & rest & Hcs & ->).
      rewrite columns_to_select_entries in Hcs. injection Hcs as Hcs.
      rewrite <- Hcs. split; [exact Hdata|].
      unfold columns. rewrite Hdata. rewrite fmap_app, fmap_cons, fmap_app, fmap_cons.
      cbn [fst]. intros Hnd. apply NoDup_app in Hnd as (_ & _ & Hnd).
      apply NoDup_cons in Hnd as [Hnot _]. apply Hnot.
      apply elem_of_app. right. by left.
    + by apply map_columns_frame_none in Hframe.
  - intros fs. rewrite (filter_rows_frame _ _ _ _ _ Hr). eexists; split; [done|].
    apply inv_fold_left; [apply inv_filter_step|done].
  - intros defs. eexists. split.
    + eapply result_frame_inplace; [done|]. by apply add_new_columns_run.
    + apply inv_fold_left; [apply inv_add_column_step|done].
  - intros tc. eexists. split.
    + eapply result_frame_inplace; [done|]. by apply convert_data_types_run.
    + apply inv_fold_left; [apply inv_convert_step|done].
Qed.

Lemma stages_preserve_invariant_witness :
  (exists d', result_frame (map_columns 0 (entry <$> [("a", "x"); ("b", "a")]))
                [frame_a_b] = inr d' /\ dataset_inv d')
  /\ aligned (frame 1 [("y", DInt64, [CInt 1]); ("y", DInt64, [CInt 1])])
  /\ (exists d' name D1 D2 D3,
         result_frame
           (map_columns 0
              (entry <$> ([("b", "q")] ++ ("a", "x") :: [] ++ ("a", "y") :: [])))
           [frame_a_b] = inr d'
         /\ data d' = D1 ++ (name, mkSeries DInt64 [CInt 1]) :: D2
                         ++ (name, mkSeries DInt64 [CInt 1]) :: D3
         /\ ~ NoDup (columns d'))
  /\ (exists d', result_frame
                   (filter_rows plain_ext 0 [mkFilter (Some "a") (Some ">") (JInt 1)])
                   [frame_a_b] = inr d' /\ dataset_inv d')
  /\ (exists d', result_frame
                   (add_new_columns plain_ext 0
                      [mkColumnDef (Some "c") (Some "default_value") None None None None
                         (Some JNull)])
                   [frame_a_b] = inr d' /\ dataset_inv d')
  /\ (exists d', result_frame (convert_data_types plain_ext 0 [("a", "bool")])
                   [frame_a_b] = inr d' /\ dataset_inv d').
Proof.
  destruct (stages_preserve_invariant plain_ext 0 [frame_a_b] frame_a_b
              eq_refl inv_frame_a_b) as (Hmap & Hlen & Hrep & Hfilter & Hsynth & Hconv).
  split; [|split; [|split; [|split; [|split]]]].
  - apply Hmap; by apply (bool_decide_unpack _).
  - apply (Hlen [MDict (Some "a") (Some "x"); MDict (Some "a") (Some "y")]).
    reflexivity.
  - apply (Hrep [("b", "q")] [] [] "a" "x" "y"). reflexivity.
  - apply Hfilter.
  - apply Hsynth.
  - apply Hconv.
Defined.

(** ** Coercion to str *)

Lemma lookup_set_column c s d :
  in_columns c d = true -> lookup_column c (set_column c s d) = Some s.
Proof.
  intros Hin. unfold set_column. rewrite Hin. unfold lookup_column. cbn [data].
  apply bool_decide_eq_true in Hin. unfold columns in Hin.
  induction (data d) as [|[c' s'] l IH]; [by apply not_elem_of_nil in Hin|].
  simpl in *. destruct (String.eqb_spec c' c) as [->|Hne]; simpl.
  - by rewrite String.eqb_refl.
  - destruct (String.eqb_spec c' c); [done|]. apply IH.
    apply elem_of_cons in Hin as [->|Hin]; done.
Qed.

(** C10 fails as stated: a null cell that is None becomes the string
    "None", not "nan". *)
Lemma convert_str_none :
  run (fun df => convert_data_types plain_ext df [("c", "str")])
      (frame 2 [("c", DObject, [CStr "a"; CNone])])
  = inr (frame 2 [("c", DObject, [CStr "a"; CStr "None"])]).
Proof. reflexivity. Qed.

(** C10, amended: when a column of a dataset (unique column names, columns
    of equal length) is coerced to str, every cell becomes the string
    str() gives for it; a previously-null cell becomes "nan" when it was
    NaN, "None" when it was None, "<NA>" when it was pd.NA and "NaT" when
    it was NaT, so the column holds no null cell afterwards. *)
Theorem convert_str_leaves_no_null ext df h d c s :
  h !! df = Some d -> dataset_inv d -> lookup_column c d = Some s ->
  exists d' s',
    result_frame (convert_data_types ext df [(c, "str")]) h = inr d'
    /\ lookup_column c d' = Some s'
    /\ s_values s' = (fun x => CStr (cell_str ext x)) <$> s_values s
    /\ (forall x, isnull x = true -> cell_str ext x = null_str x)
    /\ Forall (fun x => isnull x = false) (s_values s').
Proof.
  intros Hr [_ Hal] Hs.
  assert (Hlt : (df < List.length h)%nat) by (by eapply lookup_lt_Some).
  destruct (lookup_column_elem _ _ _ Hs) as [Hin Helem].
  assert (Hlen : List.length (s_values (astype_str ext s)) = nrows d).
  { unfold astype_str. cbn [s_values]. rewrite length_map.
    unfold aligned in Hal. rewrite Forall_forall in Hal. exact (Hal _ Helem). }
  exists (set_column c (astype_str ext s) d), (astype_str ext s).
  split; [|split; [|split; [|split]]].
  - eapply result_frame_inplace; [done|].
    rewrite (convert_data_types_run _ _ _ _ _ Hr). cbn [fold_left].
    assert (Hstep : convert_step ext d (c, "str") = set_column c (astype_str ext s) d);
      [|by rewrite Hstep].
    unfold convert_step. cbn [fst snd]. rewrite Hin, Hs.
    change (converted ext s "str") with (inr (Some (astype_str ext s)) : exn + _).
    cbv beta iota. by rewrite (assign_series_aligned _ s).
  - by apply lookup_set_column.
  - reflexivity.
  - by intros [].
  - unfold astype_str. cbn [s_values]. apply Forall_fmap, Forall_true. done.
Qed.

Lemma convert_str_leaves_no_null_witness :
  exists d' s',
    result_frame (convert_data_types plain_ext 0 [("c", "str")])
      [frame 4 [("c", DObject, [CNaN; CNone; CNA; CStr "a"])]] = inr d'
    /\ lookup_column "c" d' = Some s'
    /\ s_values s' = (fun x => CStr (cell_str plain_ext x))
                       <$> [CNaN; CNone; CNA; CStr "a"]
    /\ (forall x, isnull x = true -> cell_str plain_ext x = null_str x)
    /\ Forall (fun x => isnull x = false) (s_values s').
Proof.
  apply (convert_str_leaves_no_null plain_ext 0 _
           (frame 4 [("c", DObject, [CNaN; CNone; CNA; CStr "a"])]) "c"
           (mkSeries DObject [CNaN; CNone; CNA; CStr "a"])).
  - reflexivity.
  - split; [by apply (bool_decide_unpack _)|repeat constructor].
  - reflexivity.
Defined.

(** ** String predicates and null cells *)

(** C2, as the code behaves: on the float column 2.0, NaN the null cell is
    coerced to the string "nan" before the predicate is applied, so that
    na=False no longer sees a null, and startswith "n" keeps exactly the
    row whose cell is null. *)
Lemma str_filter_keeps_null_of_float_column :
  run (fun df => filter_rows plain_ext df
                   [mkFilter (Some "x") (Some "startswith") (JStr "n")])
      (frame 2 [("x", DFloat64, [CFloat 2; CNaN])])
  = inr (frame 1 [("x", DFloat64, [CNaN])]).
Proof. reflexivity. Qed.

(** The same on a column that holds only the null cell, whatever pandas
    computes for floats, patterns and comparisons. *)
Lemma str_filter_keeps_null_any_ext ext :
  run (fun df => filter_rows ext df
                   [mkFilter (Some "x") (Some "startswith") (JStr "n")])
      (frame 1 [("x", DFloat64, [CNaN])])
  = inr (frame 1 [("x", DFloat64, [CNaN])]).
Proof. reflexivity. Qed.

(** With the instance that refuses every pattern holding an operator: a
    contains entry whose value is not a valid regular expression is
    skipped, and the row with the null cell stays. *)
Lemma str_filter_invalid_pattern :
  run (fun df => filter_rows plain_ext df
                   [mkFilter (Some "s") (Some "contains") (JStr "(")])
      (frame 2 [("s", DObject, [CStr "a"; CNone])])
  = inr (frame 2 [("s", DObject, [CStr "a"; CNone])]).
Proof. reflexivity. Qed.

(** A predicate that cannot be evaluated leaves every row, null or not:
    the entry is skipped. *)
Lemma str_filter_skipped_on_error ext d f c s e :
  f_column f = Some c -> lookup_column c d = Some s ->
  filter_mask ext s (f_condition f) (f_value f) = inl e ->
  filter_step ext d f = d.
Proof.
  intros Hc Hs He. unfold filter_step. rewrite Hc, Hs, He. by destruct (negb _).
Qed.

Lemma str_mask_shape ext s cond v mask :
  cond ∈ ["contains"; "startswith"; "endswith"] ->
  s_dtype s = DObject ->
  filter_mask ext s (Some cond) v = inr (Some mask) ->
  exists g, mask = map (str_test g) (s_values s).
Proof.
  intros Hcond Hdt. unfold filter_mask.
  assert (Hacc : forall vals, str_accessor ext s = inr vals -> vals = s_values s).
  { unfold str_accessor. intros vals. destruct (forallb _ _); [by intros [= <-]|].
    destruct (str_accessor_mixed _ _); [by intros [= <-]|done]. }
  rewrite !elem_of_cons in Hcond.
  destruct Hcond as [->|[->|[->|Hnil]]]; [| | |by apply not_elem_of_nil in Hnil];
    cbn [is_cond String.eqb Ascii.eqb Bool.eqb orb]; rewrite Hdt; cbn [dtype_eqb negb].
  - unfold str_contains. destruct (str_accessor ext s) as [?|vals] eqn:Ha; [done|].
    rewrite (Hacc _ eq_refl). destruct (has_regex_meta _).
    + destruct (re_search _ _) as [found|]; [|done]. intros [= <-]. by eexists.
    + intros [= <-]. by eexists.
  - unfold str_method. destruct (str_accessor ext s) as [?|vals] eqn:Ha; [done|].
    rewrite (Hacc _ eq_refl). intros [= <-]. by eexists.
  - unfold str_method. destruct (str_accessor ext s) as [?|vals] eqn:Ha; [done|].
    rewrite (Hacc _ eq_refl). intros [= <-]. by eexists.
Qed.

Lemma keep_str_test g (l : list cell) :
  Forall (fun x => isnull x = false) (keep (map (str_test g) l) l).
Proof.
  induction l as [|a l IH]; simpl; [done|].
  destruct (str_test g a) eqn:Ha; [|done].
  apply Forall_cons. split; [|done]. by destruct a.
Qed.

Lemma Forall_keep {A} (P : A -> Prop) mask : forall l,
  Forall P l -> Forall P (keep mask l).
Proof.
  induction mask as [|b mask IH]; intros [|a l] Hl; simpl; try done.
  apply Forall_cons in Hl as [Ha Hl]. destruct b; [apply Forall_cons|]; auto.
Qed.

Lemma lookup_column_select_rows c mask d :
  lookup_column c (select_rows mask d)
  = (fun s => mkSeries (s_dtype s) (keep mask (s_values s))) <$> lookup_column c d.
Proof.
  unfold lookup_column, select_rows. cbn [data].
  induction (data d) as [|[c' s'] l IH]; [done|].
  simpl. destruct (String.eqb c' c); [done|exact IH].
Qed.

Lemma no_null_filter_step ext c d f : no_null_in c d -> no_null_in c (filter_step ext d f).
Proof.
  intros Hd. unfold filter_step. destruct (f_column f); [|done].
  destruct (negb _); [done|]. destruct (lookup_column _ d) eqn:Hl; [|done].
  destruct (filter_mask _ _ _ _) as [?|[mask|]]; try done.
  destruct (_ =? _)%nat; [|done].
  destruct Hd as (sc & Hsc & Hall). eexists. split.
  - rewrite lookup_column_select_rows, Hsc. reflexivity.
  - by apply Forall_keep.
Qed.

Lemma no_null_fold_filter_step ext c fs : forall d,
  no_null_in c d -> no_null_in c (fold_left (filter_step ext) fs d).
Proof.
  induction fs as [|f fs IH]; intros d Hd; simpl; [done|].
  by apply IH, no_null_filter_step.
Qed.

(** The path without the coercion does exclude the null cells: for a
    contains, startswith or endswith entry on a column of object dtype
    whose predicate evaluates without raising, filter_rows returns a
    dataset in which the filtered column holds no null cell, whatever the
    value argument and the other entries of the list are. *)
Theorem str_filter_excludes_null ext df h d pre post f c cond d1 s mask :
  h !! df = Some d -> dataset_inv d ->
  f_column f = Some c -> f_condition f = Some cond ->
  cond ∈ ["contains"; "startswith"; "endswith"] ->
  result_frame (filter_rows ext df pre) h = inr d1 ->
  lookup_column c d1 = Some s -> s_dtype s = DObject ->
  filter_mask ext s (Some cond) (f_value f) = inr (Some mask) ->
  exists d',
    result_frame (filter_rows ext df (pre ++ f :: post)) h = inr d'
    /\ no_null_in c d'.
Proof.
  intros Hr Hinv Hc Hcond Hin Hd1 Hs Hdt Hmask.
  rewrite (filter_rows_frame _ _ pre _ _ Hr) in Hd1. injection Hd1 as Hd1.
  rewrite (filter_rows_frame _ _ (pre ++ f :: post) _ _ Hr).
  eexists. split; [reflexivity|].
  rewrite fold_left_app. cbn [fold_left]. rewrite Hd1.
  apply no_null_fold_filter_step.
  assert (Hinv1 : dataset_inv d1).
  { rewrite <- Hd1. apply inv_fold_left; [apply inv_filter_step|done]. }
  destruct (lookup_column_elem _ _ _ Hs) as [Hcol Helem].
  destruct (str_mask_shape _ _ _ _ _ Hin Hdt Hmask) as [g ->].
  assert (Hlen : List.length (s_values s) = nrows d1).
  { destruct Hinv1 as [_ Hal]. unfold aligned in Hal. rewrite Forall_forall in Hal.
    exact (Hal _ Helem). }
  unfold filter_step. rewrite Hc, Hcol, Hs, Hcond, Hmask. cbn [negb].
  rewrite length_map, Hlen, Nat.eqb_refl.
  eexists. split.
  - rewrite lookup_column_select_rows, Hs. reflexivity.
  - apply keep_str_test.
Qed.

Lemma str_filter_excludes_null_witness :
  exists d',
    result_frame
      (filter_rows plain_ext 0
         ([mkFilter (Some "n") (Some ">") (JInt 1)]
          ++ mkFilter (Some "s") (Some "startswith") (JStr "a")
          :: [mkFilter (Some "n") (Some "<") (JInt 5)]))
      [frame 5 [("n", DInt64, [CInt 1; CInt 2; CInt 3; CInt 4; CInt 5]);
                ("s", DObject, [CStr "ab"; CNaN; CStr "ac"; CNone; CStr "b"])]]
    = inr d'
    /\ no_null_in "s" d'.
Proof.
  eapply (str_filter_excludes_null plain_ext 0 _ _ _ _ _ "s" "startswith").
  - reflexivity.
  - split; [by apply (bool_decide_unpack _)|repeat constructor].
  - reflexivity.
  - reflexivity.
  - set_solver.
  - reflexivity.
  - reflexivity.
  - reflexivity.
  - reflexivity.
Defined.

(** * Further properties of the stages *)

(** ** Which frames a stage writes *)

(** map_columns and filter_rows never write to a frame that exists: the
    store after the call is the store before it followed by the frames the
    call allocated.  map_columns returns its argument or a new frame;
    filter_rows returns its argument only when there is no filter, and a
    new frame otherwise, even when no row is removed. *)
Theorem selecting_stages_allocate ext df h d :
  h !! df = Some d ->
  (forall cm res h',
      map_columns df cm h = (res, h') ->
      (exists new, h' = h ++ new)
      /\ (forall r', res = inr r' -> r' = df \/ (List.length h <= r')%nat))
  /\ (forall fs, exists r' new,
         filter_rows ext df fs h = (inr r', h ++ new)
         /\ match fs with
            | [] => r' = df /\ new = []
            | _ => (List.length h <= r')%nat
            end).
Proof.
  intros Hr. split.
  - intros cm res h' Hrun. pose proof (map_columns_run df cm h d Hr) as Hspec.
    destruct (map_columns_frame d cm) as [e|[d'|]].
    + rewrite Hspec in Hrun. injection Hrun as <- <-. split; [|done].
      exists []. by rewrite app_nil_r.
    + destruct Hspec as [tmp Hspec]. rewrite Hspec in Hrun. injection Hrun as <- <-.
      split; [by eexists|]. intros r' [= <-]. right. lia.
    + rewrite Hspec in Hrun. injection Hrun as <- <-. split.
      * exists []. by rewrite app_nil_r.
      * intros r' [= <-]. by left.
  - intros fs. destruct fs as [|f fs].
    + exists df, []. rewrite app_nil_r. done.
    + destruct (filter_rows_run ext df (f :: fs) h d Hr) as (r' & new & Hrun & _).
      exists r', new. split; [done|].
      unfold filter_rows, copy in Hrun. unfold bind at 1 2 in Hrun.
      rewrite (load_some _ _ _ Hr) in Hrun. unfold alloc in Hrun.
      assert (Hn : (List.length h <= List.length (h ++ [d]))%nat)
        by (rewrite length_app; lia).
      destruct (preserves_fold_m (List.length h) (apply_filter ext) (f :: fs)
                  (fun r a Hle => preserves_apply_filter ext _ r a Hle)
                  (List.length h) (le_n _) (h ++ [d]) (inr r') (h ++ new) Hn Hrun)
        as (_ & _ & Hres).
      by apply Hres.
Qed.

Lemma selecting_stages_allocate_witness :
  (exists new,
      (map_columns 0 [MDict (Some "a") (Some "x")] [frame_a_b]).2 = [frame_a_b] ++ new)
  /\ (exists r' new,
         filter_rows plain_ext 0 [mkFilter (Some "a") (Some ">") (JInt 0)] [frame_a_b]
         = (inr r', [frame_a_b] ++ new)
         /\ (1 <= r')%nat).
Proof.
  destruct (selecting_stages_allocate plain_ext 0 [frame_a_b] frame_a_b eq_refl)
    as [Hmap Hfilter].
  split.
  - destruct (Hmap [MDict (Some "a") (Some "x")] _ _ (surjective_pairing _)) as [Hnew _].
    exact Hnew.
  - exact (Hfilter [mkFilter (Some "a") (Some ">") (JInt 0)]).
Defined.



(** ** Row filtering *)

Lemma keep_all {A} (l : list A) n :
  (List.length l <= n)%nat -> keep (repeat true n) l = l.
Proof.
  revert n. induction l as [|a l IH]; intros [|n] Hn; simpl in *; try done; try lia.
  rewrite IH; [done|lia].
Qed.

Lemma filter_id_repeat_true n : List.filter id (repeat true n) = repeat true n.
Proof. induction n as [|n IH]; simpl; [done|by rewrite IH]. Qed.

Lemma select_rows_all d : aligned d -> select_rows (repeat true (nrows d)) d = d.
Proof.
  intros Hal. unfold select_rows. rewrite filter_id_repeat_true, repeat_length.
  destruct d as [n cols]. cbn [nrows data] in *. f_equal.
  unfold aligned in Hal. cbn [nrows data] in Hal.
  induction Hal as [|[c [dt vals]] cols Hlen _ IH]; simpl; [done|].
  simpl in Hlen. rewrite keep_all by lia. by rewrite IH.
Qed.

Lemma keep_compose {A} (m1 m2 : list bool) : forall l : list A,
  keep (compose_masks m1 m2) l = keep m2 (keep m1 l).
Proof.
  revert m2. induction m1 as [|b m1 IH]; intros m2 l; simpl.
  - by destruct m2.
  - destruct b.
    + destruct m2 as [|c m2], l as [|a l]; simpl; try done.
      rewrite IH. by destruct c.
    + destruct l as [|a l]; simpl; [by destruct m2|]. apply IH.
Qed.

Lemma compose_masks_length (m1 : list bool) : forall m2,
  List.length m2 = List.length (List.filter id m1) ->
  List.length (compose_masks m1 m2) = List.length m1
  /\ List.length (List.filter id (compose_masks m1 m2)) = List.length (List.filter id m2).
Proof.
  induction m1 as [|b m1 IH]; intros m2 Hlen; simpl in *.
  - by destruct m2.
  - destruct b; simpl in *.
    + destruct m2 as [|c m2]; [done|]. simpl in Hlen. injection Hlen as Hlen.
      destruct (IH m2 Hlen) as [H1 H2]. simpl. split; [by rewrite H1|].
      destruct c; simpl; by rewrite H2.
    + destruct (IH m2 Hlen) as [H1 H2]. split; [by rewrite H1|done].
Qed.

Lemma select_rows_compose m1 m2 d :
  List.length m2 = List.length (List.filter id m1) ->
  select_rows m2 (select_rows m1 d) = select_rows (compose_masks m1 m2) d.
Proof.
  intros Hlen. unfold select_rows. cbn [nrows data].
  destruct (compose_masks_length m1 m2 Hlen) as [_ ->]. f_equal.
  rewrite <- list_fmap_compose. apply list_fmap_ext. intros i [c [dt vals]] _.
  simpl. by rewrite keep_compose.
Qed.

Lemma filter_step_is_selection ext d f :
  aligned d ->
  exists mask, List.length mask = nrows d /\ filter_step ext d f = select_rows mask d.
Proof.
  intros Hal.
  assert (Hsame : exists mask, List.length mask = nrows d /\ d = select_rows mask d).
  { exists (repeat true (nrows d)). by rewrite repeat_length, select_rows_all. }
  unfold filter_step. destruct (f_column f); [|done].
  destruct (negb _); [done|]. destruct (lookup_column _ _); [|done].
  destruct (filter_mask _ _ _ _) as [?|[mask|]]; try done.
  destruct (_ =? _)%nat eqn:Hlen; [|done].
  exists mask. split; [by apply Nat.eqb_eq|done].
Qed.

Lemma count_le_length (mask : list bool) :
  (List.length (List.filter id mask) <= List.length mask)%nat.
Proof. induction mask as [|[] mask IH]; simpl; lia. Qed.

(** On a dataset (unique column names, columns of equal length), whatever
    the filters are, the dataset filter_rows returns is a selection of the
    rows of its input by one mask applied to every column: the surviving
    rows keep their order and their cells stay together, labels and dtypes
    are those of the input, and there are never more rows than before. *)
Theorem filter_rows_selects_rows ext df fs h d :
  h !! df = Some d -> dataset_inv d ->
  exists mask,
    List.length mask = nrows d
    /\ result_frame (filter_rows ext df fs) h = inr (select_rows mask d)
    /\ (nrows (select_rows mask d) <= nrows d)%nat.
Proof.
  intros Hr [_ Hal]. rewrite (filter_rows_frame _ _ _ _ _ Hr).
  assert (Hsel : exists mask, List.length mask = nrows d
                   /\ fold_left (filter_step ext) fs d = select_rows mask d).
  { clear Hr. revert d Hal. induction fs as [|f fs IH]; intros d Hal; simpl.
    - exists (repeat true (nrows d)). by rewrite repeat_length, select_rows_all.
    - destruct (filter_step_is_selection ext d f Hal) as (m1 & Hm1 & ->).
      destruct (IH (select_rows m1 d) (aligned_select_rows _ _ Hm1 Hal))
        as (m2 & Hm2 & ->).
      cbn [select_rows nrows] in Hm2.
      exists (compose_masks m1 m2).
      destruct (compose_masks_length m1 m2 Hm2) as [Hl _].
      split; [congruence|]. by apply select_rows_compose. }
  destruct Hsel as (mask & Hlen & ->). exists mask. split; [done|]. split; [done|].
  cbn [select_rows nrows]. rewrite <- Hlen. apply count_le_length.
Qed.

Lemma filter_rows_selects_rows_witness :
  exists mask,
    List.length mask = 1%nat
    /\ result_frame (filter_rows plain_ext 0 [mkFilter (Some "a") (Some ">") (JInt 5)])
         [frame_a_b] = inr (select_rows mask frame_a_b)
    /\ (nrows (select_rows mask frame_a_b) <= 1)%nat.
Proof.
  apply (filter_rows_selects_rows plain_ext 0 _ [frame_a_b] frame_a_b).
  - reflexivity.
  - exact inv_frame_a_b.
Defined.

(** Filters compose in sequence: filtering with the list fs1 ++ fs2 gives
    the dataset that filtering with fs2 gives on the result of filtering
    with fs1. *)
Theorem filter_rows_composes ext df fs1 fs2 h d d1 r1 h1 :
  h !! df = Some d ->
  result_frame (filter_rows ext df fs1) h = inr d1 ->
  h1 !! r1 = Some d1 ->
  result_frame (filter_rows ext df (fs1 ++ fs2)) h
  = result_frame (filter_rows ext r1 fs2) h1.
Proof.
  intros Hr Hd1 Hr1. rewrite (filter_rows_frame _ _ fs1 _ _ Hr) in Hd1.
  rewrite (filter_rows_frame _ _ (fs1 ++ fs2) _ _ Hr).
  rewrite (filter_rows_frame _ _ _ _ _ Hr1). injection Hd1 as <-.
  by rewrite fold_left_app.
Qed.

Lemma filter_rows_composes_witness :
  result_frame
    (filter_rows plain_ext 0
       ([mkFilter (Some "n") (Some ">") (JInt 2)]
        ++ [mkFilter (Some "n") (Some "<") (JInt 5)]))
    [frame 6 [("n", DInt64, [CInt 1; CInt 2; CInt 3; CInt 4; CInt 5; CInt 6])]]
  = result_frame (filter_rows plain_ext 0 [mkFilter (Some "n") (Some "<") (JInt 5)])
      [frame 4 [("n", DInt64, [CInt 3; CInt 4; CInt 5; CInt 6])]].
Proof.
  apply (filter_rows_composes plain_ext 0 _ _ _
           (frame 6 [("n", DInt64, [CInt 1; CInt 2; CInt 3; CInt 4; CInt 5; CInt 6])])
           (frame 4 [("n", DInt64, [CInt 3; CInt 4; CInt 5; CInt 6])])); reflexivity.
Defined.

Lemma keep_map_filter {A} (p : A -> bool) (l : list A) :
  keep (map p l) l = List.filter p l.
Proof. induction l as [|a l IH]; simpl; [done|]. destruct (p a); by rewrite IH. Qed.

Lemma count_map {A} (p : A -> bool) (l : list A) :
  List.length (List.filter id (map p l)) = List.length (List.filter p l).
Proof. induction l as [|a l IH]; simpl; [done|]. destruct (p a); simpl; by rewrite IH. Qed.

Lemma count_partition {A} (p : A -> bool) (l : list A) :
  (List.length (List.filter p l) + List.length (List.filter (fun a => negb (p a)) l)
   = List.length l)%nat.
Proof. induction l as [|a l IH]; simpl; [done|]. destruct (p a); simpl; lia. Qed.

Lemma filter_notnull_isnull (l : list cell) :
  List.filter notnull (List.filter isnull l) = [].
Proof.
  induction l as [|x l IH]; simpl; [done|].
  destruct (isnull x) eqn:Hx; simpl; [|exact IH]. unfold notnull at 1. by rewrite Hx.
Qed.

(** On a dataset (unique column names, columns of equal length), the
    isnull and the notnull filter on a column split the rows: one keeps
    exactly the rows whose cell is null, the other exactly the rest, so
    their row counts add up to the row count of the input, and applying
    both leaves no row.  The value of the entry plays no part. *)
Theorem isnull_notnull_split_rows ext df h d c s v v' :
  h !! df = Some d -> dataset_inv d -> lookup_column c d = Some s ->
  exists dn dp d0,
    result_frame (filter_rows ext df [mkFilter (Some c) (Some "isnull") v]) h = inr dn
    /\ result_frame (filter_rows ext df [mkFilter (Some c) (Some "notnull") v']) h
       = inr dp
    /\ result_frame
         (filter_rows ext df [mkFilter (Some c) (Some "isnull") v;
                              mkFilter (Some c) (Some "notnull") v']) h = inr d0
    /\ (s_values <$> lookup_column c dn) = Some (List.filter isnull (s_values s))
    /\ (s_values <$> lookup_column c dp) = Some (List.filter notnull (s_values s))
    /\ (nrows dn + nrows dp = nrows d)%nat
    /\ nrows d0 = 0%nat.
Proof.
  intros Hr [_ Hal] Hs. destruct (lookup_column_elem _ _ _ Hs) as [Hin Helem].
  assert (Hlen : List.length (s_values s) = nrows d).
  { unfold aligned in Hal. rewrite Forall_forall in Hal. exact (Hal _ Helem). }
  rewrite !(filter_rows_frame _ _ _ _ _ Hr). cbn [fold_left].
  rewrite (filter_step_null_test ext d c s v true Hal Hs).
  rewrite (filter_step_null_test ext d c s v' false Hal Hs).
  set (dn := select_rows (map isnull (s_values s)) d).
  assert (Hsn : lookup_column c dn
                = Some (mkSeries (s_dtype s) (List.filter isnull (s_values s)))).
  { unfold dn. by rewrite lookup_column_select_rows, Hs, <- keep_map_filter. }
  assert (Haln : aligned dn).
  { apply aligned_select_rows; [by rewrite length_map|done]. }
  rewrite (filter_step_null_test ext dn c _ v' false Haln Hsn). cbn [s_values].
  eexists _, _, _. split; [reflexivity|]. split; [reflexivity|]. split; [reflexivity|].
  split; [by rewrite Hsn|]. split.
  { rewrite lookup_column_select_rows, Hs. simpl. by rewrite keep_map_filter. }
  split.
  - unfold dn. cbn [select_rows nrows]. rewrite !count_map, <- Hlen.
    apply count_partition.
  - cbn [select_rows nrows]. by rewrite count_map, filter_notnull_isnull.
Qed.

Lemma isnull_notnull_split_rows_witness :
  exists dn dp d0,
    result_frame (filter_rows plain_ext 0 [mkFilter (Some "s") (Some "isnull") JNull])
      [frame 3 [("s", DObject, [CStr "a"; CNone; CNaN])]] = inr dn
    /\ result_frame (filter_rows plain_ext 0 [mkFilter (Some "s") (Some "notnull") JNull])
         [frame 3 [("s", DObject, [CStr "a"; CNone; CNaN])]] = inr dp
    /\ result_frame
         (filter_rows plain_ext 0 [mkFilter (Some "s") (Some "isnull") JNull;
                                   mkFilter (Some "s") (Some "notnull") JNull])
         [frame 3 [("s", DObject, [CStr "a"; CNone; CNaN])]] = inr d0
    /\ (s_values <$> lookup_column "s" dn)
       = Some (List.filter isnull [CStr "a"; CNone; CNaN])
    /\ (s_values <$> lookup_column "s" dp)
       = Some (List.filter notnull [CStr "a"; CNone; CNaN])
    /\ (nrows dn + nrows dp = 3)%nat
    /\ nrows d0 = 0%nat.
Proof.
  apply (isnull_notnull_split_rows plain_ext 0 _
           (frame 3 [("s", DObject, [CStr "a"; CNone; CNaN])]) "s"
           (mkSeries DObject [CStr "a"; CNone; CNaN])).
  - reflexivity.
  - split; [by apply (bool_decide_unpack _)|repeat constructor].
  - reflexivity.
Defined.

Lemma filter_mask_inert ext s f :
  inert_filter f -> filter_mask ext s (f_condition f) (f_value f) = inr None.
Proof.
  intros [Hcond|[Hcond Hval]].
  - assert (Hne : forall x, x ∈ supported_conditions ->
                    is_cond (f_condition f) x = false).
    { intros x Hx. unfold is_cond. destruct (f_condition f) as [c|]; [|done].
      apply String.eqb_neq. intros ->. by apply (Hcond x). }
    unfold filter_mask.
    repeat (rewrite Hne by (unfold supported_conditions; set_solver)). done.
  - unfold filter_mask. destruct Hcond as [-> | ->];
      cbn [is_cond String.eqb Ascii.eqb Bool.eqb]; by rewrite Hval.
Qed.

Lemma filter_step_inert ext d f : inert_filter f -> filter_step ext d f = d.
Proof.
  intros Hf. unfold filter_step. destruct (f_column f); [|done].
  destruct (negb _); [done|]. destruct (lookup_column _ _); [|done].
  by rewrite filter_mask_inert.
Qed.

(** A filter entry whose condition is absent or not one of the thirteen
    supported ones, or whose condition is isin or notin with a value that
    is not a list, changes nothing: filter_rows returns the dataset it
    returns without that entry, wherever the entry stands in the list. *)
Theorem inert_filter_is_skipped ext df h d pre post f :
  h !! df = Some d -> inert_filter f ->
  result_frame (filter_rows ext df (pre ++ f :: post)) h
  = result_frame (filter_rows ext df (pre ++ post)) h.
Proof.
  intros Hr Hf. rewrite !(filter_rows_frame _ _ _ _ _ Hr).
  rewrite !fold_left_app. cbn [fold_left]. by rewrite filter_step_inert.
Qed.

Lemma inert_filter_is_skipped_witness :
  result_frame
    (filter_rows plain_ext 0
       ([mkFilter (Some "a") (Some ">") (JInt 0)]
        ++ mkFilter (Some "a") (Some "isin") (JInt 1)
        :: [mkFilter (Some "a") (Some "between") JNull])) [frame_a_b]
  = result_frame
      (filter_rows plain_ext 0
         ([mkFilter (Some "a") (Some ">") (JInt 0)]
          ++ [mkFilter (Some "a") (Some "between") JNull])) [frame_a_b].
Proof.
  apply (inert_filter_is_skipped plain_ext 0 _ frame_a_b).
  - reflexivity.
  - right. split; [by left | reflexivity].
Defined.

(** ** Column mapping *)

Lemma renamed_selection d (pairs l : list (string * string)) :
  NoDup (columns d) -> NoDup pairs.*1 ->
  Forall (fun p => p ∈ pairs /\ in_columns p.1 d = true) l ->
  Forall2 (fun p col => col.1 = p.2 /\ lookup_column p.1 d = Some col.2) l
    (data (rename (fold_left (note_rename d) (entry <$> pairs) ∅)
             (select_columns l.*1 d))).
Proof.
  intros Hnd Hfrom Hl. unfold rename, select_columns. cbn [data nrows].
  induction Hl as [|[f t] l [Hp Hin] _ IH]; [constructor|].
  cbn [fst] in Hin. destruct (in_columns_lookup _ _ Hin) as [s Hs].
  rewrite fmap_cons. cbn [flat_map fst].
  rewrite (filter_label_one (data d) f s Hnd Hs). simpl. constructor; [|exact IH]. simpl.
  split; [|done]. apply rename_map_lookup; try done. by apply Forall_true.
Qed.

(** For mapping entries that are dicts with both keys and pairwise
    different 'from' names, on a dataset with unique names of which at
    least one is asked for: map_columns returns a dataset with the row
    count of the input and one column per entry whose 'from' names a
    column of the input, in the order of the entries, each holding the
    series of that column under the entry's 'to' name; every other column
    is dropped. *)
Theorem map_columns_selects_and_renames df h d (pairs : list (string * string)) :
  h !! df = Some d -> NoDup (columns d) -> NoDup pairs.*1 ->
  List.filter (fun p => in_columns p.1 d) pairs <> [] ->
  exists d',
    result_frame (map_columns df (entry <$> pairs)) h = inr d'
    /\ nrows d' = nrows d
    /\ Forall2 (fun p col => col.1 = p.2 /\ lookup_column p.1 d = Some col.2)
         (List.filter (fun p => in_columns p.1 d) pairs) (data d').
Proof.
  intros Hr Hnd Hfrom Hsel. rewrite (map_columns_result _ _ _ _ Hr).
  destruct (map_columns_frame d (entry <$> pairs)) as [e|[d'|]] eqn:Hframe.
  - destruct (map_columns_frame_entries d pairs) as [r Hr']. congruence.
  - exists d'. split; [done|].
    apply map_columns_frame_some in Hframe as (c & rest & Hcs & ->).
    rewrite columns_to_select_entries in Hcs. injection Hcs as Hcs. rewrite <- Hcs.
    split; [done|]. apply renamed_selection; try done.
    apply Forall_forall. intros p Hp. by apply list_elem_of_In, filter_In in Hp as [Hp ?];
      split; [apply list_elem_of_In|].
  - by apply map_columns_frame_none in Hframe.
Qed.

Lemma map_columns_selects_and_renames_witness :
  exists d',
    result_frame (map_columns 0 (entry <$> [("b", "y"); ("zz", "q"); ("a", "b")]))
      [frame_a_b] = inr d'
    /\ nrows d' = 1%nat
    /\ Forall2 (fun p col => col.1 = p.2 /\ lookup_column p.1 frame_a_b = Some col.2)
         [("b", "y"); ("a", "b")] (data d').
Proof.
  apply (map_columns_selects_and_renames 0 [frame_a_b] frame_a_b
           [("b", "y"); ("zz", "q"); ("a", "b")]).
  - reflexivity.
  - by apply (bool_decide_unpack _).
  - by apply (bool_decide_unpack _).
  - done.
Defined.

(** ** Column synthesis *)

Lemma lookup_set_column_same name s d :
  lookup_column name (set_column name s d) = Some s.
Proof.
  destruct (in_columns name d) eqn:Hin; [by apply lookup_set_column|].
  unfold set_column. rewrite Hin. unfold lookup_column. cbn [data].
  apply bool_decide_eq_false in Hin. unfold columns in Hin.
  induction (data d) as [|[c s'] l IH]; simpl in *.
  - by rewrite String.eqb_refl.
  - apply not_elem_of_cons in Hin as [Hne Hin].
    destruct (String.eqb_spec c name); [congruence|]. by apply IH.
Qed.

Lemma lookup_set_column_other c name s d :
  c <> name -> lookup_column c (set_column name s d) = lookup_column c d.
Proof.
  intros Hne. unfold set_column, lookup_column.
  destruct (in_columns name d); cbn [data].
  - induction (data d) as [|[c' s'] l IH]; simpl; [done|].
    destruct (String.eqb_spec c' name) as [->|Hne']; simpl.
    + destruct (String.eqb_spec name c); [congruence|]. exact IH.
    + destruct (String.eqb_spec c' c); [done|]. exact IH.
  - induction (data d) as [|[c' s'] l IH]; simpl.
    + destruct (String.eqb_spec name c); [congruence|done].
    + destruct (String.eqb_spec c' c); [done|]. exact IH.
Qed.

Lemma columns_set_column name s d :
  columns (set_column name s d)
  = if in_columns name d then columns d else columns d ++ [name].
Proof.
  destruct (in_columns name d) eqn:Hin; [by apply columns_set_column_in|].
  unfold set_column. rewrite Hin. unfold columns. cbn [data]. by rewrite fmap_app.
Qed.

Lemma add_new_columns_last ext df h d pre col_def d1 :
  h !! df = Some d ->
  (add_new_columns ext df pre h).2 !! df = Some d1 ->
  result_frame (add_new_columns ext df (pre ++ [col_def])) h
  = inr (add_column_step ext d1 col_def).
Proof.
  intros Hr Hd1. assert (Hlt : (df < List.length h)%nat) by (by eapply lookup_lt_Some).
  rewrite (add_new_columns_run _ _ _ _ _ Hr) in Hd1. cbn [snd] in Hd1.
  rewrite list_lookup_insert_eq in Hd1 by done. injection Hd1 as <-.
  eapply result_frame_inplace; [done|].
  rewrite (add_new_columns_run _ _ _ _ _ Hr). by rewrite fold_left_app.
Qed.

Lemma aligned_after_definitions ext df h d pre d1 :
  h !! df = Some d -> dataset_inv d ->
  (add_new_columns ext df pre h).2 !! df = Some d1 -> dataset_inv d1.
Proof.
  intros Hr Hinv Hd1. assert (Hlt : (df < List.length h)%nat) by (by eapply lookup_lt_Some).
  rewrite (add_new_columns_run _ _ _ _ _ Hr) in Hd1. cbn [snd] in Hd1.
  rewrite list_lookup_insert_eq in Hd1 by done. injection Hd1 as <-.
  apply inv_fold_left; [apply inv_add_column_step|done].
Qed.

Lemma column_length c s d : aligned d -> lookup_column c d = Some s ->
  List.length (s_values s) = nrows d.
Proof.
  intros Hal Hs. destruct (lookup_column_elem _ _ _ Hs) as [_ Helem].
  unfold aligned in Hal. rewrite Forall_forall in Hal. exact (Hal _ Helem).
Qed.

(** A copy definition whose source column exists when the definition is
    reached (in the input or made by an earlier definition) leaves the
    source's series under the new name: in the place of the column that
    had this name, or as the last column when there was none; every other
    column and the row count stay as they were. *)
Theorem copy_definition_copies ext df h d pre name src s d1 :
  h !! df = Some d -> dataset_inv d ->
  (add_new_columns ext df pre h).2 !! df = Some d1 ->
  name <> "" -> src <> "" -> lookup_column src d1 = Some s ->
  exists d',
    result_frame
      (add_new_columns ext df
         (pre ++ [mkColumnDef (Some name) (Some "copy") None None None (Some src) None]))
      h = inr d'
    /\ lookup_column name d' = Some s
    /\ (forall c, c <> name -> lookup_column c d' = lookup_column c d1)
    /\ columns d' = (if in_columns name d1 then columns d1 else columns d1 ++ [name])
    /\ nrows d' = nrows d1.
Proof.
  intros Hr Hinv Hd1 Hname Hsrc Hs.
  rewrite (add_new_columns_last _ _ _ _ _ _ _ Hr Hd1).
  destruct (aligned_after_definitions _ _ _ _ _ _ Hr Hinv Hd1) as [_ Hal].
  destruct (lookup_column_elem _ _ _ Hs) as [Hin _].
  assert (Hstep : add_column_step ext d1
                    (mkColumnDef (Some name) (Some "copy") None None None (Some src) None)
                  = set_column name s d1).
  { unfold add_column_step. cbn [c_name c_operation].
    destruct name as [|a name]; [done|]. cbn [falsy orb].
    unfold new_column_value. cbn [c_operation c_source_column is_cond String.eqb
                                    Ascii.eqb Bool.eqb].
    destruct src as [|b src]; [done|]. rewrite Hin, Hs.
    by rewrite (assign_series_aligned _ s) by (by eapply column_length). }
  rewrite Hstep. eexists. split; [reflexivity|].
  split; [apply lookup_set_column_same|]. split; [intros c Hc; by apply lookup_set_column_other|].
  split; [apply columns_set_column|]. unfold set_column. by destruct (in_columns name d1).
Qed.

Lemma copy_definition_copies_witness :
  exists d',
    result_frame
      (add_new_columns plain_ext 0
         ([mkColumnDef (Some "c") (Some "default_value") None None None None
             (Some (JInt 7))]
          ++ [mkColumnDef (Some "a") (Some "copy") None None None (Some "c") None]))
      [frame_a_b] = inr d'
    /\ lookup_column "a" d' = Some (mkSeries DInt64 [CInt 7])
    /\ (forall c, c <> "a" ->
          lookup_column c d'
          = lookup_column c (frame 1 [("a", DInt64, [CInt 1]); ("b", DInt64, [CInt 2]);
                                      ("c", DInt64, [CInt 7])]))
    /\ columns d' = ["a"; "b"; "c"]
    /\ nrows d' = 1%nat.
Proof.
  apply (copy_definition_copies plain_ext 0 [frame_a_b] frame_a_b
           [mkColumnDef (Some "c") (Some "default_value") None None None None
              (Some (JInt 7))]
           "a" "c" (mkSeries DInt64 [CInt 7])
           (frame 1 [("a", DInt64, [CInt 1]); ("b", DInt64, [CInt 2]);
                     ("c", DInt64, [CInt 7])])).
  - reflexivity.
  - exact inv_frame_a_b.
  - reflexivity.
  - done.
  - done.
  - reflexivity.
Defined.

(** A default_value definition whose 'value' key is present with a
    scalar, null included, leaves a column under its name that holds that
    value in every row; every other column and the row count stay as they
    were.  A null value makes a column of None cells. *)
Theorem default_value_broadcasts ext df h d pre name v d1 :
  h !! df = Some d ->
  (add_new_columns ext df pre h).2 !! df = Some d1 ->
  name <> "" -> is_scalar v = true ->
  exists d',
    result_frame
      (add_new_columns ext df
         (pre ++ [mkColumnDef (Some name) (Some "default_value") None None None None
                    (Some v)]))
      h = inr d'
    /\ (s_values <$> lookup_column name d') = Some (repeat (json_cell v) (nrows d1))
    /\ (forall c, c <> name -> lookup_column c d' = lookup_column c d1)
    /\ columns d' = (if in_columns name d1 then columns d1 else columns d1 ++ [name])
    /\ nrows d' = nrows d1.
Proof.
  intros Hr Hd1 Hname Hv.
  rewrite (add_new_columns_last _ _ _ _ _ _ _ Hr Hd1).
  assert (Hstep : add_column_step ext d1
                    (mkColumnDef (Some name) (Some "default_value") None None None None
                       (Some v))
                  = set_column name (broadcast (json_cell v) (nrows d1)) d1).
  { unfold add_column_step. cbn [c_name c_operation].
    destruct name as [|a name]; [done|]. cbn [falsy orb].
    unfold new_column_value. cbn [c_operation c_value is_cond String.eqb
                                    Ascii.eqb Bool.eqb].
    by destruct v. }
  rewrite Hstep. eexists. split; [reflexivity|].
  split; [by rewrite lookup_set_column_same|].
  split; [intros c Hc; by apply lookup_set_column_other|].
  split; [apply columns_set_column|]. unfold set_column. by destruct (in_columns name d1).
Qed.

Lemma default_value_broadcasts_witness :
  exists d',
    result_frame
      (add_new_columns plain_ext 0
         ([] ++ [mkColumnDef (Some "z") (Some "default_value") None None None None
                   (Some JNull)]))
      [col_1_bad_3] = inr d'
    /\ (s_values <$> lookup_column "z" d') = Some (repeat (json_cell JNull) 3)
    /\ (forall c, c <> "z" -> lookup_column c d' = lookup_column c col_1_bad_3)
    /\ columns d' = ["c"; "z"]
    /\ nrows d' = 3%nat.
Proof.
  apply (default_value_broadcasts plain_ext 0 [col_1_bad_3] col_1_bad_3 [] "z" JNull
           col_1_bad_3); done.
Defined.

Lemma row_strs_select ext d srcs i :
  NoDup (columns d) -> Forall (fun c => in_columns c d = true) srcs ->
  row_strs ext (select_columns srcs d) i
  = map (fun c => cell_str ext (cell_at d c i)) srcs.
Proof.
  intros Hnd Hall. unfold row_strs, select_columns. cbn [data].
  induction Hall as [|c srcs Hin _ IH]; [done|].
  destruct (in_columns_lookup _ _ Hin) as [s Hs].
  cbn [flat_map]. rewrite (filter_label_one (data d) c s Hnd Hs).
  rewrite map_app. cbn [map app snd]. rewrite IH. f_equal.
  unfold cell_at. by rewrite Hs.
Qed.

Lemma select_columns_nonempty d c srcs :
  in_columns c d = true -> data (select_columns (c :: srcs) d) <> [].
Proof.
  intros Hin. destruct (in_columns_lookup _ _ Hin) as [s Hs].
  unfold select_columns, lookup_column in *. cbn [data flat_map].
  destruct (List.find _ _) as [p|] eqn:Hfind; [|done].
  apply find_some in Hfind as [Hp Hc].
  assert (In p (List.filter (fun p => String.eqb p.1 c) (data d)))
    by (by apply filter_In).
  by destruct (List.filter _ _).
Qed.

Lemma agg_join_select ext d srcs sep :
  NoDup (columns d) -> Forall (fun c => in_columns c d = true) srcs ->
  srcs <> [] -> nrows d <> 0%nat ->
  agg_join ext (select_columns srcs d) sep
  = inr (RSeries (mkSeries DObject
                    (map (fun i => CStr (join sep
                                           (map (fun c => cell_str ext (cell_at d c i)) srcs)))
                         (seq 0 (nrows d))))).
Proof.
  intros Hnd Hall Hsrcs Hrows. unfold agg_join.
  destruct srcs as [|c srcs]; [done|].
  pose proof (select_columns_nonempty d c srcs (Forall_inv Hall)) as Hne.
  change (nrows (select_columns (c :: srcs) d)) with (nrows d).
  destruct (nrows d) as [|n]; [done|].
  destruct (data (select_columns (c :: srcs) d)) as [|p l]; [done|].
  do 3 f_equal. apply map_ext. intros i. by rewrite row_strs_select.
Qed.

(** A concat definition whose source columns all exist when the
    definition is reached, on a dataset with at least one row, leaves an
    object column under its name whose cell in each row is the strings of
    the source cells of that row, in the order of the sources, joined by
    the separator (the empty string when none is given); a null source
    cell enters as the string str() gives for it.  Every other column and
    the row count stay as they were. *)
Theorem concat_definition_joins ext df h d pre name srcs sep d1 :
  h !! df = Some d -> dataset_inv d ->
  (add_new_columns ext df pre h).2 !! df = Some d1 ->
  name <> "" -> srcs <> [] -> Forall (fun c => in_columns c d1 = true) srcs ->
  nrows d1 <> 0%nat ->
  exists d',
    result_frame
      (add_new_columns ext df
         (pre ++ [mkColumnDef (Some name) (Some "concat") (Some srcs) sep
                    None None None]))
      h = inr d'
    /\ lookup_column name d'
       = Some (mkSeries DObject
                 (map (fun i => CStr (join (default "" sep)
                                        (map (fun c => cell_str ext (cell_at d1 c i)) srcs)))
                      (seq 0 (nrows d1))))
    /\ (forall c, c <> name -> lookup_column c d' = lookup_column c d1)
    /\ nrows d' = nrows d1.
Proof.
  intros Hr Hinv Hd1 Hname Hsrcs Hall Hrows.
  rewrite (add_new_columns_last _ _ _ _ _ _ _ Hr Hd1).
  destruct (aligned_after_definitions _ _ _ _ _ _ Hr Hinv Hd1) as [Hnd Hal].
  set (col := mkSeries DObject
                (map (fun i => CStr (join (default "" sep)
                                       (map (fun c => cell_str ext (cell_at d1 c i)) srcs)))
                     (seq 0 (nrows d1)))).
  assert (Hstep : add_column_step ext d1
                    (mkColumnDef (Some name) (Some "concat") (Some srcs) sep
                       None None None)
                  = set_column name col d1).
  { unfold add_column_step. cbn [c_name c_operation].
    destruct name as [|a name]; [done|]. cbn [falsy orb].
    unfold new_column_value. cbn [c_operation c_sources c_separator is_cond String.eqb
                                    Ascii.eqb Bool.eqb from_option].
    assert (Hmiss : List.filter (fun s => negb (in_columns s d1)) srcs = []).
    { clear -Hall. induction Hall as [|c srcs Hin _ IH]; simpl; [done|].
      by rewrite Hin. }
    change (id srcs) with srcs. rewrite Hmiss.
    rewrite (agg_join_select ext d1 srcs (default "" sep)) by done.
    fold col. rewrite (assign_series_aligned _ col); [done|].
    unfold col. cbn [s_values]. by rewrite length_map, length_seq. }
  rewrite Hstep. eexists. split; [reflexivity|].
  split; [apply lookup_set_column_same|].
  split; [intros c Hc; by apply lookup_set_column_other|].
  unfold set_column. by destruct (in_columns name d1).
Qed.

Lemma concat_definition_joins_witness :
  exists d',
    result_frame
      (add_new_columns plain_ext 0
         ([] ++ [mkColumnDef (Some "t") (Some "concat") (Some ["s"; "n"]) (Some "-")
                   None None None]))
      [frame 2 [("n", DInt64, [CInt 1; CInt 2]); ("s", DObject, [CStr "x"; CNone])]]
    = inr d'
    /\ lookup_column "t" d'
       = Some (mkSeries DObject
                 (map (fun i => CStr (join (default "" (Some "-"))
                                        (map (fun c => cell_str plain_ext
                                                         (cell_at
                                                            (frame 2 [("n", DInt64, [CInt 1; CInt 2]);
                                                                      ("s", DObject, [CStr "x"; CNone])])
                                                            c i)) ["s"; "n"])))
                      (seq 0 2)))
    /\ (forall c, c <> "t" ->
          lookup_column c d'
          = lookup_column c (frame 2 [("n", DInt64, [CInt 1; CInt 2]);
                                      ("s", DObject, [CStr "x"; CNone])]))
    /\ nrows d' = 2%nat.
Proof.
  apply (concat_definition_joins plain_ext 0
           [frame 2 [("n", DInt64, [CInt 1; CInt 2]); ("s", DObject, [CStr "x"; CNone])]]
           (frame 2 [("n", DInt64, [CInt 1; CInt 2]); ("s", DObject, [CStr "x"; CNone])])
           [] "t" ["s"; "n"] (Some "-")).
  - reflexivity.
  - split; [by apply (bool_decide_unpack _)|repeat constructor].
  - reflexivity.
  - done.
  - done.
  - repeat constructor.
  - done.
Defined.

Lemma add_column_step_skipped ext d col_def :
  skipped_definition col_def -> add_column_step ext d col_def = d.
Proof.
  intros Hskip. unfold add_column_step.
  destruct (c_name col_def) as [name|] eqn:Hname; [|done].
  destruct (falsy (Some name) || falsy (c_operation col_def)) eqn:Hf; [done|].
  apply orb_false_elim in Hf as [Hfn Hfo].
  assert (Hv : new_column_value ext d col_def = inr None); [|by rewrite Hv].
  unfold new_column_value.
  destruct Hskip as [H|[H|[H|[[Hop H]|[[Hop H]|[Hop H]]]]]].
  - congruence.
  - congruence.
  - assert (Hne : forall x, x ∈ known_operations ->
                    is_cond (c_operation col_def) x = false).
    { intros x Hx. unfold is_cond. destruct (c_operation col_def) as [c|]; [|done].
      apply String.eqb_neq. intros ->. by apply (H x). }
    repeat (rewrite Hne by (unfold known_operations; set_solver)). done.
  - rewrite Hop. cbn [is_cond String.eqb Ascii.eqb Bool.eqb].
    by destruct (c_expression col_def) as [[|]|].
  - rewrite Hop. cbn [is_cond String.eqb Ascii.eqb Bool.eqb].
    by destruct (c_source_column col_def) as [[|]|].
  - rewrite Hop. cbn [is_cond String.eqb Ascii.eqb Bool.eqb]. by rewrite H.
Qed.

(** A column definition without a name or without an operation (absent
    or empty), with an operation other than concat, eval, copy and
    default_value, or without the field its operation needs (expression
    for eval, source_column for copy, the 'value' key for default_value)
    changes nothing and does not stop the stage: add_new_columns does
    what it does without that definition, wherever it stands. *)
Theorem skipped_definition_changes_nothing ext df h d pre post col_def :
  h !! df = Some d -> skipped_definition col_def ->
  add_new_columns ext df (pre ++ col_def :: post) h
  = add_new_columns ext df (pre ++ post) h.
Proof.
  intros Hr Hskip. rewrite !(add_new_columns_run _ _ _ _ _ Hr).
  rewrite !fold_left_app. cbn [fold_left]. by rewrite add_column_step_skipped.
Qed.

Lemma skipped_definition_changes_nothing_witness :
  add_new_columns plain_ext 0
    ([mkColumnDef (Some "c") (Some "copy") None None None (Some "a") None]
     ++ mkColumnDef (Some "v") (Some "default_value") None None None None None
     :: [mkColumnDef (Some "w") (Some "upper") None None None (Some "a") None])
    [frame_a_b]
  = add_new_columns plain_ext 0
      ([mkColumnDef (Some "c") (Some "copy") None None None (Some "a") None]
       ++ [mkColumnDef (Some "w") (Some "upper") None None None (Some "a") None])
      [frame_a_b].
Proof.
  apply (skipped_definition_changes_nothing plain_ext 0 _ frame_a_b).
  - reflexivity.
  - do 5 right. split; reflexivity.
Defined.

(** ** Type coercion *)

Lemma map_exn_length {A B} (f : A -> exn + B) : forall l l',
  map_exn f l = inr l' -> List.length l' = List.length l.
Proof.
  induction l as [|a l IH]; intros l'; simpl.
  - by intros [= <-].
  - destruct (f a); [done|]. destruct (map_exn f l) eqn:Hm; [done|].
    intros [= <-]. simpl. by rewrite (IH _ eq_refl).
Qed.

Lemma to_numeric_length ext s :
  List.length (s_values (to_numeric ext s)) = List.length (s_values s).
Proof.
  unfold to_numeric. destruct (s_dtype s); try done.
  - destruct (existsb _ _); [cbn [s_values]; by rewrite !length_map|].
    destruct (existsb _ _); [cbn [s_values]; by rewrite !length_map|].
    destruct (map _ _) eqn:Hm; cbn [s_values].
    + apply (f_equal List.length) in Hm. by rewrite length_map in Hm.
    + rewrite <- Hm. by rewrite length_map.
  - cbn [s_values]. by rewrite length_map.
Qed.

Lemma astype_length dt f s s' :
  astype dt f s = inr s' -> List.length (s_values s') = List.length (s_values s).
Proof.
  unfold astype. destruct (map_exn f (s_values s)) eqn:Hm; [done|].
  intros [= <-]. by apply map_exn_length in Hm.
Qed.

Lemma converted_length ext s t s' :
  (t = "datetime" -> datetime_keeps_length ext) ->
  converted ext s t = inr (Some s') ->
  List.length (s_values s') = List.length (s_values s).
Proof.
  intros Hdt. unfold converted.
  destruct (String.eqb t "int").
  { destruct (astype _ _ _) eqn:Ha; [done|]. intros [= <-].
    apply astype_length in Ha. by rewrite Ha, to_numeric_length. }
  destruct (String.eqb t "float").
  { destruct (astype _ _ _) eqn:Ha; [done|]. intros [= <-].
    apply astype_length in Ha. by rewrite Ha, to_numeric_length. }
  destruct (String.eqb t "str").
  { intros [= <-]. unfold astype_str. cbn [s_values]. by rewrite length_map. }
  destruct (String.eqb_spec t "datetime") as [Ht|_].
  { destruct (to_datetime ext s) eqn:Ha; [done|]. intros [= <-]. by apply (Hdt Ht). }
  destruct (String.eqb t "bool"); [|done].
  destruct (astype _ _ _) eqn:Ha; [done|]. intros [= <-].
  apply astype_length in Ha. rewrite Ha. unfold series_map. cbn [s_values].
  by rewrite length_map.
Qed.

Lemma convert_step_cases ext d c t :
  aligned d -> (t = "datetime" -> datetime_keeps_length ext) ->
  convert_step ext d (c, t) = d
  \/ exists s s',
       lookup_column c d = Some s /\ converted ext s t = inr (Some s')
       /\ List.length (s_values s') = nrows d
       /\ convert_step ext d (c, t) = set_column c s' d.
Proof.
  intros Hal Hdt. unfold convert_step. cbn [fst snd].
  destruct (in_columns c d) eqn:Hin; [|by left].
  destruct (lookup_column c d) as [s|] eqn:Hs; [|by left].
  destruct (converted ext s t) as [e|[s'|]] eqn:Hc; [by left| |by left].
  assert (Hlen : List.length (s_values s') = nrows d).
  { rewrite (converted_length _ _ _ _ Hdt Hc). by eapply column_length. }
  right. exists s, s'. repeat split; try done.
  by rewrite (assign_series_aligned _ s).
Qed.

Lemma nrows_set_column name s d : nrows (set_column name s d) = nrows d.
Proof. unfold set_column. by destruct (in_columns name d). Qed.

(** With a to_datetime that keeps the length of what it is given: type
    coercion never adds, drops, renames or reorders a column, never
    changes the row count, and leaves every column that is not a key of
    type_conversions exactly as it was. *)
Theorem conversions_touch_named_columns_only ext df h d tc :
  h !! df = Some d -> dataset_inv d -> datetime_keeps_length ext ->
  exists d',
    result_frame (convert_data_types ext df tc) h = inr d'
    /\ columns d' = columns d
    /\ nrows d' = nrows d
    /\ (forall c, c ∉ tc.*1 -> lookup_column c d' = lookup_column c d).
Proof.
  intros Hr Hinv Hdt. assert (Hlt : (df < List.length h)%nat) by (by eapply lookup_lt_Some).
  eexists. split.
  { eapply result_frame_inplace; [done|]. by apply convert_data_types_run. }
  split; [apply columns_fold_convert_step|].
  clear Hr Hlt. revert d Hinv. induction tc as [|[c t] tc IH]; intros d Hinv; [done|].
  cbn [fold_left].
  destruct (IH (convert_step ext d (c, t)) (inv_convert_step _ _ _ Hinv)) as [Hn Hother].
  destruct (convert_step_cases ext d c t (proj2 Hinv) (fun _ => Hdt))
    as [Hsame|(s & s' & _ & _ & _ & Hset)].
  - rewrite Hsame in *. split; [done|]. intros x Hx. apply Hother.
    cbn [fmap list_fmap fst] in Hx. by apply not_elem_of_cons in Hx as [_ Hx].
  - rewrite Hset in *. rewrite nrows_set_column in Hn. split; [done|].
    intros x Hx. cbn [fmap list_fmap fst] in Hx. apply not_elem_of_cons in Hx as [Hne Hx].
    rewrite (Hother x Hx). by apply lookup_set_column_other.
Qed.

Lemma plain_ext_datetime_keeps_length : datetime_keeps_length plain_ext.
Proof.
  intros s s'. cbn [to_datetime plain_ext]. intros [= <-]. cbn [s_values].
  by rewrite length_map.
Defined.

Lemma conversions_touch_named_columns_only_witness :
  exists d',
    result_frame (convert_data_types plain_ext 0 [("a", "str"); ("zz", "int")])
      [frame_a_b] = inr d'
    /\ columns d' = columns frame_a_b
    /\ nrows d' = nrows frame_a_b
    /\ (forall c, c ∉ [("a", "str"); ("zz", "int")].*1 ->
          lookup_column c d' = lookup_column c frame_a_b).
Proof.
  apply (conversions_touch_named_columns_only plain_ext 0 [frame_a_b] frame_a_b).
  - reflexivity.
  - exact inv_frame_a_b.
  - exact plain_ext_datetime_keeps_length.
Defined.

Lemma convert_data_types_at ext df h d pre d1 :
  h !! df = Some d ->
  (convert_data_types ext df pre h).2 !! df = Some d1 ->
  d1 = fold_left (convert_step ext) pre d.
Proof.
  intros Hr Hd1. assert (Hlt : (df < List.length h)%nat) by (by eapply lookup_lt_Some).
  rewrite (convert_data_types_run _ _ _ _ _ Hr) in Hd1. cbn [snd] in Hd1.
  rewrite list_lookup_insert_eq in Hd1 by done. by injection Hd1 as <-.
Qed.

Lemma converted_unsupported ext s t :
  t ∉ supported_types -> converted ext s t = inr None.
Proof.
  intros Ht.
  assert (Hne : forall x, x ∈ supported_types -> String.eqb t x = false).
  { intros x Hx. apply String.eqb_neq. by intros ->. }
  unfold converted.
  repeat (rewrite Hne by (unfold supported_types; set_solver)). done.
Qed.

(** On a frame whose column labels are unique, for the items of a dict: a
    type tag other than int, float, str, datetime and bool converts
    nothing and does not stop the stage: convert_data_types does what it
    does without that item, wherever it stands. *)
Theorem unsupported_type_is_skipped ext df h d pre post c t :
  h !! df = Some d -> NoDup (columns d) -> NoDup (pre ++ (c, t) :: post).*1 ->
  t ∉ supported_types ->
  convert_data_types ext df (pre ++ (c, t) :: post) h
  = convert_data_types ext df (pre ++ post) h.
Proof.
  intros Hr _ _ Ht. rewrite !(convert_data_types_run _ _ _ _ _ Hr).
  rewrite !fold_left_app. cbn [fold_left].
  assert (Hstep : forall d', convert_step ext d' (c, t) = d'); [|by rewrite Hstep].
  intros d'. unfold convert_step. cbn [fst snd].
  destruct (in_columns c d'); [|done]. destruct (lookup_column c d'); [|done].
  by rewrite converted_unsupported.
Qed.

Lemma unsupported_type_is_skipped_witness :
  convert_data_types plain_ext 0 ([("a", "str")] ++ ("b", "integer") :: [("c", "bool")])
    [frame 1 [("a", DInt64, [CInt 1]); ("b", DInt64, [CInt 2]); ("c", DObject, [CStr "0"])]]
  = convert_data_types plain_ext 0 ([("a", "str")] ++ [("c", "bool")])
      [frame 1 [("a", DInt64, [CInt 1]); ("b", DInt64, [CInt 2]);
                ("c", DObject, [CStr "0"])]].
Proof.
  apply (unsupported_type_is_skipped plain_ext 0 _
           (frame 1 [("a", DInt64, [CInt 1]); ("b", DInt64, [CInt 2]);
                     ("c", DObject, [CStr "0"])])).
  - reflexivity.
  - by apply (bool_decide_unpack _).
  - by apply (bool_decide_unpack _).
  - intros H. repeat (apply elem_of_cons in H as [H|H]; [discriminate|]).
    by apply not_elem_of_nil in H.
Defined.

Lemma map_exn_fails {A B} (f : A -> exn + B) x e : forall l,
  x ∈ l -> f x = inl e -> exists e', map_exn f l = inl e'.
Proof.
  induction l as [|a l IH]; intros Hx Hf; [by apply not_elem_of_nil in Hx|].
  simpl. apply elem_of_cons in Hx as [<-|Hx].
  - rewrite Hf. eauto.
  - destruct (f a); [eauto|]. destruct (IH Hx Hf) as [e' ->]. eauto.
Qed.

(** On a frame whose column labels are unique, for the items of a dict:
    converting to int a float column that holds a value with a fractional
    part fails as a whole: the column keeps its cells and its dtype,
    nothing is raised, and the other conversions are applied as if the
    item were not there. *)
Theorem int_cast_of_fraction_is_skipped ext df h d pre post c s q d1 :
  h !! df = Some d -> NoDup (columns d) -> NoDup (pre ++ (c, "int") :: post).*1 ->
  (convert_data_types ext df pre h).2 !! df = Some d1 ->
  lookup_column c d1 = Some s -> s_dtype s = DFloat64 ->
  CFloat q ∈ s_values s -> is_integral q = false ->
  convert_data_types ext df (pre ++ (c, "int") :: post) h
  = convert_data_types ext df (pre ++ post) h.
Proof.
  intros Hr _ _ Hd1 Hs Hdt Hq Hfrac.
  rewrite (convert_data_types_at _ _ _ _ _ _ Hr Hd1) in Hs.
  rewrite !(convert_data_types_run _ _ _ _ _ Hr).
  rewrite !fold_left_app. cbn [fold_left].
  set (dpre := fold_left (convert_step ext) pre d) in *.
  assert (Hstep : convert_step ext dpre (c, "int") = dpre); [|by rewrite Hstep].
  unfold convert_step. cbn [fst snd]. rewrite Hs.
  destruct (in_columns c _); [|done].
  assert (Hc : exists e, converted ext s "int" = inl e); [|by destruct Hc as [e ->]].
  unfold converted. cbn [String.eqb Ascii.eqb Bool.eqb].
  assert (Hnum : to_numeric ext s = s) by (unfold to_numeric; by rewrite Hdt).
  rewrite Hnum. unfold astype.
  destruct (map_exn_fails int64_cell (CFloat q) TypeError (s_values s) Hq) as [e ->];
    [|by eexists].
  cbn [int64_cell]. by rewrite Hfrac.
Qed.

Lemma int_cast_of_fraction_is_skipped_witness :
  convert_data_types plain_ext 0 ([] ++ ("x", "int") :: [("y", "str")])
    [frame 2 [("x", DFloat64, [CFloat 1; CFloat (3 # 2)]); ("y", DInt64, [CInt 1; CInt 2])]]
  = convert_data_types plain_ext 0 ([] ++ [("y", "str")])
      [frame 2 [("x", DFloat64, [CFloat 1; CFloat (3 # 2)]); ("y", DInt64, [CInt 1; CInt 2])]].
Proof.
  apply (int_cast_of_fraction_is_skipped plain_ext 0 _
           (frame 2 [("x", DFloat64, [CFloat 1; CFloat (3 # 2)]);
                     ("y", DInt64, [CInt 1; CInt 2])])
           [] [("y", "str")] "x" (mkSeries DFloat64 [CFloat 1; CFloat (3 # 2)]) (3 # 2)
           (frame 2 [("x", DFloat64, [CFloat 1; CFloat (3 # 2)]);
                     ("y", DInt64, [CInt 1; CInt 2])])).
  - reflexivity.
  - by apply (bool_decide_unpack _).
  - by apply (bool_decide_unpack _).
  - reflexivity.
  - reflexivity.
  - reflexivity.
  - right. left.
  - reflexivity.
Defined.

Lemma map_exn_Forall {A B} (f : A -> exn + B) (P : B -> Prop) :
  (forall a b, f a = inr b -> P b) ->
  forall l l', map_exn f l = inr l' -> Forall P l'.
Proof.
  intros Hf. induction l as [|a l IH]; intros l'; simpl.
  - intros [= <-]. constructor.
  - destruct (f a) as [|b] eqn:Ha; [done|]. destruct (map_exn f l); [done|].
    intros [= <-]. constructor; [by eapply Hf|by apply IH].
Qed.

Lemma map_exn_fixed {A} (f : A -> exn + A) (l : list A) :
  Forall (fun a => f a = inr a) l -> map_exn f l = inr l.
Proof. induction 1 as [|a l Ha _ IH]; simpl; [done|]. by rewrite Ha, IH. Qed.

Lemma series_map_bools (cells : list cell) :
  Forall (fun c => exists b, c = CBool b) cells ->
  series_map map_to_bool (mkSeries DBool cells) = mkSeries DBool cells.
Proof.
  intros Hall. unfold series_map. cbn [s_values].
  assert (Hmap : map (fun c => match List.find (fun kv => key_eqb kv.1 c) map_to_bool with
                               | Some kv => CBool kv.2
                               | None => CNaN
                               end) cells = cells).
  { induction Hall as [|c cells [b ->] _ IH]; [done|].
    cbn [map]. rewrite IH. f_equal. by destruct b. }
  rewrite Hmap.
  assert (Hnn : forallb notnull cells = true).
  { clear Hmap. induction Hall as [|c cells [b ->] _ IH]; simpl; [done|exact IH]. }
  by rewrite Hnn.
Qed.

Lemma converted_idempotent ext s t s' :
  t ∈ ["int"; "float"; "str"; "bool"] ->
  converted ext s t = inr (Some s') -> converted ext s' t = inr (Some s').
Proof.
  intros Ht. rewrite !elem_of_cons in Ht.
  destruct Ht as [->|[->|[->|[->|Hnil]]]]; [| | | |by apply not_elem_of_nil in Hnil];
    unfold converted; cbn [String.eqb Ascii.eqb Bool.eqb].
  - unfold astype. destruct (map_exn int64_cell _) as [|cells] eqn:Hm; [done|].
    intros [= <-]. cbn [to_numeric s_dtype s_values].
    rewrite map_exn_fixed; [done|].
    eapply Forall_impl; [eapply (map_exn_Forall int64_cell
                                   (fun b => int64_cell b = inr b)); [|exact Hm]|done].
    intros a b. destruct a; simpl; try (by intros [= <-]).
    destruct (is_integral q && in_int64 _); by intros [= <-].
  - unfold astype. destruct (map_exn (float_cell ext) _) as [|cells] eqn:Hm; [done|].
    intros [= <-]. cbn [to_numeric s_dtype s_values].
    rewrite map_exn_fixed; [done|].
    eapply Forall_impl; [eapply (map_exn_Forall (float_cell ext)
                                   (fun b => float_cell ext b = inr b)); [|exact Hm]|done].
    intros a b. destruct a; simpl; by intros [= <-].
  - intros [= <-]. do 2 f_equal. unfold astype_str. cbn [s_values]. f_equal.
    rewrite map_map. by apply map_ext.
  - unfold astype. destruct (map_exn bool_cell _) as [|cells] eqn:Hm; [done|].
    intros [= <-].
    assert (Hb : Forall (fun c => exists b, c = CBool b) cells).
    { eapply (map_exn_Forall bool_cell); [|exact Hm].
      intros a b. destruct a; simpl; intros [= <-]; by eexists. }
    rewrite (series_map_bools _ Hb). cbn [s_values].
    rewrite map_exn_fixed; [done|].
    eapply Forall_impl; [exact Hb|]. by intros c [b ->].
Qed.

Lemma set_column_twice name s d :
  in_columns name d = true ->
  set_column name s (set_column name s d) = set_column name s d.
Proof.
  intros Hin. unfold set_column at 1.
  assert (Hin' : in_columns name (set_column name s d) = true).
  { unfold in_columns. by rewrite columns_set_column_in. }
  rewrite Hin'. rewrite nrows_set_column. unfold set_column. rewrite Hin.
  cbn [data nrows]. f_equal. rewrite <- list_fmap_compose.
  apply list_fmap_ext. intros i [c s0] _. simpl.
  destruct (String.eqb c name) eqn:Hc; simpl; by rewrite Hc.
Qed.

Lemma convert_step_idempotent ext d c t :
  aligned d -> t ∈ ["int"; "float"; "str"; "bool"] ->
  convert_step ext (convert_step ext d (c, t)) (c, t) = convert_step ext d (c, t).
Proof.
  intros Hal Ht.
  assert (Hnd : t = "datetime" -> datetime_keeps_length ext).
  { intros ->. exfalso. repeat (apply elem_of_cons in Ht as [Ht|Ht]; [discriminate|]).
    by apply not_elem_of_nil in Ht. }
  destruct (convert_step_cases ext d c t Hal Hnd)
    as [Hsame|(s & s' & Hs & Hc & Hlen & Hset)].
  - by rewrite !Hsame.
  - rewrite Hset. destruct (lookup_column_elem _ _ _ Hs) as [Hin _].
    unfold convert_step at 1. cbn [fst snd].
    assert (Hin' : in_columns c (set_column c s' d) = true).
    { unfold in_columns. by rewrite columns_set_column_in. }
    rewrite Hin', lookup_set_column_same, (converted_idempotent _ _ _ _ Ht Hc).
    rewrite (assign_series_aligned _ s) by (by rewrite nrows_set_column).
    by apply set_column_twice.
Qed.

Lemma convert_step_eq ext d c t :
  aligned d -> t <> "datetime" ->
  convert_step ext d (c, t)
  = match lookup_column c d with
    | Some s =>
        match converted ext s t with
        | inr (Some s') => set_column c s' d
        | _ => d
        end
    | None => d
    end.
Proof.
  intros Hal Ht. unfold convert_step. cbn [fst snd].
  destruct (lookup_column c d) as [s|] eqn:Hs; [|by destruct (in_columns c d)].
  destruct (lookup_column_elem _ _ _ Hs) as [Hin _]. rewrite Hin.
  destruct (converted ext s t) as [e|[s'|]] eqn:Hc; try done.
  rewrite (assign_series_aligned _ s); [done|].
  rewrite (converted_length _ _ _ _ (fun H => False_ind _ (Ht H)) Hc).
  by eapply column_length.
Qed.

Lemma lookup_convert_step_other ext d c item :
  aligned d -> item.2 <> "datetime" -> c <> item.1 ->
  lookup_column c (convert_step ext d item) = lookup_column c d.
Proof.
  intros Hal Ht Hne. destruct item as [c' t]. cbn [fst snd] in *.
  rewrite convert_step_eq by done.
  destruct (lookup_column c' d) as [s|]; [|done].
  destruct (converted ext s t) as [e|[s'|]]; try done.
  by apply lookup_set_column_other.
Qed.

Lemma set_column_in name s d :
  in_columns name d = true ->
  set_column name s d
  = mkFrame (nrows d)
      (map (fun p => if String.eqb p.1 name then (p.1, s) else p) (data d)).
Proof. intros Hin. unfold set_column. by rewrite Hin. Qed.

Lemma set_column_comm c1 c2 s1 s2 d :
  c1 <> c2 -> in_columns c1 d = true -> in_columns c2 d = true ->
  set_column c1 s1 (set_column c2 s2 d) = set_column c2 s2 (set_column c1 s1 d).
Proof.
  intros Hne H1 H2.
  assert (H1' : in_columns c1 (set_column c2 s2 d) = true).
  { unfold in_columns. by rewrite columns_set_column_in. }
  assert (H2' : in_columns c2 (set_column c1 s1 d) = true).
  { unfold in_columns. by rewrite columns_set_column_in. }
  rewrite (set_column_in c1 s1 (set_column c2 s2 d) H1').
  rewrite (set_column_in c2 s2 (set_column c1 s1 d) H2').
  rewrite (set_column_in c1 s1 d H1), (set_column_in c2 s2 d H2).
  cbn [nrows data]. f_equal.
  rewrite !map_map. apply map_ext. intros [c s]. cbn [fst].
  destruct (String.eqb_spec c c2) as [->|Hc2]; cbn [fst].
  - destruct (String.eqb_spec c2 c1) as [Heq|_]; [by destruct Hne|].
    cbn [fst]. by rewrite String.eqb_refl.
  - destruct (String.eqb_spec c c1) as [->|Hc1]; cbn [fst].
    + by destruct (String.eqb_spec c1 c2).
    + by destruct (String.eqb_spec c c2).
Qed.

Lemma convert_step_comm ext d a b :
  dataset_inv d -> a.2 <> "datetime" -> b.2 <> "datetime" -> a.1 <> b.1 ->
  convert_step ext (convert_step ext d a) b = convert_step ext (convert_step ext d b) a.
Proof.
  intros Hinv Ha Hb Hne.
  pose proof (inv_convert_step ext d a Hinv) as [_ Hala].
  pose proof (inv_convert_step ext d b Hinv) as [_ Halb].
  destruct a as [c1 t1], b as [c2 t2]. cbn [fst snd] in *.
  rewrite (convert_step_eq ext (convert_step ext d (c1, t1))) by done.
  rewrite (convert_step_eq ext (convert_step ext d (c2, t2))) by done.
  rewrite (lookup_convert_step_other ext d c2 (c1, t1)) by (try apply Hinv; by auto).
  rewrite (lookup_convert_step_other ext d c1 (c2, t2)) by (try apply Hinv; by auto).
  rewrite !convert_step_eq by (try apply Hinv; done).
  destruct (lookup_column c1 d) as [s1|] eqn:H1, (lookup_column c2 d) as [s2|] eqn:H2;
    try done.
  destruct (converted ext s1 t1) as [?|[s1'|]], (converted ext s2 t2) as [?|[s2'|]];
    try done.
  symmetry. apply set_column_comm; [done| |].
  - by destruct (lookup_column_elem _ _ _ H1).
  - by destruct (lookup_column_elem _ _ _ H2).
Qed.

Lemma convert_step_fold_comm ext l : forall d a,
  dataset_inv d -> a.2 <> "datetime" ->
  Forall (fun item => item.2 <> "datetime") l -> a.1 ∉ l.*1 ->
  convert_step ext (fold_left (convert_step ext) l d) a
  = fold_left (convert_step ext) l (convert_step ext d a).
Proof.
  induction l as [|b l IH]; intros d a Hinv Ha Hl Hnot; [done|].
  apply Forall_cons in Hl as [Hb Hl]. rewrite fmap_cons in Hnot.
  apply not_elem_of_cons in Hnot as [Hne Hnot]. cbn [fold_left].
  rewrite IH; try done; [|by apply inv_convert_step].
  by rewrite (convert_step_comm ext d a b).
Qed.

Lemma convert_step_twice ext d c t :
  aligned d -> t <> "datetime" ->
  convert_step ext (convert_step ext d (c, t)) (c, t) = convert_step ext d (c, t).
Proof.
  intros Hal Ht.
  destruct (decide (t ∈ ["int"; "float"; "str"; "bool"])) as [Hin|Hout].
  { by apply convert_step_idempotent. }
  assert (Hun : t ∉ supported_types).
  { unfold supported_types. intros Hin. apply Hout.
    rewrite !elem_of_cons in Hin. rewrite !elem_of_cons.
    destruct Hin as [->|[->|[->|[->|[->|H]]]]]; auto 6;
      try (by destruct Ht); try (by apply elem_of_nil in H). }
  assert (Hstep : forall d', convert_step ext d' (c, t) = d'); [|by rewrite !Hstep].
  intros d'. unfold convert_step. cbn [fst snd].
  destruct (in_columns c d'); [|done]. destruct (lookup_column c d'); [|done].
  by rewrite converted_unsupported.
Qed.

Lemma convert_fold_idempotent ext l : forall d,
  dataset_inv d -> NoDup l.*1 -> Forall (fun item => item.2 <> "datetime") l ->
  fold_left (convert_step ext) l (fold_left (convert_step ext) l d)
  = fold_left (convert_step ext) l d.
Proof.
  induction l as [|[c t] l IH]; intros d Hinv Hnd Hl; [done|].
  rewrite fmap_cons in Hnd. apply NoDup_cons in Hnd as [Hnot Hnd].
  apply Forall_cons in Hl as [Ht Hl]. cbn [fst snd] in *. cbn [fold_left].
  pose proof (inv_convert_step ext d (c, t) Hinv) as Hinv1.
  rewrite (convert_step_fold_comm ext l _ (c, t)) by done.
  rewrite convert_step_twice by (try apply Hinv; done).
  by apply IH.
Qed.

(** Conversion is idempotent.  On a dataset (unique column names, columns
    of equal length), for a type_conversions dict that holds no datetime
    conversion: calling convert_data_types a second time with the same
    dict, on the dataset the first call returned, changes nothing. *)
Theorem conversion_is_idempotent ext df h d tc :
  h !! df = Some d -> dataset_inv d -> NoDup tc.*1 ->
  Forall (fun item => item.2 <> "datetime") tc ->
  bind (convert_data_types ext df tc) (fun df' => convert_data_types ext df' tc) h
  = convert_data_types ext df tc h.
Proof.
  intros Hr Hinv Hnd Ht.
  assert (Hlt : (df < List.length h)%nat) by (by eapply lookup_lt_Some).
  rewrite (bind_run _ _ _ _ _ (convert_data_types_run _ _ _ _ _ Hr)).
  rewrite (convert_data_types_run ext df tc _ (fold_left (convert_step ext) tc d))
    by (by apply list_lookup_insert_eq).
  rewrite (convert_data_types_run _ _ _ _ _ Hr).
  by rewrite convert_fold_idempotent, list_insert_insert_eq.
Qed.

Lemma conversion_is_idempotent_witness :
  bind (convert_data_types plain_ext 0 [("c", "int"); ("k", "bool")])
       (fun df' => convert_data_types plain_ext df' [("c", "int"); ("k", "bool")])
       [frame 3 [("c", DObject, [CStr "1"; CStr "bad"; CStr "3"]);
                 ("k", DInt64, [CInt 1; CInt 0; CInt 2])]]
  = convert_data_types plain_ext 0 [("c", "int"); ("k", "bool")]
      [frame 3 [("c", DObject, [CStr "1"; CStr "bad"; CStr "3"]);
                ("k", DInt64, [CInt 1; CInt 0; CInt 2])]].
Proof.
  apply (conversion_is_idempotent plain_ext 0 _
           (frame 3 [("c", DObject, [CStr "1"; CStr "bad"; CStr "3"]);
                     ("k", DInt64, [CInt 1; CInt 0; CInt 2])])).
  - reflexivity.
  - split; [by apply (bool_decide_unpack _)|repeat constructor].
  - by apply (bool_decide_unpack _).
  - repeat constructor; discriminate.
Defined.

Lemma map_exn_map {A B C} (f : B -> exn + C) (g : A -> B) (k : A -> C) (l : list A) :
  Forall (fun x => f (g x) = inr (k x)) l -> map_exn f (map g l) = inr (map k l).
Proof. induction 1 as [|a l Ha _ IH]; simpl; [done|]. by rewrite Ha, IH. Qed.

Lemma convert_one_column ext df h d c t s s' :
  h !! df = Some d -> aligned d -> lookup_column c d = Some s ->
  converted ext s t = inr (Some s') ->
  List.length (s_values s') = List.length (s_values s) ->
  result_frame (convert_data_types ext df [(c, t)]) h = inr (set_column c s' d).
Proof.
  intros Hr Hal Hs Hc Hlen.
  assert (Hlt : (df < List.length h)%nat) by (by eapply lookup_lt_Some).
  destruct (lookup_column_elem _ _ _ Hs) as [Hin _].
  eapply result_frame_inplace; [done|].
  rewrite (convert_data_types_run _ _ _ _ _ Hr). cbn [fold_left].
  assert (Hstep : convert_step ext d (c, t) = set_column c s' d); [|by rewrite Hstep].
  unfold convert_step. cbn [fst snd]. rewrite Hin, Hs, Hc.
  rewrite (assign_series_aligned _ s); [done|].
  rewrite Hlen. by eapply column_length.
Qed.

Lemma Qeq_bool_one_zero q :
  Qeq_bool (inject_Z 1) q = true -> Qeq_bool (inject_Z 0) q = false.
Proof.
  intros H1. destruct (Qeq_bool (inject_Z 0) q) eqn:H0; [|done].
  apply Qeq_bool_iff in H1, H0. exfalso.
  assert (Heq : (inject_Z 1 == inject_Z 0)%Q) by (by rewrite H1, H0).
  discriminate Heq.
Qed.

Lemma bool_of_number (x : cell) q :
  key_number x = Some q -> (forall s, x <> CStr s) ->
  bool_cell (match List.find (fun kv => key_eqb kv.1 x) map_to_bool with
             | Some kv => CBool kv.2
             | None => CNaN
             end)
  = inr (CBool (negb (falsy_token x))).
Proof.
  intros Hq Hns.
  assert (Hkey : forall z, key_eqb (CInt z) x = Qeq_bool (inject_Z z) q).
  { intros z. unfold key_eqb. cbn [key_number]. by rewrite Hq. }
  assert (Hstr : forall k, key_eqb (CStr k) x = false).
  { intros k. unfold key_eqb. by destruct x. }
  unfold map_to_bool, falsy_token. cbn [List.find existsb fst snd].
  rewrite !Hstr, !Hkey. cbn [orb].
  destruct (Qeq_bool (inject_Z 1) q) eqn:H1.
  - by rewrite (Qeq_bool_one_zero _ H1).
  - by destruct (Qeq_bool (inject_Z 0) q).
Qed.

Lemma bool_of_cell (x : cell) :
  bool_cell (match List.find (fun kv => key_eqb kv.1 x) map_to_bool with
             | Some kv => CBool kv.2
             | None => CNaN
             end)
  = inr (CBool (negb (falsy_token x))).
Proof.
  destruct x as [| | | |b|z|q|s|t]; try reflexivity.
  - by apply (bool_of_number _ (inject_Z (bool_Z b))).
  - by apply (bool_of_number _ (inject_Z z)).
  - by apply (bool_of_number _ q).
  - unfold map_to_bool, falsy_token. cbn [List.find existsb fst snd key_eqb key_number].
    destruct (String.eqb_spec "true" s) as [<-|_]; [reflexivity|].
    destruct (String.eqb_spec "True" s) as [<-|_]; [reflexivity|].
    destruct (String.eqb_spec "TRUE" s) as [<-|_]; [reflexivity|].
    destruct (String.eqb_spec "1" s) as [<-|_]; [reflexivity|].
    destruct (String.eqb_spec "false" s) as [<-|_]; [reflexivity|].
    destruct (String.eqb_spec "False" s) as [<-|_]; [reflexivity|].
    destruct (String.eqb_spec "FALSE" s) as [<-|_]; [reflexivity|].
    destruct (String.eqb_spec "0" s) as [<-|_]; reflexivity.
Qed.

(** On a dataset (unique column names, columns of equal length),
    conversion to bool always succeeds and leaves a bool column without a
    null: a cell is false exactly when it equals one of the keys that the
    literal table maps to False ('false', 'False', 'FALSE', '0', the
    number 0), and true in every other case, a null cell and a string
    that is no key included.  The other columns stay as they were. *)
Theorem bool_conversion_is_total ext df h d c s :
  h !! df = Some d -> dataset_inv d -> lookup_column c d = Some s ->
  exists d',
    result_frame (convert_data_types ext df [(c, "bool")]) h = inr d'
    /\ lookup_column c d'
       = Some (mkSeries DBool (map (fun x => CBool (negb (falsy_token x))) (s_values s)))
    /\ (forall c', c' <> c -> lookup_column c' d' = lookup_column c' d).
Proof.
  intros Hr [_ Hal] Hs.
  set (s' := mkSeries DBool (map (fun x => CBool (negb (falsy_token x))) (s_values s))).
  assert (Hc : converted ext s "bool" = inr (Some s')).
  { unfold converted. cbn [String.eqb Ascii.eqb Bool.eqb]. unfold astype, series_map.
    cbn [s_values]. rewrite (map_exn_map bool_cell _
                               (fun x => CBool (negb (falsy_token x)))); [done|].
    apply Forall_true. exact bool_of_cell. }
  exists (set_column c s' d). split.
  - apply (convert_one_column _ _ _ _ _ _ s); try done.
    unfold s'. cbn [s_values]. by rewrite length_map.
  - split; [apply lookup_set_column_same|]. intros c' Hc'.
    by apply lookup_set_column_other.
Qed.

Lemma bool_conversion_is_total_witness :
  exists d',
    result_frame (convert_data_types plain_ext 0 [("c", "bool")])
      [frame 4 [("c", DObject, [CStr "0"; CStr "yes"; CNone; CInt 0])]] = inr d'
    /\ lookup_column "c" d'
       = Some (mkSeries DBool
                 (map (fun x => CBool (negb (falsy_token x)))
                      [CStr "0"; CStr "yes"; CNone; CInt 0]))
    /\ (forall c', c' <> "c" ->
          lookup_column c' d'
          = lookup_column c' (frame 4 [("c", DObject, [CStr "0"; CStr "yes"; CNone; CInt 0])])).
Proof.
  apply (bool_conversion_is_total plain_ext 0 _
           (frame 4 [("c", DObject, [CStr "0"; CStr "yes"; CNone; CInt 0])]) "c"
           (mkSeries DObject [CStr "0"; CStr "yes"; CNone; CInt 0])).
  - reflexivity.
  - split; [by apply (bool_decide_unpack _)|repeat constructor].
  - reflexivity.
Defined.

Lemma Qred_inject_Z z : Qred (inject_Z z) = inject_Z z.
Proof.
  unfold inject_Z, Qred.
  pose proof (Z.ggcd_gcd z 1) as Hg.
  pose proof (Z.ggcd_correct_divisors z 1) as Hd.
  destruct (Z.ggcd z 1) as [g [aa bb]]. cbn [fst snd] in *.
  rewrite Z.gcd_1_r in Hg. subst g. destruct Hd as [Ha Hb].
  rewrite Z.mul_1_l in Ha, Hb. by subst.
Qed.

Lemma to_numeric_object_values ext s :
  s_dtype s = DObject ->
  exists g,
    ((g = as_float_cell ext
      /\ existsb is_floating (map (coerce_numeric ext) (s_values s)) = true)
     \/ g = as_int_cell \/ g = id)
    /\ s_values (to_numeric ext s) = map g (map (coerce_numeric ext) (s_values s)).
Proof.
  intros Hdt. unfold to_numeric. rewrite Hdt.
  destruct (existsb is_floating _) eqn:Hf; [by exists (as_float_cell ext); auto|].
  destruct (existsb is_int _); [by exists as_int_cell; auto|].
  exists id. split; [auto|]. rewrite map_id.
  by destruct (map (coerce_numeric ext) (s_values s)).
Qed.

Lemma exact_in_int64 z : (Z.abs z <=? 2 ^ 53)%Z = true -> in_int64 z = true.
Proof.
  intros Hz. apply Z.leb_le in Hz. unfold in_int64.
  change (2 ^ 53)%Z with 9007199254740992%Z in Hz.
  change (2 ^ 63)%Z with 9223372036854775808%Z.
  apply andb_true_intro. split; [apply Z.leb_le|apply Z.ltb_lt]; lia.
Qed.

Lemma int64_of_exact ext g x :
  g = as_float_cell ext \/ g = as_int_cell \/ g = id ->
  exact_int_cell x = true ->
  int64_cell (g (coerce_numeric ext x)) = inr (int_reading x).
Proof.
  intros Hg Hx.
  destruct x as [| | | |b|z|q|s|t]; try done;
    try (by destruct Hg as [->|[->| ->]]).
  cbn [coerce_numeric int_reading exact_int_cell] in *. unfold parse_numeric.
  destruct (int_literal s) as [z|].
  - rewrite (exact_in_int64 _ Hx).
    destruct Hg as [->|[->| ->]]; try done.
    cbn [as_float_cell int64_cell]. unfold int_float, is_integral. rewrite Hx.
    rewrite Qred_inject_Z. cbn [inject_Z Qnum Qden].
    by rewrite (exact_in_int64 _ Hx).
  - rewrite Hx. by destruct Hg as [->|[->| ->]].
Qed.

Lemma literal_coerced ext x :
  int64_literal_cell x = true -> exists z, coerce_numeric ext x = CInt z /\ int_reading x = CInt z.
Proof.
  destruct x as [| | | |b|z|q|s|t]; try done.
  cbn [coerce_numeric int_reading int64_literal_cell]. unfold parse_numeric.
  destruct (int_literal s) as [z|]; [|done]. intros ->. by exists z.
Qed.

Lemma literals_not_floating ext (l : list cell) :
  forallb int64_literal_cell l = true ->
  existsb is_floating (map (coerce_numeric ext) l) = false.
Proof.
  induction l as [|x l IH]; [done|]. cbn [forallb map existsb].
  intros [Hx Hl]%andb_prop. destruct (literal_coerced ext x Hx) as (z & -> & _).
  by apply IH.
Qed.

(** On a dataset (unique column names, columns of equal length),
    conversion to int of an object column always succeeds when the column
    holds only strings that are plain integer literals within int64, or
    only NaN, None, text that is no number at all and plain integer
    literals of at most 2^53 in absolute value (a column with a missing
    cell goes through float64): the column becomes a nullable Int64 column
    of the same length in which every literal is its integer and every
    other cell is pd.NA, and the other columns stay as they were. *)
Theorem int_conversion_reads_literals ext df h d c s :
  h !! df = Some d -> dataset_inv d -> lookup_column c d = Some s ->
  s_dtype s = DObject ->
  forallb int64_literal_cell (s_values s) = true
  \/ forallb exact_int_cell (s_values s) = true ->
  exists d',
    result_frame (convert_data_types ext df [(c, "int")]) h = inr d'
    /\ lookup_column c d' = Some (mkSeries DNullableInt (map int_reading (s_values s)))
    /\ (forall c', c' <> c -> lookup_column c' d' = lookup_column c' d).
Proof.
  intros Hr [_ Hal] Hs Hdt Hcells.
  set (s' := mkSeries DNullableInt (map int_reading (s_values s))).
  assert (Hc : converted ext s "int" = inr (Some s')).
  { unfold converted. cbn [String.eqb Ascii.eqb Bool.eqb]. unfold astype.
    destruct (to_numeric_object_values ext s Hdt) as (g & Hg & ->).
    rewrite map_map.
    rewrite (map_exn_map int64_cell _ int_reading); [done|].
    apply Forall_forall. intros x Hx. apply list_elem_of_In in Hx.
    destruct Hcells as [Hlit|Hexact].
    - pose proof Hlit as Hall. rewrite forallb_forall in Hall.
      destruct (literal_coerced ext x (Hall _ Hx)) as (z & -> & ->).
      destruct Hg as [[_ Hf]|[->| ->]]; [|done|done].
      by rewrite (literals_not_floating ext _ Hlit) in Hf.
    - rewrite forallb_forall in Hexact. apply int64_of_exact; [|by apply Hexact].
      destruct Hg as [[-> _]|[->| ->]]; auto. }
  exists (set_column c s' d). split.
  - apply (convert_one_column _ _ _ _ _ _ s); try done.
    unfold s'. cbn [s_values]. by rewrite length_map.
  - split; [apply lookup_set_column_same|]. intros c' Hc'.
    by apply lookup_set_column_other.
Qed.

Lemma int_conversion_reads_literals_witness :
  exists d',
    result_frame (convert_data_types plain_ext 0 [("c", "int")])
      [frame 4 [("c", DObject, [CStr "12"; CStr "n/a"; CNone; CStr "-3"])]] = inr d'
    /\ lookup_column "c" d'
       = Some (mkSeries DNullableInt
                 (map int_reading [CStr "12"; CStr "n/a"; CNone; CStr "-3"]))
    /\ (forall c', c' <> "c" ->
          lookup_column c' d'
          = lookup_column c'
              (frame 4 [("c", DObject, [CStr "12"; CStr "n/a"; CNone; CStr "-3"])])).
Proof.
  apply (int_conversion_reads_literals plain_ext 0 _
           (frame 4 [("c", DObject, [CStr "12"; CStr "n/a"; CNone; CStr "-3"])]) "c"
           (mkSeries DObject [CStr "12"; CStr "n/a"; CNone; CStr "-3"])).
  - reflexivity.
  - split; [by apply (bool_decide_unpack _)|repeat constructor].
  - reflexivity.
  - reflexivity.
  - right. vm_compute. reflexivity.
Defined.

(** Beyond 2^53 the literals of a column with a missing cell are rounded
    by float64, and next to 2^63 the cast back to Int64 fails, which
    leaves the column as it was. *)
Lemma int_conversion_rounds_large_literal :
  run (fun df => convert_data_types plain_ext df [("c", "int")])
      (frame 2 [("c", DObject, [CStr "9007199254740993"; CStr "bad"])])
  = inr (frame 2 [("c", DNullableInt, [CInt 9007199254740992; CNA])]).
Proof. vm_compute. reflexivity. Qed.

Lemma int_conversion_fails_next_to_int64_max :
  run (fun df => convert_data_types plain_ext df [("c", "int")])
      (frame 2 [("c", DObject, [CStr "9223372036854775807"; CStr "bad"])])
  = inr (frame 2 [("c", DObject, [CStr "9223372036854775807"; CStr "bad"])]).
Proof. vm_compute. reflexivity. Qed.

(** ** A template that names only columns the frame lacks *)

Lemma fold_left_fixed {A} (step : DataFrame -> A -> DataFrame) l d :
  Forall (fun a => step d a = d) l -> fold_left step l d = d.
Proof. induction 1 as [|a l Ha _ IH]; [done|]. cbn [fold_left]. by rewrite Ha. Qed.

(** When every entry of the template names a column that the frame does
    not have (the 'from' of each mapping, the column of each filter, a
    source of each copy or concat definition, the column of each type
    conversion), transform_data raises nothing and returns a frame equal
    to its input.  A frame without columns, as read from an empty file, is
    the first example: every such template leaves it as it is. *)
Theorem transform_data_of_foreign_template ext df h d o :
  h !! df = Some d ->
  Forall (fun m => exists f, entry_from m = inr f /\ in_columns f d = false)
         (section_entries (column_mappings o)) ->
  Forall (fun f => exists c, f_column f = Some c /\ in_columns c d = false)
         (section_entries (filters o)) ->
  Forall (fun col_def => missing_source col_def d) (section_entries (new_columns o)) ->
  Forall (fun item => in_columns item.1 d = false)
         (section_entries (data_type_conversions o)) ->
  result_frame (transform_data ext df o) h = inr d.
Proof.
  intros Hr Hcm Hfs Hnc Htc. unfold transform_data.
  destruct (no_options o). { unfold result_frame, ret. by rewrite Hr. }
  unfold result_frame, copy.
  rewrite (bind_run _ _ h (List.length h) (h ++ [d]));
    [|by rewrite (bind_run _ _ h d h (load_some _ _ _ Hr))].
  pose proof (lookup_alloc h d) as H0. set (h0 := h ++ [d]) in *.
  set (c0 := List.length h) in *.
  rewrite (bind_run _ _ h0 c0 h0).
  2:{ destruct (column_mappings o) as [cm|]; [|done]. cbn in Hcm.
      pose proof (map_columns_run c0 cm h0 d H0) as Hrun. unfold map_columns_frame in Hrun.
      destruct cm as [|m cm]; [done|]. by rewrite (columns_to_select_none _ _ Hcm) in Hrun. }
  assert (Hfil : exists r' new,
             match filters o with
             | Some fs => filter_rows ext c0 fs
             | None => ret c0
             end h0 = (inr r', h0 ++ new) /\ (h0 ++ new) !! r' = Some d).
  { destruct (filters o) as [fs|]; cbn in Hfs.
    - destruct (filter_rows_run ext c0 fs h0 d H0) as (r' & new & Hrun & Hl).
      exists r', new. split; [done|]. rewrite Hl. f_equal. apply fold_left_fixed.
      eapply Forall_impl; [exact Hfs|]. intros f (c & Hc & Hin).
      by eapply filter_step_missing.
    - exists c0, []. by rewrite app_nil_r. }
  destruct Hfil as (r' & new & Hfil & Hl). rewrite (bind_run _ _ _ _ _ Hfil).
  set (h1 := h0 ++ new) in *.
  rewrite (bind_run _ _ h1 r' h1).
  2:{ destruct (new_columns o) as [ds|]; [|done]. cbn in Hnc.
      rewrite (add_new_columns_run _ _ _ _ _ Hl).
      rewrite (fold_left_fixed (add_column_step ext)).
      - by rewrite list_insert_id.
      - eapply Forall_impl; [exact Hnc|]. intros cd Hcd. by apply add_column_step_missing. }
  rewrite (bind_run _ _ h1 r' h1).
  2:{ destruct (data_type_conversions o) as [tc|]; [|done]. cbn in Htc.
      rewrite (convert_data_types_run _ _ _ _ _ Hl).
      rewrite (fold_left_fixed (convert_step ext)).
      - by rewrite list_insert_id.
      - eapply Forall_impl; [exact Htc|]. intros [c t] Hin. by apply convert_step_missing. }
  unfold ret. by rewrite Hl.
Qed.

Lemma transform_data_of_foreign_template_witness :
  result_frame
    (transform_data plain_ext 0
       (mkOptions (Some [MDict (Some "id") (Some "key")])
                  (Some [mkFilter (Some "id") (Some ">") (JInt 0)])
                  (Some [mkColumnDef (Some "copy_of_id") (Some "copy") None None None
                                     (Some "id") None])
                  (Some [("id", "int")]) []))
    [mkFrame 0 []]
  = inr (mkFrame 0 []).
Proof.
  apply (transform_data_of_foreign_template plain_ext 0 [mkFrame 0 []] (mkFrame 0 [])).
  - reflexivity.
  - constructor; [|constructor]. exists "id". split; reflexivity.
  - constructor; [|constructor]. exists "id". split; reflexivity.
  - constructor; [|constructor]. left. split; [reflexivity|].
    exists "id". split; reflexivity.
  - constructor; [|constructor]. reflexivity.
Defined.

(** * Properties of the readers and writers *)

(** ** Which columns a writer writes *)







(** ** Dispatch on the file type *)

Lemma to_lower_idempotent a : to_lower (to_lower a) = to_lower a.
Proof. destruct a as [[] [] [] [] [] [] [] []]; reflexivity. Qed.

Lemma lower_idempotent s : lower (lower s) = lower s.
Proof.
  unfold lower. rewrite list_ascii_of_string_of_list_ascii. f_equal.
  induction (list_ascii_of_string s) as [|a l IH]; [done|].
  cbn [map]. by rewrite to_lower_idempotent, IH.
Qed.

Lemma write_csv_file_type {W} (io : io_ext W) d p o t w :
  write_csv io d p (with_file_type t o) w = write_csv io d p o w.
Proof. reflexivity. Qed.

Lemma write_json_file_type {W} (io : io_ext W) d p o t w :
  write_json io d p (with_file_type t o) w = write_json io d p o w.
Proof. reflexivity. Qed.

(** The reader and the writer are chosen by the file type without regard
    to case, and the file type has no other use: a file type and its
    lower-case form give the same result. *)
Theorem dispatch_ignores_case {W} (io : io_ext W) d p i o t w :
  read_data io p (with_input_type t i) w = read_data io p (with_input_type (lower t) i) w
  /\ write_data io d p (with_file_type t o) w
     = write_data io d p (with_file_type (lower t) o) w.
Proof.
  split.
  - unfold read_data. cbn [with_input_type i_file_type default from_option id].
    by rewrite lower_idempotent.
  - unfold write_data. cbn [with_file_type o_file_type default from_option id].
    rewrite lower_idempotent.
    by rewrite !write_csv_file_type, !write_json_file_type.
Qed.

(** A file type that is missing, empty or, in lower case, neither
    'csv' nor 'json' makes write_data raise ValueError before anything is
    handed to pandas: the file system is as it was. *)
Theorem write_data_unsupported_type_writes_nothing {W} (io : io_ext W) d p o w :
  lower (default "" (o_file_type o)) ∉ file_types ->
  write_data io d p o w = (inl (Error ValueError), w).
Proof.
  intros Hn. unfold write_data.
  destruct (String.eqb_spec (lower (default "" (o_file_type o))) ""); [done|].
  destruct (String.eqb_spec (lower (default "" (o_file_type o))) "csv") as [Heq|_].
  { destruct Hn. rewrite Heq. by left. }
  destruct (String.eqb_spec (lower (default "" (o_file_type o))) "json") as [Heq|_].
  { destruct Hn. rewrite Heq. right. by left. }
  done.
Qed.

Lemma write_data_unsupported_type_writes_nothing_witness :
  write_data plain_io frame_a_b "out.xlsx"
    (mkOutput (Some "Excel") None None None None None None None None) ∅
  = (inl (Error ValueError), ∅).
Proof.
  apply (write_data_unsupported_type_writes_nothing plain_io frame_a_b "out.xlsx"
           (mkOutput (Some "Excel") None None None None None None None None) ∅).
  vm_compute. intros H. repeat (apply elem_of_cons in H as [H|H]; [discriminate H|]).
  by apply elem_of_nil in H.
Defined.

Lemma write_csv_raises_exception {W} (io : io_ext W) d p o w e w' :
  write_csv io d p o w = (inl e, w') -> e = Exception.
Proof.
  unfold write_csv. destruct (if given (o_columns o) then _ else _); [by intros [= <- _]|].
  destruct (to_csv _ _ _ _ _) as [[x|] w'']; [by intros [= <- _]|done].
Qed.

Lemma write_json_raises_exception {W} (io : io_ext W) d p o w e w' :
  write_json io d p o w = (inl e, w') -> e = Exception.
Proof.
  unfold write_json. destruct (if given (o_columns o) then _ else _); [by intros [= <- _]|].
  destruct (to_json _ _ _ _ _) as [[x|] w'']; [by intros [= <- _]|done].
Qed.

(** write_data raises two classes only.  Every exception of a
    writer or of pandas, a ValueError included, arrives as a plain
    Exception; a ValueError from write_data therefore always means that
    the file type is not supported, and that nothing was written. *)
Theorem write_data_error_classes {W} (io : io_ext W) d p o w e w' :
  write_data io d p o w = (inl e, w') ->
  e = Exception
  \/ (e = Error ValueError /\ (lower (default "" (o_file_type o)) ∉ file_types) /\ w' = w).
Proof.
  unfold write_data.
  destruct (String.eqb_spec (lower (default "" (o_file_type o))) "") as [He|Hne].
  { intros [= <- <-]. right. rewrite He. repeat split.
    intros H. repeat (apply elem_of_cons in H as [H|H]; [discriminate H|]).
    by apply elem_of_nil in H. }
  destruct (String.eqb_spec (lower (default "" (o_file_type o))) "csv") as [_|Hc].
  { intros H. left. by eapply write_csv_raises_exception. }
  destruct (String.eqb_spec (lower (default "" (o_file_type o))) "json") as [_|Hj].
  { intros H. left. by eapply write_json_raises_exception. }
  intros [= <- <-]. right. repeat split.
  intros H. apply elem_of_cons in H as [H|H]; [done|].
  apply elem_of_cons in H as [H|H]; [done|]. by apply elem_of_nil in H.
Qed.

Lemma write_data_error_classes_witness :
  Exception = Exception
  \/ (Exception = Error ValueError
      /\ (lower (default ""
                   (o_file_type (mkOutput (Some "CSV") None None None None None None None None)))
          ∉ file_types)
      /\ (∅ : gmap string DataFrame) = ∅).
Proof.
  apply (write_data_error_classes plain_io frame_a_b ""
           (mkOutput (Some "CSV") None None None None None None None None) ∅ Exception ∅).
  reflexivity.
Defined.

(** ** Reading a CSV file *)

Lemma read_csv_body_call {W} (io : io_ext W) p o w :
  read_csv_body io p o w
  = match pd_read_csv io p (read_csv_call o) w with
    | inl e => inl e
    | inr df =>
        let df' :=
          if default true (i_has_header o) && given (i_columns o)
             && (List.length (columns df) =? List.length (default [] (i_columns o)))%nat
          then mkFrame (nrows df) (zip (default [] (i_columns o)) (data df).*2)
          else df in
        if default false (i_validate_columns o) && given (i_columns o)
           && negb (forallb (fun col => in_columns col df') (default [] (i_columns o)))
        then inl (Error ValueError)
        else inr df'
    end.
Proof.
  unfold read_csv_body, read_csv_call.
  destruct (default true (i_has_header o)) eqn:Hh; cbn [andb];
    (destruct (pd_read_csv _ _ _ _) as [e|df]; [done|]); cbv zeta.
  - destruct (given (i_columns o)) eqn:Hg; cbn [andb].
    + destruct (List.length (columns df) =? _)%nat eqn:Hlen.
      * unfold set_labels. unfold columns in Hlen. rewrite length_fmap in Hlen.
        rewrite Nat.eqb_sym in Hlen. rewrite Hlen.
        destruct (default false (i_validate_columns o)); cbn [andb]; [|done].
        set (df' := mkFrame _ _).
        rewrite <- (negb_involutive (forallb _ _)).
        destruct (List.filter _ _) eqn:Hf.
        -- assert (Hall : forallb (fun col => in_columns col df') (default [] (i_columns o)) = true);
             [|by rewrite Hall].
           apply forallb_forall. intros c Hc.
           destruct (in_columns c df') eqn:Hin; [done|].
           assert (Hin' : In c (List.filter (fun col => negb (in_columns col df'))
                                   (default [] (i_columns o)))).
           { apply filter_In. by rewrite Hin. }
           by rewrite Hf in Hin'.
        -- assert (Hall : forallb (fun col => in_columns col df') (default [] (i_columns o)) = false);
             [|by rewrite Hall].
           apply not_true_is_false. intros Hall. rewrite forallb_forall in Hall.
           assert (Hin' : In s (List.filter (fun col => negb (in_columns col df'))
                                   (default [] (i_columns o)))).
           { rewrite Hf. by left. }
           apply filter_In in Hin' as [Hs Hneg]. by rewrite (Hall _ Hs) in Hneg.
      * destruct (default false (i_validate_columns o)); cbn [andb]; [|done].
        destruct (List.filter _ _) eqn:Hf.
        -- assert (Hall : forallb (fun col => in_columns col df) (default [] (i_columns o)) = true);
             [|by rewrite Hall].
           apply forallb_forall. intros c Hc.
           destruct (in_columns c df) eqn:Hin; [done|].
           assert (Hin' : In c (List.filter (fun col => negb (in_columns col df))
                                   (default [] (i_columns o)))).
           { apply filter_In. by rewrite Hin. }
           by rewrite Hf in Hin'.
        -- assert (Hall : forallb (fun col => in_columns col df) (default [] (i_columns o)) = false);
             [|by rewrite Hall].
           apply not_true_is_false. intros Hall. rewrite forallb_forall in Hall.
           assert (Hin' : In s (List.filter (fun col => negb (in_columns col df))
                                   (default [] (i_columns o)))).
           { rewrite Hf. by left. }
           apply filter_In in Hin' as [Hs Hneg]. by rewrite (Hall _ Hs) in Hneg.
    + by rewrite !andb_false_r.
  - destruct (default false (i_validate_columns o)); cbn [andb]; [|done].
    destruct (given (i_columns o)); cbn [andb]; [|done].
    destruct (List.filter _ _) eqn:Hf.
    + assert (Hall : forallb (fun col => in_columns col df) (default [] (i_columns o)) = true);
        [|by rewrite Hall].
      apply forallb_forall. intros c Hc.
      destruct (in_columns c df) eqn:Hin; [done|].
      assert (Hin' : In c (List.filter (fun col => negb (in_columns col df))
                              (default [] (i_columns o)))).
      { apply filter_In. by rewrite Hin. }
      by rewrite Hf in Hin'.
    + assert (Hall : forallb (fun col => in_columns col df) (default [] (i_columns o)) = false);
        [|by rewrite Hall].
      apply not_true_is_false. intros Hall. rewrite forallb_forall in Hall.
      assert (Hin' : In s (List.filter (fun col => negb (in_columns col df))
                              (default [] (i_columns o)))).
      { rewrite Hf. by left. }
      apply filter_In in Hin' as [Hs Hneg]. by rewrite (Hall _ Hs) in Hneg.
Qed.

(** When the file has a header row, the template lists columns and pandas
    finds as many columns as the template lists, read_csv replaces the
    labels of the file by the template's, position by position, and keeps
    the rows and the data; it does so whatever the labels of the file are,
    and a validation of the columns can then not fail. *)
Theorem read_csv_relabels_on_matching_count {W} (io : io_ext W) p o cols w d0 :
  default true (i_has_header o) = true -> i_columns o = Some cols -> cols <> [] ->
  pd_read_csv io p (read_csv_call o) w = inr d0 ->
  List.length (columns d0) = List.length cols ->
  exists d,
    read_csv io p o w = inr d
    /\ columns d = cols /\ (data d).*2 = (data d0).*2 /\ nrows d = nrows d0.
Proof.
  intros Hh Hc Hne Hread Hlen.
  assert (Hg : given (Some cols) = true) by (by destruct cols).
  assert (Hlen' : List.length cols = List.length (data d0).*2).
  { rewrite <- Hlen. unfold columns. by rewrite !length_fmap. }
  exists (mkFrame (nrows d0) (zip cols (data d0).*2)).
  assert (Hcols : columns (mkFrame (nrows d0) (zip cols (data d0).*2)) = cols).
  { unfold columns. cbn [data]. apply fst_zip. by rewrite Hlen'. }
  split; [|split; [done|split; [|done]]].
  - unfold read_csv. rewrite read_csv_body_call, Hread, Hh, Hc, Hg. cbv zeta.
    cbn [default from_option id andb]. rewrite Hlen, Nat.eqb_refl.
    assert (Hall : forallb (fun col => in_columns col (mkFrame (nrows d0) (zip cols (data d0).*2)))
                     cols = true).
    { apply forallb_forall. intros c Hin. unfold in_columns. rewrite Hcols.
      apply bool_decide_eq_true. by apply list_elem_of_In. }
    rewrite Hall. cbn [negb]. by rewrite andb_false_r.
  - cbn [data]. apply snd_zip. by rewrite Hlen'.
Qed.

Lemma read_csv_relabels_on_matching_count_witness :
  exists d,
    read_csv plain_io "in.csv"
      (mkInput (Some "csv") None None None (Some ["x"; "y"]) None (Some true) None None)
      {["in.csv" := frame_a_b]} = inr d
    /\ columns d = ["x"; "y"] /\ (data d).*2 = (data frame_a_b).*2
    /\ nrows d = nrows frame_a_b.
Proof.
  apply (read_csv_relabels_on_matching_count plain_io "in.csv"
           (mkInput (Some "csv") None None None (Some ["x"; "y"]) None (Some true) None None)
           ["x"; "y"] {["in.csv" := frame_a_b]} frame_a_b).
  - reflexivity.
  - reflexivity.
  - discriminate.
  - vm_compute. reflexivity.
  - reflexivity.
Defined.

(** A frame that read_csv returns under validate_columns has every column
    the template lists, with one exception: a file that pandas reports as
    empty gives the frame without rows and columns, and no validation. *)
Theorem read_csv_validates {W} (io : io_ext W) p o cols w d :
  i_validate_columns o = Some true -> i_columns o = Some cols ->
  read_csv io p o w = inr d ->
  (pd_read_csv io p (read_csv_call o) w = inl EmptyDataError /\ d = mkFrame 0 [])
  \/ Forall (fun c => c ∈ columns d) cols.
Proof.
  intros Hv Hc. unfold read_csv. rewrite read_csv_body_call, Hv, Hc.
  destruct (pd_read_csv _ _ _ _) as [e|df].
  { destruct e; try done. intros [= <-]. by left. }
  cbv zeta. cbn [default from_option id andb].
  destruct cols as [|c cols]; [intros _; right; constructor|].
  cbn [given]. rewrite andb_true_r. cbn [andb].
  match goal with
  | |- context [forallb ?f ?l] => destruct (forallb f l) eqn:Hall
  end; cbn [negb]; [|done].
  intros [= <-]. right. apply Forall_forall. intros x Hx.
  rewrite forallb_forall in Hall. apply list_elem_of_In in Hx.
  specialize (Hall _ Hx). unfold in_columns in Hall.
  by apply bool_decide_eq_true in Hall.
Qed.

Lemma read_csv_validates_witness :
  (pd_read_csv plain_io "in.csv"
     (read_csv_call
        (mkInput (Some "csv") None None None (Some ["b"]) (Some false) (Some true) None None))
     {["in.csv" := frame_a_b]} = inl EmptyDataError
   /\ frame_a_b = mkFrame 0 [])
  \/ Forall (fun c => c ∈ columns frame_a_b) ["b"].
Proof.
  apply (read_csv_validates plain_io "in.csv"
           (mkInput (Some "csv") None None None (Some ["b"]) (Some false) (Some true) None None)
           ["b"] {["in.csv" := frame_a_b]} frame_a_b).
  - reflexivity.
  - reflexivity.
  - vm_compute. reflexivity.
Defined.

(** When validate_columns is set and the frame, whose labels were not
    replaced (the file has no header row, or the count of its columns is
    not the template's), lacks a column that the template lists, read_csv
    fails, and what the caller sees is a plain Exception, not the
    ValueError that the validation raises. *)
Theorem read_csv_rejects_missing_columns {W} (io : io_ext W) p o cols w d0 c :
  i_validate_columns o = Some true -> i_columns o = Some cols ->
  pd_read_csv io p (read_csv_call o) w = inr d0 ->
  default true (i_has_header o) = false \/ List.length (columns d0) <> List.length cols ->
  c ∈ cols -> c ∉ columns d0 ->
  read_csv io p o w = inl Exception.
Proof.
  intros Hv Hc Hread Hkeep Hin Hnot.
  assert (Hg : given (Some cols) = true).
  { destruct cols; [|done]. by apply elem_of_nil in Hin. }
  unfold read_csv. rewrite read_csv_body_call, Hread, Hv, Hc, Hg. cbv zeta.
  cbn [default from_option id andb].
  assert (Hsame : (if default true (i_has_header o) && true
                      && (List.length (columns d0) =? List.length cols)%nat
                   then mkFrame (nrows d0) (zip cols (data d0).*2) else d0) = d0).
  { destruct Hkeep as [-> | Hlen]; [done|].
    apply Nat.eqb_neq in Hlen. rewrite Hlen. by rewrite andb_false_r. }
  rewrite Hsame.
  assert (Hall : forallb (fun col => in_columns col d0) cols = false); [|by rewrite Hall].
  apply not_true_is_false. intros Hall. rewrite forallb_forall in Hall.
  apply list_elem_of_In in Hin. specialize (Hall _ Hin).
  unfold in_columns in Hall. by apply bool_decide_eq_true in Hall.
Qed.

Lemma read_csv_rejects_missing_columns_witness :
  read_csv plain_io "in.csv"
    (mkInput (Some "csv") None None None (Some ["a"; "b"; "c"]) None (Some true) None None)
    {["in.csv" := frame_a_b]} = inl Exception.
Proof.
  apply (read_csv_rejects_missing_columns plain_io "in.csv"
           (mkInput (Some "csv") None None None (Some ["a"; "b"; "c"]) None (Some true) None None)
           ["a"; "b"; "c"] {["in.csv" := frame_a_b]} frame_a_b "c").
  - reflexivity.
  - reflexivity.
  - vm_compute. reflexivity.
  - right. vm_compute. discriminate.
  - right. right. left.
  - vm_compute. intros H. repeat (apply elem_of_cons in H as [H|H]; [discriminate H|]).
    by apply elem_of_nil in H.
Defined.

(** ** Dispatch of the readers and the classes of their exceptions *)

(** A CSV file that pandas reports as empty is no error: for every choice
    of the other options, validate_columns included, read_data returns the
    frame without rows and columns. *)
Theorem read_data_empty_csv {W} (io : io_ext W) p o w :
  lower (default "" (i_file_type o)) = "csv" ->
  pd_read_csv io p (read_csv_call o) w = inl EmptyDataError ->
  read_data io p o w = inr (mkFrame 0 []).
Proof.
  intros Ht He. unfold read_data. rewrite Ht. cbn [String.eqb Ascii.eqb Bool.eqb].
  unfold read_csv. by rewrite read_csv_body_call, He.
Qed.

Lemma read_data_empty_csv_witness :
  read_data plain_io "in.csv"
    (mkInput (Some "CSV") None None None (Some ["a"]) None (Some true) None None)
    {["in.csv" := mkFrame 0 []]} = inr (mkFrame 0 []).
Proof.
  apply (read_data_empty_csv plain_io "in.csv"
           (mkInput (Some "CSV") None None None (Some ["a"]) None (Some true) None None)
           {["in.csv" := mkFrame 0 []]}).
  - reflexivity.
  - vm_compute. reflexivity.
Defined.

Lemma read_csv_raises {W} (io : io_ext W) p o w e :
  read_csv io p o w = inl e ->
  e = Exception
  \/ (e = FileNotFoundError
      /\ pd_read_csv io p (read_csv_call o) w = inl FileNotFoundError).
Proof.
  unfold read_csv. rewrite read_csv_body_call.
  destruct (pd_read_csv _ _ _ _) as [e0|df].
  - destruct e0; intros [= <-]; auto.
  - cbv zeta. destruct (_ && negb _); [|done]. intros [= <-]. by left.
Qed.

Lemma read_json_raises {W} (io : io_ext W) p o w e :
  read_json io p o w = inl e ->
  exists e0, pd_read_json io p (read_json_call o) w = inl e0
    /\ ((e = FileNotFoundError /\ e0 = FileNotFoundError)
        \/ (e = Error ValueError /\ is_ValueError e0 = true)
        \/ (e = Exception /\ e0 <> FileNotFoundError /\ is_ValueError e0 = false)).
Proof.
  unfold read_json. change (mkReadJson _ _ _) with (read_json_call o).
  destruct (pd_read_json _ _ _ _) as [e0|df]; [|done].
  intros H. exists e0. split; [done|].
  destruct e0 as [| | |[]]; cbn in H; injection H as <-;
    first [ by left | by right; left | by right; right; repeat split ].
Qed.

(** read_data raises three classes only.  FileNotFoundError is the one of
    pandas, passed on.  A ValueError means that the file type is not
    supported, or that pd.read_json raised a ValueError; reading a CSV
    file never gives one, for a failed validation and every error of
    pd.read_csv but the two above arrive as a plain Exception. *)
Theorem read_data_error_classes {W} (io : io_ext W) p o w e :
  read_data io p o w = inl e ->
  e = FileNotFoundError
  \/ e = Exception
  \/ (e = Error ValueError
      /\ ((lower (default "" (i_file_type o)) ∉ file_types)
          \/ (lower (default "" (i_file_type o)) = "json"
              /\ exists e0, pd_read_json io p (read_json_call o) w = inl e0
                            /\ is_ValueError e0 = true))).
Proof.
  unfold read_data.
  destruct (String.eqb_spec (lower (default "" (i_file_type o))) "") as [He|Hne].
  { intros [= <-]. right. right. split; [done|]. left. rewrite He.
    intros H. repeat (apply elem_of_cons in H as [H|H]; [discriminate H|]).
    by apply elem_of_nil in H. }
  destruct (String.eqb_spec (lower (default "" (i_file_type o))) "csv") as [_|Hc].
  { intros H. apply read_csv_raises in H as [->|[-> _]]; auto. }
  destruct (String.eqb_spec (lower (default "" (i_file_type o))) "json") as [Hj|Hj].
  { intros H. apply read_json_raises in H as (e0 & He0 & [[-> _]|[[-> Hv]|[-> _]]]); auto.
    right. right. split; [done|]. right. split; [done|]. by exists e0. }
  intros [= <-]. right. right. split; [done|]. left.
  intros H. apply elem_of_cons in H as [H|H]; [done|].
  apply elem_of_cons in H as [H|H]; [done|]. by apply elem_of_nil in H.
Qed.

Lemma read_data_error_classes_witness :
  Exception = FileNotFoundError
  \/ Exception = Exception
  \/ (Exception = Error ValueError
      /\ ((lower (default ""
                    (i_file_type
                       (mkInput (Some "csv") None None None (Some ["a"; "c"]) (Some false)
                                (Some true) None None)))
           ∉ file_types)
          \/ (lower (default ""
                       (i_file_type
                          (mkInput (Some "csv") None None None (Some ["a"; "c"]) (Some false)
                                   (Some true) None None)))
              = "json"
              /\ exists e0,
                   pd_read_json plain_io "in.csv"
                     (read_json_call
                        (mkInput (Some "csv") None None None (Some ["a"; "c"]) (Some false)
                                 (Some true) None None))
                     {["in.csv" := frame_a_b]} = inl e0
                   /\ is_ValueError e0 = true))).
Proof.
  apply (read_data_error_classes plain_io "in.csv"
           (mkInput (Some "csv") None None None (Some ["a"; "c"]) (Some false)
                    (Some true) None None)
           {["in.csv" := frame_a_b]} Exception).
  vm_compute. reflexivity.
Defined.

(** * Properties of main *)

(** When main returns normally the whole chain has run: the template was
    loaded and has its 'input' and 'output' sections, read_data returned a
    frame, the transformations (skipped when the template has none)
    returned a frame, the directory of the output was created if it was
    missing, and write_data wrote the transformed frame without raising;
    the file system is the one this last call leaves. *)
Theorem main_done_means_written {W} ext (io : io_ext W) (os : os_ext W) tp ip op w w' :
  main ext io os tp ip op w = (Done, w') ->
  exists t i o d d' w1,
    json_load os tp w = inr t /\ t_input t = Some i /\ t_output t = Some o
    /\ read_data io ip i w = inr d
    /\ transformed ext (default (mkOptions None None None None []) (t_transformations t)) d
       = inr d'
    /\ (w1 = w \/ makedirs os (dirname os op) w = (None, w1))
    /\ write_data io d' op o w1 = (inr tt, w').
Proof.
  unfold main, load_template.
  destruct (json_load os tp w) as [e|t] eqn:Hload; [done|].
  destruct (t_input t) as [i|] eqn:Hi; [|done].
  destruct (t_output t) as [o|] eqn:Ho; [|done].
  destruct (read_data io ip i w) as [e|d] eqn:Hread; [done|].
  destruct (transformed ext _ d) as [e|d'] eqn:Htr; [done|].
  cbv zeta.
  destruct (negb (String.eqb (dirname os op) "") && negb (path_exists os (dirname os op) w)).
  - destruct (makedirs os (dirname os op) w) as [[e|] w1] eqn:Hmk; [done|].
    destruct (write_data io d' op o w1) as [[e|[]] w2] eqn:Hw; [done|].
    intros [= <-]. exists t, i, o, d, d', w1. repeat split; auto.
  - destruct (write_data io d' op o w) as [[e|[]] w2] eqn:Hw; [done|].
    intros [= <-]. exists t, i, o, d, d', w. repeat split; auto.
Qed.

Lemma main_done_means_written_witness :
  exists t i o d d' w1,
    json_load
      (plain_os (Some (mkTemplate
                         (Some (mkInput (Some "csv") None None None None None None None None))
                         None
                         (Some (mkOutput (Some "json") None None None None None None None None)))))
      "t.json" {["in.csv" := frame_a_b]} = inr t
    /\ t_input t = Some i /\ t_output t = Some o
    /\ read_data plain_io "in.csv" i {["in.csv" := frame_a_b]} = inr d
    /\ transformed plain_ext
         (default (mkOptions None None None None []) (t_transformations t)) d = inr d'
    /\ (w1 = {["in.csv" := frame_a_b]}
        \/ makedirs
             (plain_os (Some (mkTemplate
                                (Some (mkInput (Some "csv") None None None None None None None None))
                                None
                                (Some (mkOutput (Some "json") None None None None None None None None)))))
             (dirname
                (plain_os (Some (mkTemplate
                                   (Some (mkInput (Some "csv") None None None None None None None None))
                                   None
                                   (Some (mkOutput (Some "json") None None None None None None None None)))))
                "out.json")
             {["in.csv" := frame_a_b]} = (None, w1))
    /\ write_data plain_io d' "out.json" o w1
       = (inr tt, <["out.json" := frame_a_b]> {["in.csv" := frame_a_b]}).
Proof.
  apply (main_done_means_written plain_ext plain_io _ "t.json" "in.csv" "out.json"
           {["in.csv" := frame_a_b]}).
  vm_compute. reflexivity.
Defined.

(** main touches the file system last: if a run leaves the file system
    other than it found it, then the template was loaded with both
    sections, the input was read and the transformations returned a
    frame.  A template that cannot be loaded or lacks a section, an input
    that cannot be read and a transformation that raises all end the run
    with no directory created and nothing written. *)
Theorem main_touches_files_last {W} ext (io : io_ext W) (os : os_ext W) tp ip op w s w' :
  main ext io os tp ip op w = (s, w') -> w' <> w ->
  exists t i o d d',
    json_load os tp w = inr t /\ t_input t = Some i /\ t_output t = Some o
    /\ read_data io ip i w = inr d
    /\ transformed ext (default (mkOptions None None None None []) (t_transformations t)) d
       = inr d'.
Proof.
  unfold main, load_template. intros Hmain Hne.
  destruct (json_load os tp w) as [e|t] eqn:Hload; [by injection Hmain as _ <-|].
  destruct (t_input t) as [i|] eqn:Hi; [|by injection Hmain as _ <-].
  destruct (t_output t) as [o|] eqn:Ho; [|by injection Hmain as _ <-].
  destruct (read_data io ip i w) as [e|d] eqn:Hread; [by injection Hmain as _ <-|].
  destruct (transformed ext _ d) as [e|d'] eqn:Htr; [by injection Hmain as _ <-|].
  by exists t, i, o, d, d'.
Qed.

Lemma main_touches_files_last_witness :
  exists t i o d d',
    json_load
      (plain_os (Some (mkTemplate
                         (Some (mkInput (Some "csv") None None None None None None None None))
                         None
                         (Some (mkOutput (Some "json") None None None None None None None None)))))
      "t.json" {["in.csv" := frame_a_b]} = inr t
    /\ t_input t = Some i /\ t_output t = Some o
    /\ read_data plain_io "in.csv" i {["in.csv" := frame_a_b]} = inr d
    /\ transformed plain_ext
         (default (mkOptions None None None None []) (t_transformations t)) d = inr d'.
Proof.
  apply (main_touches_files_last plain_ext plain_io _ "t.json" "in.csv" "out.json"
           {["in.csv" := frame_a_b]} Done
           (<["out.json" := frame_a_b]> {["in.csv" := frame_a_b]})).
  - vm_compute. reflexivity.
  - intros H.
    assert (Hl : (<["out.json" := frame_a_b]> ({["in.csv" := frame_a_b]} : gmap string DataFrame))
                 !! "out.json" = Some frame_a_b) by apply lookup_insert_eq.
    rewrite H in Hl. vm_compute in Hl. discriminate Hl.
Defined.
